(** * DataPreprocessor: a shallow embedding of [data_preprocessor.py]

    The class [DataPreprocessor] holds a train and a test dataframe and
    sequences calls to the dataframe engine (column rewriting, string
    indexing, one-hot encoding, vector assembly, grouping and joining).

    The development has three layers:
    - [Py]: the Python built-ins the class relies on ([str.strip],
      [str.endswith], the [in] operator on strings and lists, dictionaries);
    - [Spark] and [Pandas]: the dataframe values and the engine primitives the
      class calls, written after the documented behaviour of PySpark 3 and
      pandas;
    - the class itself: every method of [data_preprocessor.py] as a
      computation in a state-and-exception monad over the instance.

    Evaluation of row-level expressions is deferred by the engine until an
    action runs.  The embedding keeps dataframes as plain values and
    represents a cell whose deferred computation would raise by the value
    [VError]; an action that reads such a cell raises.  Python [assert]
    statements are taken as executed.  A double is kept as a rational number,
    and the statistics of [describe()] and the parsing of [pandas.to_numeric],
    which compute on floating-point numbers, are parameters of
    [explore_numeric_columns].  The static method [print_exploration]
    returns the texts it prints, one per call of [print], and the text of a
    pandas table is its parameter.  A string is kept as the bytes of its
    UTF-8 encoding.  A name is looked up by its exact spelling; the engine
    also parses names and ignores the case of letters, so the statements that
    rest on a look-up are made for plain names, identifiers that differ even
    when case is ignored, on which the two agree.

    The statements follow the embedding: the classification of the columns
    and the constructor, [strip_columns], the steps of [prepare_to_model]
    and what they append, the label of the encoded dataframes, the list of
    columns assembled into features, the encoder, failure in the middle of
    [prepare_to_model], [explore_factors], and the lifetime of an
    instance.  Further properties of the methods come last: what a second
    call does, what the appended columns hold, which names the pipeline and
    the explorations cannot cope with, the tables of the explorations, and
    what stays unchanged during the lifetime of an instance. *)

From Stdlib Require Import List String Ascii Bool ZArith QArith Qround Lia Arith
  Permutation DecimalString.
From Stdlib Require Qpower Qcanon.
Import ListNotations.
Open Scope string_scope.
Open Scope list_scope.

(* ================================================================= *)
(** ** Python built-ins *)

Module Py.

(** [x in xs] for a list of strings. *)
Definition mem (x : string) (xs : list string) : bool :=
  existsb (String.eqb x) xs.

(** [s.endswith(suffix)]. *)
Definition endswith (s suffix : string) : bool :=
  (String.length suffix <=? String.length s)%nat
  && String.eqb
       (substring (String.length s - String.length suffix)
                  (String.length suffix) s)
       suffix.

(** [sub in s] for strings. *)
Fixpoint contains (sub s : string) : bool :=
  if prefix sub s then true
  else match s with
       | EmptyString => false
       | String _ s' => contains sub s'
       end.

(** Characters are dropped from the front while they belong to [chars]. *)
Fixpoint lstrip_list (chars l : list ascii) : list ascii :=
  match l with
  | [] => []
  | a :: l' =>
      if existsb (Ascii.eqb a) chars then lstrip_list chars l' else l
  end.

Definition rstrip_list (chars l : list ascii) : list ascii :=
  rev (lstrip_list chars (rev l)).

Definition strip_list (chars l : list ascii) : list ascii :=
  rstrip_list chars (lstrip_list chars l).

(** [s.strip(chars)].  A string is kept as the bytes of its UTF-8
    encoding; Python strips characters, which for characters of [chars] that
    are all ASCII is the same as stripping bytes. *)
Definition strip (s chars : string) : string :=
  string_of_list_ascii
    (strip_list (list_ascii_of_string chars) (list_ascii_of_string s)).

(** A dictionary with string keys: insertion order is kept, and assigning
    to a key that is present replaces its value in place. *)
Definition dict (V : Type) : Type := list (string * V).

Fixpoint setitem {V} (d : dict V) (k : string) (v : V) : dict V :=
  match d with
  | [] => [(k, v)]
  | (k', v') :: d' =>
      if String.eqb k' k then (k, v) :: d' else (k', v') :: setitem d' k v
  end.

Fixpoint getitem {V} (d : dict V) (k : string) : option V :=
  match d with
  | [] => None
  | (k', v') :: d' => if String.eqb k' k then Some v' else getitem d' k
  end.

Definition keys {V} (d : dict V) : list string := map fst d.

End Py.

(* ================================================================= *)
(** ** Exceptions and results *)

Inductive exn : Type :=
| AssertionError (msg : string)
| AnalysisException (msg : string)
| IllegalArgumentException (msg : string)
| SparkException (msg : string)
| AttributeError (msg : string)
| ValueError (msg : string)
| KeyError (msg : string)
| TypeError (msg : string).

Inductive result (A : Type) : Type :=
| Ok (a : A)
| Raise (e : exn).
Arguments Ok {A} a.
Arguments Raise {A} e.

Definition rbind {A B} (r : result A) (k : A -> result B) : result B :=
  match r with
  | Ok a => k a
  | Raise e => Raise e
  end.

Declare Scope result_scope.
Delimit Scope result_scope with result.
Notation "x <-- r ;;; k" := (rbind r (fun x => k))
  (at level 61, r at next level, right associativity) : result_scope.

Definition is_ok {A} (r : result A) : bool :=
  match r with Ok _ => true | Raise _ => false end.

(* ================================================================= *)
(** ** The dataframe engine *)

Module Spark.

(** Atomic column types and the vector type of the ML library.  Nested
    types (arrays, maps, structs) play no role in the class. *)
Inductive DataType : Type :=
| StringType | ByteType | ShortType | IntegerType | LongType
| FloatType | DoubleType | DecimalType (precision scale : nat)
| BooleanType | DateType | TimestampType | BinaryType | VectorUDT.

Definition show_nat (n : nat) : string :=
  NilZero.string_of_uint (Nat.to_uint n).

(** The type name reported by [df.dtypes]. *)
Definition simpleString (t : DataType) : string :=
  match t with
  | StringType => "string"
  | ByteType => "tinyint"
  | ShortType => "smallint"
  | IntegerType => "int"
  | LongType => "bigint"
  | FloatType => "float"
  | DoubleType => "double"
  | DecimalType p s => "decimal(" ++ show_nat p ++ "," ++ show_nat s ++ ")"
  | BooleanType => "boolean"
  | DateType => "date"
  | TimestampType => "timestamp"
  | BinaryType => "binary"
  | VectorUDT => "vector"
  end.

Definition is_integral (t : DataType) : bool :=
  match t with
  | ByteType | ShortType | IntegerType | LongType => true
  | _ => false
  end.

Definition is_floating (t : DataType) : bool :=
  match t with
  | FloatType | DoubleType => true
  | _ => false
  end.

(** [NumericType] of the engine. *)
Definition is_numeric (t : DataType) : bool :=
  match t with
  | DecimalType _ _ => true
  | _ => is_integral t || is_floating t
  end.

(** A double is kept as a rational: the class never computes with one. *)
Definition double : Type := Q.

Inductive value : Type :=
| VNull
| VStr (s : string)
| VInt (n : Z)
| VDouble (x : double)
| VBool (b : bool)
| VVector (v : list double)
| VError.

(** ML attributes stored in a column's metadata. *)
Inductive metadata : Type :=
| MetaNone
| MetaNominal (labels : list string)
| MetaGroup (size : nat).

Record column : Type := mkColumn {
  cname : string;
  ctype : DataType;
  cnullable : bool;
  cmeta : metadata;
  cdata : list value
}.

Definition DataFrame : Type := list column.

Record StructField : Type := mkField {
  fname : string;
  fdataType : DataType;
  fnullable : bool;
  fmetadata : metadata
}.

Definition field_of (c : column) : StructField :=
  mkField (cname c) (ctype c) (cnullable c) (cmeta c).

(** [df.schema] *)
Definition schema (df : DataFrame) : list StructField := map field_of df.

(** [df.dtypes] *)
Definition dtypes (df : DataFrame) : list (string * string) :=
  map (fun c => (cname c, simpleString (ctype c))) df.

(** [df.columns] *)
Definition columns (df : DataFrame) : list string := map cname df.

Definition DataType_eq_dec (a b : DataType) : {a = b} + {a <> b}.
Proof. decide equality; apply Nat.eq_dec. Defined.

Definition metadata_eq_dec (a b : metadata) : {a = b} + {a <> b}.
Proof.
  decide equality; [apply (list_eq_dec string_dec) | apply Nat.eq_dec].
Defined.

Definition StructField_eq_dec (a b : StructField) : {a = b} + {a <> b}.
Proof.
  decide equality;
    [apply metadata_eq_dec | apply bool_dec | apply DataType_eq_dec
    | apply string_dec].
Defined.

Definition schema_eq_dec (a b : list StructField) : {a = b} + {a <> b} :=
  list_eq_dec StructField_eq_dec a b.

Definition double_eq_dec (a b : double) : {a = b} + {a <> b}.
Proof. unfold double; decide equality; [apply Pos.eq_dec | apply Z.eq_dec]. Defined.

Definition value_eq_dec (a b : value) : {a = b} + {a <> b}.
Proof.
  decide equality;
    [apply string_dec | apply Z.eq_dec | apply double_eq_dec | apply bool_dec
    | apply (list_eq_dec double_eq_dec)].
Defined.

(** A name used in an expression must denote exactly one column.  The
    engine reads more into a name than the look-up below: a dot selects a
    field, backquotes quote, a star expands, and letters match whatever their
    case.  The look-up below is the engine's on the names called plain further
    down: identifiers that differ even when case is ignored, looked up by
    their exact spelling. *)
Definition resolve (df : DataFrame) (name : string) : result column :=
  match filter (fun c => String.eqb (cname c) name) df with
  | [c] => Ok c
  | [] => Raise (AnalysisException "cannot resolve column")
  | _ :: _ :: _ => Raise (AnalysisException "reference is ambiguous")
  end.

(** [df.withColumn(name, udf(f)(arg))] for a Python function [f] wrapped by
    [func.udf] with its default return type, string.  A column called
    [name] is replaced where it stands; otherwise the column is appended. *)
Definition withColumn_udf (df : DataFrame) (name : string)
    (f : value -> value) (arg : string) : result DataFrame :=
  (c <-- resolve df arg ;;;
   let new := mkColumn name StringType true MetaNone (map f (cdata c)) in
   Ok (if Py.mem name (columns df)
       then map (fun c' => if String.eqb (cname c') name then new else c') df
       else df ++ [new]))%result.

Fixpoint resolve_all (df : DataFrame) (names : list string)
  : result (list column) :=
  match names with
  | [] => Ok []
  | n :: ns =>
      (c <-- resolve df n ;;;
       cs <-- resolve_all df ns ;;;
       Ok (c :: cs))%result
  end.

(** [df.select] on a list of names *)
Definition select (df : DataFrame) (names : list string) : result DataFrame :=
  resolve_all df names.

(** [df.withColumnRenamed(existing, new)]: nothing happens when no column
    is called [existing]. *)
Definition withColumnRenamed (df : DataFrame) (existing new : string)
  : DataFrame :=
  map (fun c => if String.eqb (cname c) existing
                then mkColumn new (ctype c) (cnullable c) (cmeta c) (cdata c)
                else c) df.

(* --------------------------------------------------------------- *)
(** *** StringIndexer *)

Record StringIndexer : Type := mkStringIndexer {
  si_inputCol : string;
  si_outputCol : string
}.

Record StringIndexerModel : Type := mkStringIndexerModel {
  sim_inputCol : string;
  sim_outputCol : string;
  sim_labels : list string
}.

(** The strings of a column as an action reads them: nulls are skipped by
    the fit, a cell that cannot be computed fails the job. *)
Fixpoint read_strings (cells : list value) : result (list string) :=
  match cells with
  | [] => Ok []
  | VStr s :: rest => (ss <-- read_strings rest ;;; Ok (s :: ss))%result
  | VNull :: rest => read_strings rest
  | _ :: _ => Raise (SparkException "job failed while reading a string column")
  end.

Definition count_of (ss : list string) (s : string) : nat :=
  count_occ string_dec ss s.

(** [frequencyDesc]: more frequent first, equal frequencies in
    alphabetical order. *)
Definition label_before (ss : list string) (a b : string) : bool :=
  (count_of ss b <? count_of ss a)%nat
  || ((count_of ss a =? count_of ss b)%nat && String.leb a b).

Fixpoint insert_label (ss : list string) (a : string) (sorted : list string)
  : list string :=
  match sorted with
  | [] => [a]
  | b :: rest =>
      if label_before ss a b then a :: sorted
      else b :: insert_label ss a rest
  end.

Definition fit_labels (ss : list string) : list string :=
  fold_right (insert_label ss) [] (nodup string_dec ss).

Definition output_exists (df : DataFrame) (name : string) : bool :=
  Py.mem name (columns df).

(** Schema validation shared by the fit and the transform of an indexer.
    The class passes factor columns only; a numeric input, which the engine
    would first cast to string, is rejected here. *)
Definition si_validate (df : DataFrame) (input output : string)
  : result column :=
  (c <-- resolve df input ;;;
   match ctype c with
   | StringType =>
       if output_exists df output
       then Raise (IllegalArgumentException "Output column already exists.")
       else Ok c
   | _ => Raise (IllegalArgumentException "input column must be string")
   end)%result.

Definition si_fit (s : StringIndexer) (df : DataFrame)
  : result StringIndexerModel :=
  (c <-- si_validate df (si_inputCol s) (si_outputCol s) ;;;
   ss <-- read_strings (cdata c) ;;;
   Ok (mkStringIndexerModel (si_inputCol s) (si_outputCol s) (fit_labels ss)))%result.

Fixpoint index_of (s : string) (labels : list string) : option nat :=
  match labels with
  | [] => None
  | l :: rest =>
      if String.eqb l s then Some 0%nat
      else option_map S (index_of s rest)
  end.

Definition double_of_nat (n : nat) : double := inject_Z (Z.of_nat n).

(** With [handleInvalid='error'] an unseen label or a null raises when the
    row is computed. *)
Definition si_code (labels : list string) (v : value) : value :=
  match v with
  | VStr s =>
      match index_of s labels with
      | Some k => VDouble (double_of_nat k)
      | None => VError
      end
  | _ => VError
  end.

Definition si_transform (m : StringIndexerModel) (df : DataFrame)
  : result DataFrame :=
  (c <-- si_validate df (sim_inputCol m) (sim_outputCol m) ;;;
   Ok (df ++ [mkColumn (sim_outputCol m) DoubleType false
                (MetaNominal (sim_labels m))
                (map (si_code (sim_labels m)) (cdata c))]))%result.

(** [Pipeline.fit]: every stage is an estimator; each is fitted on the
    dataframe transformed by the stages before it, and the dataframe is
    transformed again only while a later estimator remains. *)
Fixpoint pipeline_fit (stages : list StringIndexer) (df : DataFrame)
  : result (list StringIndexerModel) :=
  match stages with
  | [] => Ok []
  | s :: rest =>
      (m <-- si_fit s df ;;;
       df' <-- match rest with
               | [] => Ok df
               | _ :: _ => si_transform m df
               end ;;;
       ms <-- pipeline_fit rest df' ;;;
       Ok (m :: ms))%result
  end.

Fixpoint pipeline_transform (ms : list StringIndexerModel) (df : DataFrame)
  : result DataFrame :=
  match ms with
  | [] => Ok df
  | m :: rest =>
      (df' <-- si_transform m df ;;; pipeline_transform rest df')%result
  end.

(* --------------------------------------------------------------- *)
(** *** OneHotEncoder (an estimator; [dropLast=True],
    [handleInvalid='error']) *)

(** A numeric cell read as a double. *)
Definition cell_double (v : value) : option double :=
  match v with
  | VInt n => Some (inject_Z n)
  | VDouble x => Some x
  | _ => None
  end.

Definition is_category_index (x : double) : bool :=
  Qle_bool 0 x && Qeq_bool x (inject_Z (Qfloor x))
  && Qle_bool x (inject_Z 2147483647).

(** The scan of an input column that carries no nominal attribute: every
    value must be a category index, and the largest one is returned. *)
Fixpoint scan_max (cells : list value) (acc : Z) : result Z :=
  match cells with
  | [] => Ok acc
  | v :: rest =>
      match cell_double v with
      | Some x =>
          if is_category_index x
          then scan_max rest (Z.max acc (Qfloor x))
          else Raise (SparkException "Values from column must be indices")
      | None => Raise (SparkException "job failed while reading a numeric column")
      end
  end.

Definition category_size (c : column) : result nat :=
  match cmeta c with
  | MetaNominal labels => Ok (List.length labels)
  | _ => (m <-- scan_max (cdata c) 0%Z ;;; Ok (S (Z.to_nat m)))%result
  end.

(** With [dropLast] the last category is dropped from the output attributes,
    so an input that carries a nominal attribute must show at least two
    values. *)
Definition ohe_enough_values (c : column) : bool :=
  match cmeta c with
  | MetaNominal labels => (2 <=? List.length labels)%nat
  | _ => true
  end.

(** Inputs must be numeric and show at least two values, and each output
    column is appended to the schema in turn, so it may clash neither with a
    column of the dataframe nor with an earlier output. *)
Fixpoint ohe_validate (df : DataFrame) (seen : list string)
    (inputs outputs : list string) : result (list column) :=
  match inputs, outputs with
  | [], [] => Ok []
  | i :: inputs', o :: outputs' =>
      (c <-- resolve df i ;;;
       if negb (is_numeric (ctype c))
       then Raise (IllegalArgumentException "input column must be numeric")
       else if negb (ohe_enough_values c)
       then Raise (IllegalArgumentException
                     "The input column should have at least two distinct values.")
       else if Py.mem o seen
       then Raise (IllegalArgumentException "Column already exists")
       else (cs <-- ohe_validate df (seen ++ [o]) inputs' outputs' ;;;
             Ok (c :: cs)))%result
  | _, _ =>
      Raise (IllegalArgumentException
               "The number of input columns must match the number of output columns")
  end.

Fixpoint category_sizes (cs : list column) : result (list nat) :=
  match cs with
  | [] => Ok []
  | c :: rest =>
      (n <-- category_size c ;;;
       ns <-- category_sizes rest ;;;
       Ok (n :: ns))%result
  end.

Definition ohe_fit (inputs outputs : list string) (df : DataFrame)
  : result (list nat) :=
  (cs <-- ohe_validate df (columns df) inputs outputs ;;;
   category_sizes cs)%result.

Definition unit_vector (size idx : nat) : list double :=
  map (fun i => if Nat.eqb i idx then 1%Q else 0%Q) (seq 0 size).

(** The encoding of one cell for a column of [size] categories: the vector
    has [size - 1] slots and the last category is the zero vector. *)
Definition ohe_encode (size : nat) (v : value) : value :=
  match v with
  | VNull => VNull
  | _ =>
      match cell_double v with
      | Some x =>
          if Qle_bool 0 x && negb (Qle_bool (inject_Z (Z.of_nat size)) x)
          then VVector (unit_vector (size - 1) (Z.to_nat (Qfloor x)))
          else VError
      | None => VError
      end
  end.

(** A nominal attribute on the input must agree with the fitted size. *)
Definition ohe_size_agrees (c : column) (size : nat) : bool :=
  match cmeta c with
  | MetaNominal ((_ :: _) as labels) => Nat.eqb (List.length labels) size
  | _ => true
  end.

Fixpoint ohe_columns (cs : list column) (sizes : list nat)
    (outputs : list string) : result (list column) :=
  match cs, sizes, outputs with
  | [], [], [] => Ok []
  | c :: cs', n :: sizes', o :: outputs' =>
      if ohe_size_agrees c n
      then (rest <-- ohe_columns cs' sizes' outputs' ;;;
            Ok (mkColumn o VectorUDT true (MetaGroup (n - 1))
                  (map (ohe_encode n) (cdata c)) :: rest))%result
      else Raise (IllegalArgumentException
                    "number of values in the metadata differs from the fitted size")
  | _, _, _ =>
      Raise (IllegalArgumentException
               "The number of input columns must match the number of category sizes")
  end.

Definition ohe_transform (sizes : list nat) (inputs outputs : list string)
    (df : DataFrame) : result DataFrame :=
  (cs <-- ohe_validate df (columns df) inputs outputs ;;;
   new <-- ohe_columns cs sizes outputs ;;;
   Ok (df ++ new))%result.

(* --------------------------------------------------------------- *)
(** *** VectorAssembler (a transformer; [handleInvalid='error']) *)

Definition va_supported (t : DataType) : bool :=
  match t with
  | BooleanType | VectorUDT => true
  | _ => is_numeric t
  end.

Fixpoint va_validate (df : DataFrame) (inputs : list string)
  : result (list column) :=
  match inputs with
  | [] => Ok []
  | i :: inputs' =>
      (c <-- resolve df i ;;;
       if va_supported (ctype c)
       then (cs <-- va_validate df inputs' ;;; Ok (c :: cs))
       else Raise (IllegalArgumentException "Data type is not supported."))%result
  end.

(** The length of a vector column is taken from its attribute group; when
    the group is missing the first row of the dataframe is read. *)
Definition va_length (c : column) : result nat :=
  match ctype c, cmeta c with
  | VectorUDT, MetaGroup n => Ok n
  | VectorUDT, _ =>
      match cdata c with
      | [] => Raise (SparkException "Encountered empty dataframe while inferring lengths from the first row.")
      | VVector v :: _ => Ok (List.length v)
      | _ :: _ => Raise (SparkException "Encountered null value while inferring lengths from the first row.")
      end
  | _, _ => Ok 1%nat
  end.

Fixpoint va_lengths (cs : list column) : result (list nat) :=
  match cs with
  | [] => Ok []
  | c :: rest =>
      (n <-- va_length c ;;;
       ns <-- va_lengths rest ;;;
       Ok (n :: ns))%result
  end.

(** The integer nearest to a rational, a tie going to the even one. *)
Definition round_half_even (x : Q) : Z :=
  let f := Qfloor x in
  match Qcompare (x - inject_Z f) (1 # 2) with
  | Lt => f
  | Gt => (f + 1)%Z
  | Eq => if Z.even f then f else (f + 1)%Z
  end.

(** The exponent [e] of a rational other than zero:
    [2 ^ e <= |x| < 2 ^ (e + 1)]. *)
Definition binade (x : Q) : Z :=
  let k := (Z.log2 (Z.abs (Qnum x)) - Z.log2 (Zpos (Qden x)))%Z in
  if Qle_bool (Qpower 2 k) (Z.abs (Qnum x) # Qden x) then k else (k - 1)%Z.

(** The cast of a number to a 64-bit double: the nearest number with 53
    significant bits, a tie going to the even mantissa.  Integers up to
    [2 ^ 53] in absolute value are kept exactly.  Exponents below the normal
    range share the spacing of the smallest normal binade; overflow is not
    modelled, no integer or decimal cell being that large. *)
Definition to_double (x : Q) : double :=
  if Qeq_bool x 0 then 0%Q
  else
    let ulp := Qpower 2 (Z.max (binade x) (-1022) - 52) in
    Qred (inject_Z (round_half_even (x / ulp)) * ulp).

(** The components a cell contributes: a number is cast to a double. *)
Definition va_cell (v : value) : option (list double) :=
  match v with
  | VInt n => Some [to_double (inject_Z n)]
  | VDouble x => Some [to_double x]
  | VBool b => Some [if b then 1%Q else 0%Q]
  | VVector l => Some l
  | _ => None
  end.

(** A null (or a cell that cannot be computed) makes the assembled row
    raise when it is computed. *)
Definition va_append (acc cell : value) : value :=
  match acc, va_cell cell with
  | VVector a, Some l => VVector (a ++ l)
  | _, _ => VError
  end.

Definition nrows (df : DataFrame) : nat :=
  match df with
  | [] => 0%nat
  | c :: _ => List.length (cdata c)
  end.

Definition va_rows (n : nat) (cs : list column) : list value :=
  fold_left
    (fun acc c => map (fun p => va_append (fst p) (snd p)) (combine acc (cdata c)))
    cs (repeat (VVector []) n).

Definition va_transform (inputs : list string) (output : string)
    (df : DataFrame) : result DataFrame :=
  (cs <-- va_validate df inputs ;;;
   if output_exists df output
   then Raise (IllegalArgumentException "Output column already exists.")
   else (ns <-- va_lengths cs ;;;
         Ok (df ++ [mkColumn output VectorUDT true
                      (MetaGroup (fold_right Nat.add 0%nat ns))
                      (va_rows (nrows df) cs)])))%result.

(* --------------------------------------------------------------- *)
(** *** The ML objects the class builds, and what fitting returns *)

Inductive MLObject : Type :=
| Pipeline (stages : list StringIndexer)
| PipelineModel (stages : list StringIndexerModel)
| OneHotEncoder (inputCols outputCols : list string)
| OneHotEncoderModel (categorySizes : list nat) (inputCols outputCols : list string)
| VectorAssembler (inputCols : list string) (outputCol : string).

(** [hasattr(model, "fit")]: estimators have the method. *)
Definition has_fit (m : MLObject) : bool :=
  match m with
  | Pipeline _ | OneHotEncoder _ _ => true
  | _ => false
  end.

Definition fit (m : MLObject) (df : DataFrame) : result MLObject :=
  match m with
  | Pipeline stages =>
      (ms <-- pipeline_fit stages df ;;; Ok (PipelineModel ms))%result
  | OneHotEncoder inputs outputs =>
      (sizes <-- ohe_fit inputs outputs df ;;;
       Ok (OneHotEncoderModel sizes inputs outputs))%result
  | _ => Raise (AttributeError "object has no attribute 'fit'")
  end.

Definition transform (m : MLObject) (df : DataFrame) : result DataFrame :=
  match m with
  | PipelineModel ms => pipeline_transform ms df
  | OneHotEncoderModel sizes inputs outputs =>
      ohe_transform sizes inputs outputs df
  | VectorAssembler inputs output => va_transform inputs output df
  | _ => Raise (AttributeError "object has no attribute 'transform'")
  end.

(* --------------------------------------------------------------- *)
(** *** Aggregate queries

    The result of a grouping is a small relation; it is kept row by row,
    with the column names on the side. *)

Record Frame : Type := mkFrame {
  fcols : list string;
  frows : list (list value)
}.

Fixpoint positions (names : list string) (name : string) (i : nat)
  : list nat :=
  match names with
  | [] => []
  | n :: rest =>
      if String.eqb n name then i :: positions rest name (S i)
      else positions rest name (S i)
  end.

(** The position of the one column called [name]. *)
Definition position (names : list string) (name : string) : result nat :=
  match positions names name 0 with
  | [i] => Ok i
  | [] => Raise (AnalysisException "cannot resolve column")
  | _ :: _ :: _ => Raise (AnalysisException "reference is ambiguous")
  end.

Definition cell (row : list value) (i : nat) : value := nth i row VNull.

Fixpoint remove_nth {A} (i : nat) (l : list A) : list A :=
  match i, l with
  | _, [] => []
  | O, _ :: rest => rest
  | S i', x :: rest => x :: remove_nth i' rest
  end.

(** [df.groupBy(column).count()]: one row per distinct value (null
    included), the count in a column called [count]. *)
Definition groupBy_count (df : DataFrame) (column : string) : result Frame :=
  (c <-- resolve df column ;;;
   Ok (mkFrame [column; "count"]
         (map (fun k => [k; VInt (Z.of_nat (count_occ value_eq_dec (cdata c) k))])
              (nodup value_eq_dec (cdata c)))))%result.

Definition int_of (v : value) : Z :=
  match v with
  | VInt n => n
  | _ => 0%Z
  end.

Fixpoint insert_desc (i : nat) (row : list value) (sorted : list (list value))
  : list (list value) :=
  match sorted with
  | [] => [row]
  | r :: rest =>
      if (int_of (cell r i) <? int_of (cell row i))%Z
      then row :: sorted
      else r :: insert_desc i row rest
  end.

(** [.orderBy(name, ascending=False)] on an integer column. *)
Definition orderBy_desc (f : Frame) (name : string) : result Frame :=
  (i <-- position (fcols f) name ;;;
   Ok (mkFrame (fcols f) (fold_right (insert_desc i) [] (frows f))))%result.

(** [.withColumn(name, func.col(src))] *)
Definition withColumn_col (f : Frame) (name src : string) : result Frame :=
  (j <-- position (fcols f) src ;;;
   Ok (if Py.mem name (fcols f)
       then mkFrame (fcols f)
              (map (fun row =>
                      map (fun p => if String.eqb (fst p) name
                                    then cell row j else snd p)
                          (combine (fcols f) row))
                   (frows f))
       else mkFrame (fcols f ++ [name])
              (map (fun row => row ++ [cell row j]) (frows f))))%result.

(** Equality of join keys: a null matches nothing. *)
Definition key_eqb (a b : value) : bool :=
  match a, b with
  | VNull, _ | _, VNull => false
  | _, _ => if value_eq_dec a b then true else false
  end.

Definition nulls (n : nat) : list value := repeat VNull n.

(** [l.join(r, [key], how="outer")]: the key comes first, then the other
    columns of [l], then those of [r]. *)
Definition join_outer (l r : Frame) (key : string) : result Frame :=
  (i <-- position (fcols l) key ;;;
   j <-- position (fcols r) key ;;;
   let lwidth := (List.length (fcols l) - 1)%nat in
   let rwidth := (List.length (fcols r) - 1)%nat in
   let matched :=
     flat_map
       (fun lr =>
          match filter (fun rr => key_eqb (cell lr i) (cell rr j)) (frows r) with
          | [] => [cell lr i :: remove_nth i lr ++ nulls rwidth]
          | ms => map (fun rr => cell lr i :: remove_nth i lr ++ remove_nth j rr) ms
          end)
       (frows l) in
   let right_only :=
     map (fun rr => cell rr j :: nulls lwidth ++ remove_nth j rr)
         (filter (fun rr => negb (existsb (fun lr => key_eqb (cell lr i) (cell rr j))
                                          (frows l)))
                 (frows r)) in
   Ok (mkFrame (key :: remove_nth i (fcols l) ++ remove_nth j (fcols r))
         (matched ++ right_only)))%result.

Fixpoint position_all (names wanted : list string) : result (list nat) :=
  match wanted with
  | [] => Ok []
  | w :: rest =>
      (i <-- position names w ;;;
       ixs <-- position_all names rest ;;;
       Ok (i :: ixs))%result
  end.

(** [.select] on the result of a query. *)
Definition select_frame (f : Frame) (wanted : list string) : result Frame :=
  (ixs <-- position_all (fcols f) wanted ;;;
   Ok (mkFrame wanted (map (fun row => map (cell row) ixs) (frows f))))%result.

(** [.withColumnRenamed] on the result of a query. *)
Definition rename_frame (f : Frame) (existing new : string) : Frame :=
  mkFrame (map (fun n => if String.eqb n existing then new else n) (fcols f))
          (frows f).

End Spark.

(* ================================================================= *)
(** ** Pandas tables *)

Module Pandas.

Import Spark.

(** A pandas dataframe: the index, the column labels and the rows. *)
Record DataFrame : Type := mkDataFrame {
  index : list value;
  columns : list string;
  rows : list (list value)
}.

(** [df.toPandas()]: the query runs, so a cell that cannot be computed
    fails the job; the rows get a range index. *)
Definition toPandas (f : Frame) : result DataFrame :=
  if existsb (existsb (fun v => if value_eq_dec v VError then true else false))
             (frows f)
  then Raise (SparkException "job failed while collecting rows")
  else Ok (mkDataFrame (map (fun i => VInt (Z.of_nat i)) (seq 0 (List.length (frows f))))
             (fcols f) (frows f)).

(** [df.set_index(label)]: the column becomes the index and leaves the
    columns. *)
Definition set_index (df : DataFrame) (label : string) : result DataFrame :=
  match positions (columns df) label 0 with
  | [i] => Ok (mkDataFrame (map (fun row => cell row i) (rows df))
                 (remove_nth i (columns df))
                 (map (remove_nth i) (rows df)))
  | [] => Raise (KeyError "None of the labels are in the columns")
  | _ :: _ :: _ => Raise (ValueError "Index data must be 1-dimensional")
  end.

(** [(x > 0).astype(int)] on one cell; a missing value compares false. *)
Definition binarize_cell (v : value) : result value :=
  match v with
  | VInt n => Ok (VInt (if (0 <? n)%Z then 1 else 0))
  | VDouble x => Ok (VInt (if Qle_bool x 0 then 0 else 1))
  | VBool b => Ok (VInt (if b then 1 else 0))
  | VNull => Ok (VInt 0)
  | _ => Raise (TypeError "'>' not supported between these operands")
  end.

Fixpoint map_result {A B} (f : A -> result B) (l : list A) : result (list B) :=
  match l with
  | [] => Ok []
  | x :: rest =>
      (y <-- f x ;;; ys <-- map_result f rest ;;; Ok (y :: ys))%result
  end.

Fixpoint update_nth {A} (i : nat) (f : A -> result A) (l : list A)
  : result (list A) :=
  match i, l with
  | _, [] => Ok []
  | O, x :: rest => (y <-- f x ;;; Ok (y :: rest))%result
  | S i', x :: rest => (ys <-- update_nth i' f rest ;;; Ok (x :: ys))%result
  end.

(** [df[label] = g(df[label])] for a cell-wise [g]. *)
Definition assign_column (df : DataFrame) (label : string)
    (g : value -> result value) : result DataFrame :=
  match positions (columns df) label 0 with
  | [i] => (rs <-- map_result (update_nth i g) (rows df) ;;;
            Ok (mkDataFrame (index df) (columns df) rs))%result
  | [] => Raise (KeyError label)
  | _ :: _ :: _ => Raise (ValueError "the column label is not unique")
  end.

End Pandas.

(* ================================================================= *)
(** ** The class [DataPreprocessor] *)

Import Spark.

Record DataPreprocessor : Type := mkDataPreprocessor {
  train_df : DataFrame;
  test_df : DataFrame;
  train_encoded_df : option DataFrame;
  test_encoded_df : option DataFrame;
  one_hot_suffix : string;
  indexed_suffix : string
}.

(** A method is a computation over the instance: it returns a value or
    raises, and in both cases leaves the instance as its assignments made
    it. *)
Definition M (A : Type) : Type := DataPreprocessor -> result A * DataPreprocessor.

Definition ret {A} (a : A) : M A := fun self => (Ok a, self).

Definition bind {A B} (m : M A) (k : A -> M B) : M B :=
  fun self =>
    match m self with
    | (Ok a, self') => k a self'
    | (Raise e, self') => (Raise e, self')
    end.

Declare Scope method_scope.
Delimit Scope method_scope with method.
Notation "x <- m ;; k" := (bind m (fun x => k))
  (at level 61, m at next level, right associativity) : method_scope.
Notation "m ;; k" := (bind m (fun _ => k))
  (at level 61, right associativity) : method_scope.
Open Scope method_scope.

Definition get {A} (field : DataPreprocessor -> A) : M A :=
  fun self => (Ok (field self), self).

Definition lift {A} (r : result A) : M A := fun self => (r, self).

Definition assert_ (b : bool) (msg : string) : M unit :=
  if b then ret tt else lift (Raise (AssertionError msg)).

Definition set_train_df (df : DataFrame) : M unit :=
  fun self =>
    (Ok tt, mkDataPreprocessor df (test_df self) (train_encoded_df self)
              (test_encoded_df self) (one_hot_suffix self) (indexed_suffix self)).

Definition set_test_df (df : DataFrame) : M unit :=
  fun self =>
    (Ok tt, mkDataPreprocessor (train_df self) df (train_encoded_df self)
              (test_encoded_df self) (one_hot_suffix self) (indexed_suffix self)).

Definition set_train_encoded_df (df : DataFrame) : M unit :=
  fun self =>
    (Ok tt, mkDataPreprocessor (train_df self) (test_df self) (Some df)
              (test_encoded_df self) (one_hot_suffix self) (indexed_suffix self)).

Definition set_test_encoded_df (df : DataFrame) : M unit :=
  fun self =>
    (Ok tt, mkDataPreprocessor (train_df self) (test_df self)
              (train_encoded_df self) (Some df)
              (one_hot_suffix self) (indexed_suffix self)).

(** [for x in xs: body(x)] *)
Fixpoint for_ {A} (xs : list A) (body : A -> M unit) : M unit :=
  match xs with
  | [] => ret tt
  | x :: rest => body x ;; for_ rest body
  end.

(** The constructor: no instance exists when the assertion fails. *)
Definition __init__ (train test : DataFrame) : result DataPreprocessor :=
  if schema_eq_dec (schema train) (schema test)
  then Ok (mkDataPreprocessor train test None None "_vec" "_cat")
  else Raise (AssertionError "Train and test dataframes must have the same schema").

(** [[col for col, data_type in df.dtypes if data_type in types]] *)
Definition cols_of_types (df : DataFrame) (types : list string) : list string :=
  map fst (filter (fun p => Py.mem (snd p) types) (dtypes df)).

Definition _get_cols_by_types (types : list string) : M (list string) :=
  train <- get train_df ;;
  test <- get test_df ;;
  let train_cols := cols_of_types train types in
  let test_cols := cols_of_types test types in
  assert_ (if list_eq_dec string_dec train_cols test_cols then true else false)
          "Columns in train and test df should be the same" ;;
  ret train_cols.

Definition factors : M (list string) := _get_cols_by_types ["string"].

Definition numeric_columns : M (list string) :=
  _get_cols_by_types ["double"; "int"].

(** [all(col in self.factors for col in columns)]: the property is read once
    per element, and the scan stops at the first column that is not a
    factor. *)
Fixpoint all_in_factors (columns : list string) : M bool :=
  match columns with
  | [] => ret true
  | col :: rest =>
      fs <- factors ;;
      if Py.mem col fs then all_in_factors rest else ret false
  end.

(** The message of the source also prints the columns. *)
Definition _assert_are_factors (columns : list string) : M unit :=
  ok <- all_in_factors columns ;;
  assert_ ok "Some column is not a factor".

(** The function wrapped by [func.udf] in [strip_columns]: on a null the
    lambda fails, when the row is computed. *)
Definition strip_column_udf (to_strip : string) (x : value) : value :=
  match x with
  | VStr s => VStr (Py.strip s (to_strip ++ " ")%string)
  | _ => VError
  end.

(** The body of the loop of [strip_columns]. *)
Definition strip_columns_body (to_strip : string) (column : string) : M unit :=
  train <- get train_df ;;
  train' <- lift (withColumn_udf train column (strip_column_udf to_strip) column) ;;
  set_train_df train' ;;
  test <- get test_df ;;
  test' <- lift (withColumn_udf test column (strip_column_udf to_strip) column) ;;
  set_test_df test'.

Definition strip_columns (columns : list string) (to_strip : string) : M unit :=
  _assert_are_factors columns ;;
  for_ columns (strip_columns_body to_strip).

Definition _fit_and_transform (model : MLObject) : M MLObject :=
  model <- (if has_fit model
            then train <- get train_df ;; lift (fit model train)
            else ret model) ;;
  train <- get train_df ;;
  train' <- lift (transform model train) ;;
  set_train_df train' ;;
  test <- get test_df ;;
  test' <- lift (transform model test) ;;
  set_test_df test' ;;
  ret model.

Definition string_index (columns : list string) (suffix : string) : M unit :=
  _assert_are_factors columns ;;
  let pipeline :=
    Pipeline (map (fun factor => mkStringIndexer factor (factor ++ suffix)%string) columns) in
  _fit_and_transform pipeline ;;
  ret tt.

Definition one_hot_encode (columns : list string) (suffix : string) : M unit :=
  let encoder := OneHotEncoder columns (map (fun col => (col ++ suffix)%string) columns) in
  _fit_and_transform encoder ;;
  ret tt.

Definition assemble_features (columns : list string) (out_name : string) : M unit :=
  let v_assembler := VectorAssembler columns out_name in
  _fit_and_transform v_assembler ;;
  ret tt.

Definition _one_hot_encode_columns (target_col : string) : M (list string) :=
  fs <- factors ;;
  suffix <- get indexed_suffix ;;
  ret (map (fun fac => (fac ++ suffix)%string)
           (filter (fun fac => negb (String.eqb fac target_col)) fs)).

Definition _columns_to_assemble (target_col : string) : M (list string) :=
  ns <- numeric_columns ;;
  isuffix <- get indexed_suffix ;;
  let numeric :=
    filter (fun col => negb (String.eqb col target_col)
                       && negb (Py.endswith col isuffix)) ns in
  train <- get train_df ;;
  osuffix <- get one_hot_suffix ;;
  let one_hot_encoded :=
    map fst (filter (fun p => Py.contains (isuffix ++ osuffix)%string (fst p))
                    (dtypes train)) in
  ret (numeric ++ one_hot_encoded).

Definition _select_to_model (df : DataFrame) (target_col : string)
  : result DataFrame :=
  (selected <-- select df [target_col; "features"] ;;;
   Ok (withColumnRenamed selected target_col "label"))%result.

Definition prepare_to_model (target_col : string) (to_strip : string) : M unit :=
  fs <- factors ;;
  strip_columns fs to_strip ;;
  fs <- factors ;;
  isuffix <- get indexed_suffix ;;
  string_index fs isuffix ;;
  cols <- _one_hot_encode_columns target_col ;;
  osuffix <- get one_hot_suffix ;;
  one_hot_encode cols osuffix ;;
  cols <- _columns_to_assemble target_col ;;
  assemble_features cols "features" ;;
  fs <- factors ;;
  isuffix <- get indexed_suffix ;;
  let target_col := if Py.mem target_col fs then (target_col ++ isuffix)%string else target_col in
  train <- get train_df ;;
  train_encoded <- lift (_select_to_model train target_col) ;;
  set_train_encoded_df train_encoded ;;
  test <- get test_df ;;
  test_encoded <- lift (_select_to_model test target_col) ;;
  set_test_encoded_df test_encoded.

Definition _get_join_count (column : string) : M Frame :=
  test <- get test_df ;;
  test_c <- lift (g <-- groupBy_count test column ;;;
                  o <-- orderBy_desc g "count" ;;;
                  withColumn_col o "in_test" "count")%result ;;
  train <- get train_df ;;
  train_c <- lift (g <-- groupBy_count train column ;;;
                   o <-- orderBy_desc g "count" ;;;
                   withColumn_col o "in_train" "count")%result ;;
  lift (j <-- join_outer train_c test_c column ;;;
        select_frame j [column; "in_train"; "in_test"])%result.

Fixpoint _binarize_pandas (pandas_df : Pandas.DataFrame) (cols : list string)
  : result Pandas.DataFrame :=
  match cols with
  | [] => Ok pandas_df
  | col :: rest =>
      (df' <-- Pandas.assign_column pandas_df col Pandas.binarize_cell ;;;
       _binarize_pandas df' rest)%result
  end.

Fixpoint explore_factors_loop (columns : list string)
    (factor_exploration : Py.dict Pandas.DataFrame)
  : M (Py.dict Pandas.DataFrame) :=
  match columns with
  | [] => ret factor_exploration
  | column :: rest =>
      join_count <- _get_join_count column ;;
      pandas_df <- lift (Pandas.toPandas join_count) ;;
      pandas_df <- lift (Pandas.set_index pandas_df column) ;;
      binarized <- lift (_binarize_pandas pandas_df ["in_test"; "in_train"]) ;;
      explore_factors_loop rest (Py.setitem factor_exploration column binarized)
  end.

Definition explore_factors : M (Py.dict Pandas.DataFrame) :=
  fs <- factors ;;
  explore_factors_loop fs [].

Section Exploration.

(** The five statistics of [describe()] (count, mean, stddev, min, max, as
    the engine prints them) and the parsing done by [pandas.to_numeric]
    work on floating-point numbers; they are left to the engine. *)
Variable describe_statistics : list value -> result (list value).
Variable to_numeric : value -> result value.

Definition describe (df : DataFrame) : result Frame :=
  match df with
  | [c] =>
      (stats <-- describe_statistics (cdata c) ;;;
       Ok (mkFrame ["summary"; cname c]
             (map (fun p => [VStr (fst p); snd p])
                  (combine ["count"; "mean"; "stddev"; "min"; "max"] stats))))%result
  | _ => Raise (ValueError "describe is used on one column only")
  end.

Fixpoint _make_pandas_df_numeric_loop (pandas_df : Pandas.DataFrame)
    (cols : list string) : result Pandas.DataFrame :=
  match cols with
  | [] => Ok pandas_df
  | col :: rest =>
      (df' <-- Pandas.assign_column pandas_df col to_numeric ;;;
       _make_pandas_df_numeric_loop df' rest)%result
  end.

Definition _make_pandas_df_numeric (pandas_df : Pandas.DataFrame)
  : result Pandas.DataFrame :=
  _make_pandas_df_numeric_loop pandas_df (Pandas.columns pandas_df).

Definition summary_of (df : DataFrame) (col new : string) : result Frame :=
  (selected <-- select df [col] ;;;
   described <-- describe selected ;;;
   Ok (rename_frame described col new))%result.

Fixpoint explore_numeric_columns_loop (columns : list string)
    (exploration : Py.dict Pandas.DataFrame)
  : M (Py.dict Pandas.DataFrame) :=
  match columns with
  | [] => ret exploration
  | col :: rest =>
      train <- get train_df ;;
      train_summary <- lift (summary_of train col "train") ;;
      test <- get test_df ;;
      test_summary <- lift (summary_of test col "test") ;;
      pandas_df <- lift (j <-- join_outer train_summary test_summary "summary" ;;;
                         Pandas.toPandas j)%result ;;
      indexed <- lift (Pandas.set_index pandas_df "summary") ;;
      numeric <- lift (_make_pandas_df_numeric indexed) ;;
      explore_numeric_columns_loop rest (Py.setitem exploration col numeric)
  end.

Definition explore_numeric_columns : M (Py.dict Pandas.DataFrame) :=
  ns <- numeric_columns ;;
  explore_numeric_columns_loop ns [].

End Exploration.

(** [s * n] on a string. *)
Fixpoint times (s : string) (n : nat) : string :=
  match n with
  | O => ""
  | S n' => s ++ times s n'
  end.

(** The text that [print] writes for its arguments, before the end of
    line: their texts separated by a space. *)
Definition print (args : list string) : string := String.concat " " args.

(** The static method [print_exploration]: the texts written to the
    standard output, one per call of [print].  The text of a pandas table,
    [str(df)], which spans several lines, is left to pandas. *)
Fixpoint print_exploration (to_string : Pandas.DataFrame -> string)
    (exploration : Py.dict Pandas.DataFrame) : list string :=
  match exploration with
  | [] => []
  | (column, df) :: rest =>
      print ["COLUMN:"; column; times "=" 15]
      :: print [to_string df]
      :: print [times "=" 50]
      :: print_exploration to_string rest
  end.

(* ================================================================= *)
(** ** Vocabulary of the statements *)

(** The declared types selected by the [factors] property. *)
Definition is_factor_type (t : DataType) : bool :=
  match t with
  | StringType => true
  | _ => false
  end.

(** The declared types selected by the [numeric_columns] property. *)
Definition is_numeric_column_type (t : DataType) : bool :=
  match t with
  | DoubleType | IntegerType => true
  | _ => false
  end.

(** The two type families of the data model: strings, and integer or
    floating-point numbers. *)
Definition recognized_family (t : DataType) : bool :=
  is_factor_type t || is_integral t || is_floating t.

Definition factor_columns (df : DataFrame) : list column :=
  filter (fun c => is_factor_type (ctype c)) df.

Definition numeric_column_list (df : DataFrame) : list column :=
  filter (fun c => is_numeric_column_type (ctype c)) df.

(** The instance invariant established by the constructor. *)
Definition same_schema (self : DataPreprocessor) : Prop :=
  schema (train_df self) = schema (test_df self).

(** The suffixes set by the constructor. *)
Definition default_suffixes (self : DataPreprocessor) : Prop :=
  indexed_suffix self = "_cat" /\ one_hot_suffix self = "_vec".

(** The instance after its two dataframes have been reassigned. *)
Definition with_dataframes (self : DataPreprocessor) (train test : DataFrame)
  : DataPreprocessor :=
  mkDataPreprocessor train test (train_encoded_df self) (test_encoded_df self)
    (one_hot_suffix self) (indexed_suffix self).

(** A column whose cells went through the stripping function. *)
Definition strip_column (to_strip : string) (c : column) : column :=
  mkColumn (cname c) StringType true MetaNone
    (map (strip_column_udf to_strip) (cdata c)).

(** The dataframe in which the columns named in [names] are stripped and
    the others are left as they are. *)
Definition strip_df (to_strip : string) (names : list string) (df : DataFrame)
  : DataFrame :=
  map (fun c => if Py.mem (cname c) names then strip_column to_strip c else c) df.

(** No character of [chars] at the front of [l]. *)
Definition no_leading (chars l : list ascii) : Prop :=
  match l with
  | [] => True
  | a :: _ => existsb (Ascii.eqb a) chars = false
  end.

(** The test used to resolve a name. *)
Definition named (n : string) (c : column) : bool := String.eqb (cname c) n.

(** The name [n] denotes exactly one column of [df]. *)
Definition unique_in (df : DataFrame) (n : string) : Prop :=
  List.length (filter (named n) df) = 1%nat.


(** An ASCII letter or an underscore; an ASCII digit. *)
Definition is_letter (a : ascii) : bool :=
  let n := nat_of_ascii a in
  ((65 <=? n) && (n <=? 90))%nat || ((97 <=? n) && (n <=? 122))%nat
  || (n =? 95)%nat.

Definition is_digit (a : ascii) : bool :=
  let n := nat_of_ascii a in ((48 <=? n) && (n <=? 57))%nat.

(** A name made of ASCII letters, digits and underscores that does not start
    with a digit: the engine reads nothing into such a name. *)
Definition is_identifier (s : string) : bool :=
  match s with
  | EmptyString => false
  | String a rest =>
      is_letter a
      && forallb (fun b => is_letter b || is_digit b) (list_ascii_of_string rest)
  end.

(** The name with its ASCII capitals in lower case: the engine takes two
    names that agree up to case for the same name. *)
Definition lower_char (a : ascii) : ascii :=
  let n := nat_of_ascii a in
  if ((65 <=? n) && (n <=? 90))%nat then ascii_of_nat (n + 32) else a.

Definition lower (s : string) : string :=
  string_of_list_ascii (map lower_char (list_ascii_of_string s)).

(** Names on which the engine's look-up is the literal one: every name is an
    identifier and no two of them agree up to case. *)
Definition plain (names : list string) : Prop :=
  Forall (fun n => is_identifier n = true) names /\ NoDup (map lower names).

Definition plain_names (df : DataFrame) : Prop := plain (columns df).


(** The column appended by a fitted indexer, computed from its input
    column. *)
Definition indexed_column (m : StringIndexerModel) (src : column) : column :=
  mkColumn (sim_outputCol m) DoubleType false (MetaNominal (sim_labels m))
    (map (si_code (sim_labels m)) (cdata src)).

(** The column appended by a fitted encoder for an input of [size]
    categories. *)
Definition encoded_column (size : nat) (output : string) (src : column) : column :=
  mkColumn output VectorUDT true (MetaGroup (size - 1))
    (map (ohe_encode size) (cdata src)).

Definition encoded_columns (srcs : list column) (sizes : list nat)
    (outputs : list string) : list column :=
  map (fun p => encoded_column (fst (snd p)) (snd (snd p)) (fst p))
      (combine srcs (combine sizes outputs)).

(** The first three steps of [prepare_to_model], up to the list of columns
    that the fourth step hands to [assemble_features]. *)
Definition assembly_columns (target_col to_strip : string) : M (list string) :=
  fs <- factors ;;
  strip_columns fs to_strip ;;
  fs <- factors ;;
  isuffix <- get indexed_suffix ;;
  string_index fs isuffix ;;
  cols <- _one_hot_encode_columns target_col ;;
  osuffix <- get one_hot_suffix ;;
  one_hot_encode cols osuffix ;;
  _columns_to_assemble target_col.

(** The last two steps of [prepare_to_model]: the choice of the label column
    and the two projections. *)
Definition select_encoded (target_col : string) : M unit :=
  fs <- factors ;;
  isuffix <- get indexed_suffix ;;
  let target_col := if Py.mem target_col fs then (target_col ++ isuffix)%string else target_col in
  train <- get train_df ;;
  train_encoded <- lift (_select_to_model train target_col) ;;
  set_train_encoded_df train_encoded ;;
  test <- get test_df ;;
  test_encoded <- lift (_select_to_model test target_col) ;;
  set_test_encoded_df test_encoded.

(** The names of the columns appended by the indexing of the factors [fs],
    and by the encoding of the indexed factors other than the target. *)
Definition indexed_names (fs : list string) : list string :=
  map (fun fac => (fac ++ "_cat")%string) fs.

Definition encoder_inputs (target_col : string) (fs : list string) : list string :=
  map (fun fac => (fac ++ "_cat")%string)
      (filter (fun fac => negb (String.eqb fac target_col)) fs).

Definition encoded_names (target_col : string) (fs : list string) : list string :=
  map (fun col => (col ++ "_vec")%string) (encoder_inputs target_col fs).

(** The numeric columns kept for the assembly. *)
Definition kept_numeric (target_col : string) (df : DataFrame) : list string :=
  filter (fun col => negb (String.eqb col target_col)
                     && negb (Py.endswith col "_cat"))
         (columns (numeric_column_list df)).

(** The list handed to [assemble_features], in terms of the dataframe the
    pipeline started from: the kept numeric columns, then every column name
    that contains [_cat_vec] among the input columns and the indexed
    columns, then the encoded columns. *)
Definition assembly_list (target_col : string) (df : DataFrame) : list string :=
  let fs := columns (factor_columns df) in
  kept_numeric target_col df
  ++ filter (Py.contains "_cat_vec") (columns df ++ indexed_names fs)
  ++ encoded_names target_col fs.


(** What the first three steps of [prepare_to_model] build. *)
Record Steps : Type := mkSteps {
  st_models : list StringIndexerModel;
  st_indexed_train : DataFrame;
  st_indexed_test : DataFrame;
  st_sizes : list nat;
  st_encoded_train : DataFrame;
  st_encoded_test : DataFrame
}.

Record steps_ok (target_col to_strip : string) (self : DataPreprocessor)
    (t : Steps) : Prop := mkStepsOk {
  ok_unique :
    forall n, In n (columns (factor_columns (train_df self))) ->
              unique_in (train_df self) n /\ unique_in (test_df self) n;
  ok_test_factors :
    columns (factor_columns (train_df self))
    = columns (factor_columns (test_df self));
  ok_fit :
    pipeline_fit
      (map (fun f => mkStringIndexer f (f ++ "_cat"))
           (columns (factor_columns (train_df self))))
      (strip_df to_strip (columns (factor_columns (train_df self))) (train_df self))
    = Ok (st_models t);
  ok_index_train :
    pipeline_transform (st_models t)
      (strip_df to_strip (columns (factor_columns (train_df self))) (train_df self))
    = Ok (strip_df to_strip (columns (factor_columns (train_df self))) (train_df self)
          ++ st_indexed_train t);
  ok_index_test :
    pipeline_transform (st_models t)
      (strip_df to_strip (columns (factor_columns (train_df self))) (test_df self))
    = Ok (strip_df to_strip (columns (factor_columns (train_df self))) (test_df self)
          ++ st_indexed_test t);
  ok_indexed_train_names :
    columns (st_indexed_train t)
    = indexed_names (columns (factor_columns (train_df self)));
  ok_indexed_test_names :
    columns (st_indexed_test t)
    = indexed_names (columns (factor_columns (train_df self)));
  ok_indexed_train_types :
    Forall (fun c => ctype c = DoubleType) (st_indexed_train t);
  ok_indexed_test_types :
    Forall (fun c => ctype c = DoubleType) (st_indexed_test t);
  ok_encoded_train_names :
    columns (st_encoded_train t)
    = encoded_names target_col (columns (factor_columns (train_df self)));
  ok_encoded_test_names :
    columns (st_encoded_test t)
    = encoded_names target_col (columns (factor_columns (train_df self)));
  ok_encoded_train_types :
    Forall (fun c => ctype c = VectorUDT) (st_encoded_train t);
  ok_encoded_test_types :
    Forall (fun c => ctype c = VectorUDT) (st_encoded_test t)
}.

(** The two dataframes after the first three steps. *)
Definition train_after_steps (to_strip : string) (self : DataPreprocessor)
    (t : Steps) : DataFrame :=
  strip_df to_strip (columns (factor_columns (train_df self))) (train_df self)
  ++ st_indexed_train t ++ st_encoded_train t.

Definition test_after_steps (to_strip : string) (self : DataPreprocessor)
    (t : Steps) : DataFrame :=
  strip_df to_strip (columns (factor_columns (train_df self))) (test_df self)
  ++ st_indexed_test t ++ st_encoded_test t.

(** The five steps of [prepare_to_model], in order. *)
Definition strip_step (to_strip : string) : M unit :=
  fs <- factors ;;
  strip_columns fs to_strip.

Definition index_step : M unit :=
  fs <- factors ;;
  isuffix <- get indexed_suffix ;;
  string_index fs isuffix.

Definition encode_step (target_col : string) : M unit :=
  cols <- _one_hot_encode_columns target_col ;;
  osuffix <- get one_hot_suffix ;;
  one_hot_encode cols osuffix.

Definition assemble_step (target_col : string) : M unit :=
  cols <- _columns_to_assemble target_col ;;
  assemble_features cols "features".

Definition pipeline_steps (target_col to_strip : string) : list (M unit) :=
  [strip_step to_strip; index_step; encode_step target_col;
   assemble_step target_col; select_encoded target_col].

Fixpoint run_steps (steps : list (M unit)) : M unit :=
  match steps with
  | [] => ret tt
  | step :: rest => step ;; run_steps rest
  end.

(** Two results that agree on success or failure, and are related by [R]
    when both succeed. *)
Definition rel_result {A B} (R : A -> B -> Prop) (r1 : result A) (r2 : result B)
  : Prop :=
  match r1, r2 with
  | Ok a, Ok b => R a b
  | Raise e1, Raise e2 => e1 = e2
  | _, _ => False
  end.

(** Two columns with the same schema field. *)
Definition same_fields (c1 c2 : column) : Prop := field_of c1 = field_of c2.

(** A vector column carries its size in its metadata. *)
Definition sized (c : column) : Prop :=
  ctype c = VectorUDT -> exists n, cmeta c = MetaGroup n.

(** Every vector column carries its size in its metadata, as the columns
    produced by the encoder and by the assembler do. *)
Definition sized_vectors (df : DataFrame) : Prop :=
  forall c, In c df -> sized c.

(** An instance as the constructor makes it from datasets of the data model:
    identical schemas, the default suffixes, distinct column names, sized
    vector columns. *)
Definition well_formed (self : DataPreprocessor) : Prop :=
  same_schema self /\ default_suffixes self
  /\ NoDup (columns (train_df self))
  /\ sized_vectors (train_df self).

(** A computation that, from a well-formed instance, either completes and
    leaves a well-formed instance, or raises and leaves the instance as it
    found it. *)
Definition all_or_nothing {A} (m : M A) : Prop :=
  forall self r self',
    well_formed self -> m self = (r, self') ->
    match r with
    | Ok _ => well_formed self'
    | Raise _ => self' = self
    end.

(** A computation that leaves the test dataframe alone when it raises, as
    a step that fits and transforms does: the test dataframe is assigned
    last. *)
Definition raise_keeps_test {A} (m : M A) : Prop :=
  forall self e self', m self = (Raise e, self') -> test_df self' = test_df self.

(** The names that [_get_join_count] gives to its own columns. *)
Definition join_count_names : list string := ["count"; "in_train"; "in_test"].

(** The rows of [groupBy(column).count()] for the cells of the column. *)
Definition counted_rows (cells : list value) : list (list value) :=
  map (fun k => [k; VInt (Z.of_nat (count_occ value_eq_dec cells k))])
      (nodup value_eq_dec cells).

(** The rows of one side of the join: sorted by count, the count copied. *)
Definition side_rows (cells : list value) : list (list value) :=
  map (fun row => row ++ [cell row 1])
      (fold_right (insert_desc 1) [] (counted_rows cells)).

(** The rows of the outer join of the two sides on their first column. *)
Definition joined_rows (l r : list (list value)) : list (list value) :=
  flat_map
    (fun lr =>
       match filter (fun rr => key_eqb (cell lr 0) (cell rr 0)) r with
       | [] => [cell lr 0 :: remove_nth 0 lr ++ nulls 2]
       | ms => map (fun rr => cell lr 0 :: remove_nth 0 lr ++ remove_nth 0 rr) ms
       end)
    l
  ++ map (fun rr => cell rr 0 :: nulls 2 ++ remove_nth 0 rr)
         (filter (fun rr => negb (existsb (fun lr => key_eqb (cell lr 0) (cell rr 0)) l))
                 r).

(** The rows of the frame returned by [_get_join_count]. *)
Definition join_count_rows (train_cells test_cells : list value)
  : list (list value) :=
  map (fun row => map (cell row) [0; 2; 4]%nat)
      (joined_rows (side_rows train_cells) (side_rows test_cells)).

(** The count of [k] among [cells] as the join shows it: missing when [k]
    does not occur. *)
Definition count_or_null (cells : list value) (k : value) : value :=
  match count_occ value_eq_dec cells k with
  | O => VNull
  | S n => VInt (Z.of_nat (S n))
  end.

(** The indicator computed by [_binarize_pandas] from such a count. *)
Definition indicator (cells : list value) (k : value) : value :=
  VInt (if (0 <? Z.of_nat (count_occ value_eq_dec cells k))%Z then 1 else 0).

(** A cell of a count column after the join: a count or a null. *)
Definition is_count (v : value) : Prop := v = VNull \/ exists n, v = VInt n.

(** The indicator that [_binarize_pandas] puts in place of a count. *)
Definition binarize_count (v : value) : value :=
  match v with
  | VInt n => VInt (if (0 <? n)%Z then 1 else 0)
  | _ => VInt 0
  end.

(** The table that [explore_factors] stores for a factor, from the rows of
    the joined counts. *)
Definition exploration_table (rows : list (list value)) : Pandas.DataFrame :=
  Pandas.mkDataFrame (map (fun row => cell row 0) rows) ["in_train"; "in_test"]
    (map (fun row => [binarize_count (cell row 1); binarize_count (cell row 2)]) rows).

(** A row of joined counts that can be collected. *)
Definition collectable (row : list value) : Prop :=
  exists k a b, row = [k; a; b] /\ k <> VError /\ is_count a /\ is_count b.

(** The rows of a pandas table paired with their index. *)
Definition indexed_rows (t : Pandas.DataFrame) : list (value * list value) :=
  combine (Pandas.index t) (Pandas.rows t).

(** The cells of the column called [name], when there is exactly one. *)
Definition cells_of (df : DataFrame) (name : string) : list value :=
  match resolve df name with
  | Ok c => cdata c
  | Raise _ => []
  end.

(** The table of a factor, from the instance. *)
Definition factor_table (self : DataPreprocessor) (column : string)
  : Pandas.DataFrame :=
  exploration_table
    (join_count_rows (cells_of (train_df self) column)
                     (cells_of (test_df self) column)).

(** No cell of the dataframe is the outcome of a failed computation. *)
Definition no_errors (df : DataFrame) : Prop :=
  forall c, In c df -> ~ In VError (cdata c).

(** One call of a public method on the instance, whatever its arguments and
    whether it returns or raises. *)
Inductive called : DataPreprocessor -> DataPreprocessor -> Prop :=
| call_strip_columns cols to_strip self r self' :
    strip_columns cols to_strip self = (r, self') -> called self self'
| call_string_index cols suffix self r self' :
    string_index cols suffix self = (r, self') -> called self self'
| call_one_hot_encode cols suffix self r self' :
    one_hot_encode cols suffix self = (r, self') -> called self self'
| call_assemble_features cols out_name self r self' :
    assemble_features cols out_name self = (r, self') -> called self self'
| call_prepare_to_model target_col to_strip self r self' :
    prepare_to_model target_col to_strip self = (r, self') -> called self self'
| call_explore_factors self r self' :
    explore_factors self = (r, self') -> called self self'
| call_explore_numeric_columns describe_statistics to_numeric self r self' :
    explore_numeric_columns describe_statistics to_numeric self = (r, self') ->
    called self self'.

(** The states an instance goes through after its construction. *)
Inductive lifetime (self0 : DataPreprocessor) : DataPreprocessor -> Prop :=
| lifetime_start : lifetime self0 self0
| lifetime_call self self' :
    lifetime self0 self -> called self self' -> lifetime self0 self'.

(** ** Vocabulary of the further properties *)

(** A computation that leaves the encoded dataframes and the two suffixes
    as they are, whether it returns or raises. *)
Definition keeps_encoded {A} (m : M A) : Prop :=
  forall self r self',
    m self = (r, self') ->
    train_encoded_df self' = train_encoded_df self
    /\ test_encoded_df self' = test_encoded_df self
    /\ one_hot_suffix self' = one_hot_suffix self
    /\ indexed_suffix self' = indexed_suffix self.

(** The rows of a pandas table after the cell-wise function [g] has been
    assigned to the columns labelled by [cols]: a cell under one of these
    labels is the outcome of [g] on the old cell, every other cell is
    unchanged. *)
Definition updated_rows (g : value -> result value) (labels cols : list string)
    (rows rows' : list (list value)) : Prop :=
  Forall2
    (fun row row' =>
       List.length row' = List.length row
       /\ forall j, (j < List.length row)%nat ->
            match nth_error labels j with
            | Some l =>
                if Py.mem l cols then g (cell row j) = Ok (cell row' j)
                else cell row' j = cell row j
            | None => cell row' j = cell row j
            end)
    rows rows'.

(** A code stands for the label found at its position; the cell that
    raises stands for a value that is no string or whose string is not among
    the labels. *)
Definition decodes (labels : list string) (v code : value) : Prop :=
  match code with
  | VDouble x =>
      exists k s, v = VStr s /\ x = double_of_nat k /\ nth_error labels k = Some s
  | VError => forall s, v = VStr s -> ~ In s labels
  | _ => False
  end.

(** A computation that, from a well-formed instance, keeps the columns of
    the train dataframe in place and at most appends columns after them. *)
Definition appends {A} (m : M A) : Prop :=
  forall self r self',
    well_formed self -> m self = (r, self') ->
    exists more, columns (train_df self') = columns (train_df self) ++ more.


(** The names of the statistics of [describe()], in its order. *)
Definition statistics : list string := ["count"; "mean"; "stddev"; "min"; "max"].

(** The value of a successful parse. *)
Definition value_of (r : result value) : value :=
  match r with
  | Ok v => v
  | Raise _ => VNull
  end.

(** The statistics of the column called [name]. *)
Definition statistics_of (describe_statistics : list value -> result (list value))
    (df : DataFrame) (name : string) : list value :=
  match describe_statistics (cells_of df name) with
  | Ok stats => stats
  | Raise _ => []
  end.

(** The table that [explore_numeric_columns] stores for a column, from the
    statistics of the train and of the test column. *)
Definition numeric_table (describe_statistics : list value -> result (list value))
    (to_numeric : value -> result value) (self : DataPreprocessor) (name : string)
  : Pandas.DataFrame :=
  Pandas.mkDataFrame (map VStr statistics) ["train"; "test"]
    (map (fun p => [value_of (to_numeric (fst p)); value_of (to_numeric (snd p))])
         (combine (statistics_of describe_statistics (train_df self) name)
                  (statistics_of describe_statistics (test_df self) name))).

(** What the class needs from the two functions left to the engine, for a
    column: [describe()] yields its five statistics, none of which fails to
    compute, and [pandas.to_numeric] parses each of them. *)
Definition described (describe_statistics : list value -> result (list value))
    (to_numeric : value -> result value) (c : column) : Prop :=
  exists stats,
    describe_statistics (cdata c) = Ok stats
    /\ List.length stats = 5%nat
    /\ ~ In VError stats
    /\ forall v, In v stats -> exists w, to_numeric v = Ok w.




(** The three texts printed for an entry of the dictionary, one per call of
    [print]: the header, the text of the table and the rule. *)
Definition printed_block (to_string : Pandas.DataFrame -> string)
    (exploration : Py.dict Pandas.DataFrame) (column : string) : list string :=
  [("COLUMN: " ++ column ++ " ===============")%string;
   match Py.getitem exploration column with
   | Some df => to_string df
   | None => ""
   end;
   "=================================================="].

(** ** Datasets used as examples *)




Definition string_column (name : string) (cells : list string) : column :=
  mkColumn name StringType true MetaNone (map VStr cells).

Definition int_column (name : string) (cells : list Z) : column :=
  mkColumn name IntegerType true MetaNone (map VInt cells).

Definition float_column (name : string) (cells : list double) : column :=
  mkColumn name FloatType true MetaNone (map VDouble cells).

Definition example_train : DataFrame :=
  [string_column "color" [" red "; "blue"; "red"];
   string_column "shape" ["round"; "square"; "round"];
   int_column "size" [1; 2; 3]%Z;
   int_column "target" [0; 1; 0]%Z].

Definition example_test : DataFrame :=
  [string_column "color" ["blue"; " red "];
   string_column "shape" ["square"; "square"];
   int_column "size" [4; 5]%Z;
   int_column "target" [1; 0]%Z].

Definition example_self : DataPreprocessor :=
  mkDataPreprocessor example_train example_test None None "_vec" "_cat".




(** Two instances with the same test dataframe, whose train dataframes show
    three and two categories. *)
Definition three_categories : DataPreprocessor :=
  mkDataPreprocessor [int_column "code" [0; 1; 2]%Z] [int_column "code" [0; 1]%Z]
    None None "_vec" "_cat".







(** A dataset that already has a column called [features]. *)
Definition features_train : DataFrame :=
  [string_column "color" [" red "; "blue"];
   int_column "features" [7; 8]%Z;
   int_column "target" [0; 1]%Z].

Definition features_test : DataFrame :=
  [string_column "color" ["blue"; "blue "];
   int_column "features" [9; 6]%Z;
   int_column "target" [1; 1]%Z].

Definition features_self : DataPreprocessor :=
  mkDataPreprocessor features_train features_test None None "_vec" "_cat".

(** The example of the claim on [explore_factors]. *)
Definition colors_self : DataPreprocessor :=
  mkDataPreprocessor
    [string_column "color" ["red"; "blue"; "red"]; int_column "size" [1; 2; 3]%Z]
    [string_column "color" ["blue"; "green"]; int_column "size" [4; 5]%Z]
    None None "_vec" "_cat".

(** A dataset whose factor is called [count]. *)
Definition count_self : DataPreprocessor :=
  mkDataPreprocessor
    [string_column "count" ["few"; "many"]] [string_column "count" ["many"]]
    None None "_vec" "_cat".

(** A dataset whose numeric column is called [summary]. *)
Definition summary_self : DataPreprocessor :=
  mkDataPreprocessor
    [int_column "summary" [1; 2]%Z] [int_column "summary" [3]%Z]
    None None "_vec" "_cat".

(** A table of joined counts, as [explore_factors] hands it to
    [_binarize_pandas]. *)
Definition counts_table : Pandas.DataFrame :=
  Pandas.mkDataFrame [VStr "red"; VStr "blue"; VStr "green"]
    ["in_train"; "in_test"]
    [[VInt 2; VNull]; [VInt 1; VInt 1]; [VNull; VInt 1]].

(** Stand-ins for the statistics of [describe()] and for
    [pandas.to_numeric]: the count of the cells alone, and the identity. *)
Definition count_only (cells : list value) : result (list value) :=
  Ok [VInt (Z.of_nat (List.length cells)); VNull; VNull; VNull; VNull].

Definition as_is (v : value) : result value := Ok v.



(** A dataset with a vector column that does not carry its size, and a test
    dataframe without rows. *)
Definition unsized_train : DataFrame :=
  [string_column "color" ["red"; "blue"];
   mkColumn "v_cat_vec" VectorUDT true MetaNone [VVector [1%Q; 0%Q]; VVector [0%Q; 1%Q]];
   int_column "target" [0; 1]%Z].

Definition unsized_test : DataFrame :=
  [string_column "color" [];
   mkColumn "v_cat_vec" VectorUDT true MetaNone [];
   int_column "target" []].

Definition unsized_self : DataPreprocessor :=
  mkDataPreprocessor unsized_train unsized_test None None "_vec" "_cat".

(** The claim that after a failure of [prepare_to_model] the instance is as
    the steps completed before the failure left it. *)
Definition failure_leaves_completed_steps : Prop :=
  forall target to_strip self e self',
    same_schema self -> default_suffixes self ->
    prepare_to_model target to_strip self = (Raise e, self') ->
    exists completed failing rest,
      pipeline_steps target to_strip = completed ++ failing :: rest
      /\ run_steps completed self = (Ok tt, self').

(** The claim that [explore_factors] returns a table for every factor
    column. *)
Definition explore_factors_covers_every_factor : Prop :=
  forall self,
    same_schema self -> NoDup (columns (train_df self)) ->
    no_errors (train_df self) -> no_errors (test_df self) ->
    exists d,
      fst (explore_factors self) = Ok d
      /\ forall n, In n (columns (factor_columns (train_df self))) ->
                   Py.getitem d n <> None.


(** The claim that [factors] and [numeric_columns] together cover every
    column of the two type families of the data model. *)
Definition covers_recognized_families : Prop :=
  forall train test self fs ns,
    __init__ train test = Ok self ->
    fst (factors self) = Ok fs ->
    fst (numeric_columns self) = Ok ns ->
    forall c, In c train -> recognized_family (ctype c) = true ->
              In (cname c) (fs ++ ns).


(** ** Tactics *)

(** Both sides are sequences of the same calls, grouped differently: follow
    the calls one by one. *)
Ltac split_binds :=
  unfold bind;
  repeat (match goal with
          | |- context [match ?x with (_, _) => _ end] =>
              destruct x as [[? | ?] ?]
          end; try reflexivity).

(** Comparisons of two string constants are evaluated; those that mention a
    variable are left alone. *)
Ltac eval_eqb :=
  repeat match goal with
         | |- context [String.eqb ?a ?b] =>
             let v := eval vm_compute in (String.eqb a b) in
             match v with
             | true => change (String.eqb a b) with true
             | false => change (String.eqb a b) with false
             end
         end.

(* ================================================================= *)
(** * Properties *)

(** ** Reasoning about methods *)

Lemma bind_ok {A B} (m : M A) (k : A -> M B) self b self' :
  bind m k self = (Ok b, self') ->
  exists a self1, m self = (Ok a, self1) /\ k a self1 = (Ok b, self').
Proof.
  unfold bind. destruct (m self) as [[a | e] self1]; intro H.
  - exists a, self1. split; [reflexivity | exact H].
  - discriminate H.
Qed.

Lemma bind_raise {A B} (m : M A) (k : A -> M B) self e self' :
  bind m k self = (Raise e, self') ->
  m self = (Raise e, self')
  \/ exists a self1, m self = (Ok a, self1) /\ k a self1 = (Raise e, self').
Proof.
  unfold bind. destruct (m self) as [[a | e0] self1]; intro H.
  - right. exists a, self1. split; [reflexivity | exact H].
  - left. injection H as -> ->. reflexivity.
Qed.

Lemma bind_eq_ok {A B} (m : M A) (k : A -> M B) self a self1 :
  m self = (Ok a, self1) -> bind m k self = k a self1.
Proof. unfold bind. intros ->. reflexivity. Qed.

Lemma bind_eq_raise {A B} (m : M A) (k : A -> M B) self e self1 :
  m self = (Raise e, self1) -> bind m k self = (Raise e, self1).
Proof. unfold bind. intros ->. reflexivity. Qed.

Lemma rbind_ok {A B} (r : result A) (k : A -> result B) b :
  rbind r k = Ok b -> exists a, r = Ok a /\ k a = Ok b.
Proof.
  destruct r as [a | e]; simpl; intro H; [exists a; auto | discriminate].
Qed.

(** ** Column classification *)

Lemma mem_In x xs : Py.mem x xs = true <-> In x xs.
Proof.
  unfold Py.mem. rewrite existsb_exists. split.
  - intros [y [Hin Heq]]. apply String.eqb_eq in Heq. subst. exact Hin.
  - intro Hin. exists x. split; [exact Hin | apply String.eqb_refl].
Qed.

Lemma mem_false_not_In x xs : Py.mem x xs = false <-> ~ In x xs.
Proof.
  rewrite <- mem_In. destruct (Py.mem x xs); split; congruence.
Qed.

Lemma dtype_is_string t :
  Py.mem (simpleString t) ["string"] = is_factor_type t.
Proof. destruct t; reflexivity. Qed.

Lemma dtype_is_double_or_int t :
  Py.mem (simpleString t) ["double"; "int"] = is_numeric_column_type t.
Proof. destruct t; reflexivity. Qed.

Lemma cols_of_types_filter (df : DataFrame) types (p : DataType -> bool) :
  (forall t, Py.mem (simpleString t) types = p t) ->
  cols_of_types df types = columns (filter (fun c => p (ctype c)) df).
Proof.
  intro Hp. unfold cols_of_types, dtypes, columns.
  induction df as [| c df IH]; simpl; [reflexivity |].
  rewrite Hp. destruct (p (ctype c)); simpl; rewrite IH; reflexivity.
Qed.

Lemma schema_dtypes df1 df2 : schema df1 = schema df2 -> dtypes df1 = dtypes df2.
Proof.
  unfold schema, dtypes. revert df2.
  induction df1 as [| c1 df1 IH]; intros [| c2 df2] H; cbn [map] in *;
    try discriminate; [reflexivity |].
  injection H as Hn Ht _ _ Hrest.
  rewrite Hn, Ht. f_equal. apply IH. exact Hrest.
Qed.

Lemma schema_columns df1 df2 : schema df1 = schema df2 -> columns df1 = columns df2.
Proof.
  intro H. apply schema_dtypes in H. unfold columns.
  assert (E : forall df, map cname df = map fst (dtypes df)).
  { intro df. unfold dtypes. rewrite map_map. reflexivity. }
  rewrite !E, H. reflexivity.
Qed.

Lemma get_cols_by_types_run types self :
  dtypes (train_df self) = dtypes (test_df self) ->
  _get_cols_by_types types self = (Ok (cols_of_types (train_df self) types), self).
Proof.
  intro H. unfold _get_cols_by_types, bind, get, assert_, ret, cols_of_types.
  rewrite <- H.
  destruct (list_eq_dec string_dec _ _) as [_ | Hne]; [reflexivity | congruence].
Qed.

(** Whatever the two dataframes are, a list that the property returns is the
    list computed over train and also the one computed over test, and reading
    the property leaves the instance alone. *)
Lemma get_cols_by_types_inv types self r self' :
  _get_cols_by_types types self = (r, self') ->
  self' = self
  /\ forall cols, r = Ok cols ->
       cols = cols_of_types (train_df self) types
       /\ cols = cols_of_types (test_df self) types.
Proof.
  unfold _get_cols_by_types, bind, get, assert_, ret, lift.
  destruct (list_eq_dec string_dec _ _) as [E | _]; intro H;
    injection H as <- <-; split; auto; intros cols Hc;
    [injection Hc as <-; auto | discriminate].
Qed.

Lemma factors_run self :
  same_schema self ->
  factors self = (Ok (columns (factor_columns (train_df self))), self).
Proof.
  intro H. unfold factors. rewrite get_cols_by_types_run by (apply schema_dtypes, H).
  rewrite (cols_of_types_filter _ _ is_factor_type dtype_is_string). reflexivity.
Qed.

Lemma numeric_columns_run self :
  same_schema self ->
  numeric_columns self = (Ok (columns (numeric_column_list (train_df self))), self).
Proof.
  intro H. unfold numeric_columns.
  rewrite get_cols_by_types_run by (apply schema_dtypes, H).
  rewrite (cols_of_types_filter _ _ is_numeric_column_type dtype_is_double_or_int).
  reflexivity.
Qed.

Lemma filter_type_schema (p : DataType -> bool) df1 df2 :
  schema df1 = schema df2 ->
  columns (filter (fun c => p (ctype c)) df1)
  = columns (filter (fun c => p (ctype c)) df2).
Proof.
  unfold schema, columns. revert df2.
  induction df1 as [| c1 df1 IH]; intros [| c2 df2] H; cbn [map filter] in *;
    try discriminate; [reflexivity |].
  injection H as Hn Ht _ _ Hrest.
  rewrite Ht. destruct (p (ctype c2)); cbn [map]; rewrite ?Hn, (IH _ Hrest); reflexivity.
Qed.

Lemma init_ok train test self :
  __init__ train test = Ok self ->
  train_df self = train /\ test_df self = test
  /\ same_schema self /\ default_suffixes self
  /\ train_encoded_df self = None /\ test_encoded_df self = None.
Proof.
  unfold __init__, same_schema, default_suffixes.
  destruct (schema_eq_dec _ _) as [E | _]; intro H; [| discriminate].
  injection H as <-. simpl. auto 10.
Qed.

Lemma NoDup_map_In_eq {A B} (f : A -> B) (l : list A) x y :
  NoDup (map f l) -> In x l -> In y l -> f x = f y -> x = y.
Proof.
  induction l as [| a l IH]; simpl; intros Hnd Hx Hy Hf; [contradiction |].
  inversion Hnd as [| ? ? Hnotin Hnd']; subst.
  destruct Hx as [-> | Hx], Hy as [-> | Hy]; auto.
  - exfalso. apply Hnotin. rewrite Hf. apply in_map. exact Hy.
  - exfalso. apply Hnotin. rewrite <- Hf. apply in_map. exact Hx.
Qed.

Lemma In_columns_filter (p : column -> bool) df n :
  In n (columns (filter p df)) <-> exists c, In c df /\ p c = true /\ cname c = n.
Proof.
  unfold columns. rewrite in_map_iff. split.
  - intros [c [Hn Hin]]. apply filter_In in Hin. exists c. tauto.
  - intros [c [Hin [Hp Hn]]]. exists c. split; [exact Hn |].
    apply filter_In. auto.
Qed.

(** ** The constructor *)

(** C5: when the schemas of train and test differ, in the names, the types
    or the order of the columns, the constructor fails with the assertion
    error and returns no instance, so that no method can be called. *)
Theorem C5_constructor_rejects_different_schemas (train test : DataFrame) :
  schema train <> schema test \/ dtypes train <> dtypes test
  \/ columns train <> columns test ->
  __init__ train test
  = Raise (AssertionError "Train and test dataframes must have the same schema")
  /\ forall self, __init__ train test <> Ok self.
Proof.
  intro Hdiff.
  assert (Hs : schema train <> schema test).
  { destruct Hdiff as [H | [H | H]]; [exact H | |]; intro E; apply H.
    - apply schema_dtypes, E.
    - apply schema_columns, E. }
  unfold __init__. destruct (schema_eq_dec _ _) as [E | _]; [contradiction |].
  split; [reflexivity | intros self H; discriminate H].
Qed.

Lemma C5_witness :
  __init__ [int_column "size" [1%Z]] [string_column "size" ["1"]]
  = Raise (AssertionError "Train and test dataframes must have the same schema")
  /\ forall self,
       __init__ [int_column "size" [1%Z]] [string_column "size" ["1"]] <> Ok self.
Proof.
  apply C5_constructor_rejects_different_schemas.
  right. left. vm_compute. intro H. discriminate H.
Defined.

(** ** The two properties *)

Lemma factor_or_numeric_type t :
  is_factor_type t || is_numeric_column_type t = true
  <-> t = StringType \/ t = IntegerType \/ t = DoubleType.
Proof.
  destruct t; simpl; split; intro H; auto;
    try discriminate; destruct H as [H | [H | H]]; discriminate.
Qed.


(** ** [str.strip] *)

Section Strip.

Variable chars : list ascii.

Lemma lstrip_no_leading l : no_leading chars (Py.lstrip_list chars l).
Proof.
  induction l as [| a l IH]; simpl; [exact I |].
  destruct (existsb (Ascii.eqb a) chars) eqn:E; [exact IH | exact E].
Qed.

Lemma lstrip_fixed l : no_leading chars l -> Py.lstrip_list chars l = l.
Proof. destruct l as [| a l]; simpl; [reflexivity | intros ->; reflexivity]. Qed.


Lemma lstrip_snoc l a :
  existsb (Ascii.eqb a) chars = false ->
  Py.lstrip_list chars (l ++ [a]) = Py.lstrip_list chars l ++ [a].
Proof.
  intro Ha. induction l as [| b l IH]; simpl.
  - rewrite Ha. reflexivity.
  - destruct (existsb (Ascii.eqb b) chars); [exact IH | reflexivity].
Qed.

Lemma rstrip_no_trailing l : no_leading chars (rev (Py.rstrip_list chars l)).
Proof. unfold Py.rstrip_list. rewrite rev_involutive. apply lstrip_no_leading. Qed.

Lemma rstrip_fixed l : no_leading chars (rev l) -> Py.rstrip_list chars l = l.
Proof.
  intro H. unfold Py.rstrip_list. rewrite (lstrip_fixed _ H). apply rev_involutive.
Qed.

Lemma rstrip_keeps_front l :
  no_leading chars l -> no_leading chars (Py.rstrip_list chars l).
Proof.
  destruct l as [| a l]; [intros _; exact I |]. simpl. intro Ha.
  unfold Py.rstrip_list. simpl rev. rewrite (lstrip_snoc _ _ Ha).
  rewrite rev_app_distr. simpl. exact Ha.
Qed.

Lemma strip_list_idempotent l :
  Py.strip_list chars (Py.strip_list chars l) = Py.strip_list chars l.
Proof.
  unfold Py.strip_list at 1.
  rewrite lstrip_fixed.
  - apply rstrip_fixed. unfold Py.strip_list. apply rstrip_no_trailing.
  - unfold Py.strip_list. apply rstrip_keeps_front, lstrip_no_leading.
Qed.


End Strip.

Lemma strip_idempotent s chars : Py.strip (Py.strip s chars) chars = Py.strip s chars.
Proof.
  unfold Py.strip. rewrite list_ascii_of_string_of_list_ascii.
  rewrite strip_list_idempotent. reflexivity.
Qed.

Lemma strip_column_udf_idempotent to_strip v :
  strip_column_udf to_strip (strip_column_udf to_strip v) = strip_column_udf to_strip v.
Proof.
  destruct v; simpl; try reflexivity. rewrite strip_idempotent. reflexivity.
Qed.

(** ** Resolution of names and in-place replacement *)

Lemma filter_none {A} (p : A -> bool) (l : list A) :
  (forall x, In x l -> p x = false) -> filter p l = [].
Proof.
  induction l as [| a l IH]; simpl; intro H; [reflexivity |].
  rewrite (H a (or_introl eq_refl)). apply IH. intros x Hx. apply H. right. exact Hx.
Qed.

Lemma resolve_ok df n c : resolve df n = Ok c <-> filter (named n) df = [c].
Proof.
  unfold resolve. fold (named n).
  destruct (filter (named n) df) as [| c1 [| c2 l]]; split; intro H;
    try discriminate; congruence.
Qed.

Lemma resolve_ok_unique df n :
  (exists c, resolve df n = Ok c) <-> List.length (filter (named n) df) = 1%nat.
Proof.
  split.
  - intros [c H]. apply resolve_ok in H. rewrite H. reflexivity.
  - intro H. destruct (filter (named n) df) as [| c [| c2 l]] eqn:E;
      try discriminate. exists c. apply resolve_ok. exact E.
Qed.

Lemma resolve_In df n c : resolve df n = Ok c -> In c df /\ cname c = n.
Proof.
  intro H. apply resolve_ok in H.
  assert (Hin : In c (filter (named n) df)) by (rewrite H; left; reflexivity).
  apply filter_In in Hin. destruct Hin as [Hin Hn]. split; [exact Hin |].
  apply String.eqb_eq. exact Hn.
Qed.

Lemma resolve_the_one df n c c' :
  resolve df n = Ok c -> In c' df -> cname c' = n -> c' = c.
Proof.
  intros H Hin Hn. apply resolve_ok in H.
  assert (Hin' : In c' (filter (named n) df)).
  { apply filter_In. split; [exact Hin |]. unfold named. rewrite Hn.
    apply String.eqb_refl. }
  rewrite H in Hin'. destruct Hin' as [E | []]. congruence.
Qed.

Lemma resolve_NoDup df c :
  NoDup (columns df) -> In c df -> resolve df (cname c) = Ok c.
Proof.
  intros Hnd Hin. apply resolve_ok.
  induction df as [| a df IH]; [contradiction |].
  unfold columns in Hnd. simpl in Hnd. inversion Hnd as [| ? ? Hnotin Hnd']; subst.
  simpl. unfold named at 1. destruct Hin as [-> | Hin].
  - rewrite String.eqb_refl. f_equal.
    apply filter_none. intros x Hx. unfold named.
    destruct (String.eqb (cname x) (cname c)) eqn:E; [| reflexivity].
    apply String.eqb_eq in E. exfalso. apply Hnotin. rewrite <- E.
    apply in_map. exact Hx.
  - destruct (String.eqb (cname a) (cname c)) eqn:E.
    + apply String.eqb_eq in E. exfalso. apply Hnotin. rewrite E.
      apply in_map. exact Hin.
    + apply IH; assumption.
Qed.

Lemma strip_df_columns to_strip names df :
  columns (strip_df to_strip names df) = columns df.
Proof.
  unfold columns, strip_df. rewrite map_map. apply map_ext.
  intro c. destruct (Py.mem (cname c) names); reflexivity.
Qed.

Lemma strip_df_named_length to_strip names df n :
  List.length (filter (named n) (strip_df to_strip names df))
  = List.length (filter (named n) df).
Proof.
  unfold strip_df. induction df as [| c df IH]; simpl; [reflexivity |].
  assert (E : named n (if Py.mem (cname c) names then strip_column to_strip c else c)
              = named n c).
  { destruct (Py.mem (cname c) names); reflexivity. }
  rewrite E. destruct (named n c); simpl; rewrite IH; reflexivity.
Qed.

(** Rewriting a column from itself: the call succeeds exactly when the name
    denotes one column, and then that column alone is replaced. *)
Lemma withColumn_udf_self to_strip df n :
  List.length (filter (named n) df) = 1%nat ->
  withColumn_udf df n (strip_column_udf to_strip) n = Ok (strip_df to_strip [n] df).
Proof.
  intro H. apply resolve_ok_unique in H. destruct H as [c Hc].
  unfold withColumn_udf. rewrite Hc. simpl.
  destruct (resolve_In _ _ _ Hc) as [Hin Hn].
  assert (Hmem : Py.mem n (columns df) = true).
  { apply mem_In. rewrite <- Hn. apply in_map. exact Hin. }
  rewrite Hmem. f_equal. unfold strip_df. apply map_ext_in.
  intros c' Hin'. simpl. rewrite orb_false_r.
  destruct (String.eqb (cname c') n) eqn:E; [| reflexivity].
  apply String.eqb_eq in E.
  rewrite (resolve_the_one _ _ _ _ Hc Hin' E). unfold strip_column. congruence.
Qed.

Lemma withColumn_udf_self_inv to_strip df n df' :
  withColumn_udf df n (strip_column_udf to_strip) n = Ok df' ->
  List.length (filter (named n) df) = 1%nat.
Proof.
  unfold withColumn_udf. intro H. apply rbind_ok in H. destruct H as [c [Hc _]].
  apply resolve_ok_unique. exists c. exact Hc.
Qed.

Lemma strip_df_cons to_strip n names df :
  strip_df to_strip names (strip_df to_strip [n] df) = strip_df to_strip (n :: names) df.
Proof.
  unfold strip_df. rewrite map_map. apply map_ext. intro c. simpl.
  rewrite orb_false_r.
  destruct (String.eqb (cname c) n) eqn:E; simpl.
  - destruct (Py.mem (cname c) names); [| reflexivity].
    unfold strip_column. simpl. rewrite map_map. f_equal.
    apply map_ext. intro v. apply strip_column_udf_idempotent.
  - reflexivity.
Qed.

Lemma strip_df_nil to_strip df : strip_df to_strip [] df = df.
Proof. unfold strip_df. simpl. apply map_id. Qed.

(** ** [strip_columns] *)

Lemma all_in_factors_run self cols :
  same_schema self ->
  all_in_factors cols self
  = (Ok (forallb (fun c => Py.mem c (columns (factor_columns (train_df self)))) cols),
     self).
Proof.
  intro Hs. induction cols as [| c cols IH]; simpl; [reflexivity |].
  rewrite (bind_eq_ok _ _ _ _ _ (factors_run self Hs)).
  destruct (Py.mem c _); [exact IH | reflexivity].
Qed.

Lemma assert_are_factors_run self cols :
  same_schema self ->
  _assert_are_factors cols self
  = (if forallb (fun c => Py.mem c (columns (factor_columns (train_df self)))) cols
     then Ok tt
     else Raise (AssertionError "Some column is not a factor"),
     self).
Proof.
  intro Hs. unfold _assert_are_factors.
  rewrite (bind_eq_ok _ _ _ _ _ (all_in_factors_run self cols Hs)).
  destruct (forallb _ cols); reflexivity.
Qed.

Lemma strip_columns_body_run to_strip n self :
  unique_in (train_df self) n -> unique_in (test_df self) n ->
  strip_columns_body to_strip n self
  = (Ok tt, with_dataframes self (strip_df to_strip [n] (train_df self))
                                 (strip_df to_strip [n] (test_df self))).
Proof.
  intros Htr Hte. unfold strip_columns_body, bind, get, lift, set_train_df, set_test_df.
  rewrite (withColumn_udf_self to_strip _ _ Htr). simpl.
  rewrite (withColumn_udf_self to_strip _ _ Hte). reflexivity.
Qed.

Lemma strip_columns_body_inv to_strip n self self' :
  strip_columns_body to_strip n self = (Ok tt, self') ->
  unique_in (train_df self) n /\ unique_in (test_df self) n.
Proof.
  unfold strip_columns_body, bind, get, lift, set_train_df, set_test_df.
  destruct (withColumn_udf (train_df self) n _ n) as [tr | e] eqn:E1; [| discriminate].
  simpl. destruct (withColumn_udf (test_df self) n _ n) as [te | e] eqn:E2;
    [| discriminate].
  intros _. split; eapply withColumn_udf_self_inv; eassumption.
Qed.

Lemma strip_loop_run to_strip cols : forall self,
  (forall n, In n cols -> unique_in (train_df self) n /\ unique_in (test_df self) n) ->
  for_ cols (strip_columns_body to_strip) self
  = (Ok tt, with_dataframes self (strip_df to_strip cols (train_df self))
                                 (strip_df to_strip cols (test_df self))).
Proof.
  induction cols as [| n cols IH]; intros self H.
  - simpl. unfold ret, with_dataframes. rewrite !strip_df_nil.
    destruct self; reflexivity.
  - simpl. destruct (H n (or_introl eq_refl)) as [Htr Hte].
    rewrite (bind_eq_ok _ _ _ _ _ (strip_columns_body_run to_strip n self Htr Hte)).
    rewrite IH.
    + unfold with_dataframes. simpl. rewrite !strip_df_cons. reflexivity.
    + intros m Hm. simpl. unfold unique_in. rewrite !strip_df_named_length.
      apply H. right. exact Hm.
Qed.

Lemma strip_loop_inv to_strip cols : forall self self',
  for_ cols (strip_columns_body to_strip) self = (Ok tt, self') ->
  forall n, In n cols -> unique_in (train_df self) n /\ unique_in (test_df self) n.
Proof.
  induction cols as [| m cols IH]; intros self self' H n Hn; [contradiction |].
  simpl in H. apply bind_ok in H. destruct H as [[] [self1 [Hbody Hrest]]].
  destruct (strip_columns_body_inv _ _ _ _ Hbody) as [Htr Hte].
  destruct Hn as [<- | Hn]; [split; assumption |].
  rewrite (strip_columns_body_run _ _ _ Htr Hte) in Hbody. injection Hbody as <-.
  specialize (IH _ _ Hrest n Hn). simpl in IH. unfold unique_in in *.
  rewrite !strip_df_named_length in IH. exact IH.
Qed.

Lemma NoDup_unique_in df n :
  NoDup (columns df) -> In n (columns df) -> unique_in df n.
Proof.
  intros Hnd Hin. unfold columns in Hin. apply in_map_iff in Hin.
  destruct Hin as [c [<- Hin]]. apply resolve_ok_unique. exists c.
  apply resolve_NoDup; assumption.
Qed.

Lemma factor_In_columns df n :
  In n (columns (factor_columns df)) -> In n (columns df).
Proof.
  intro H. apply In_columns_filter in H. destruct H as [c [Hin [_ <-]]].
  apply in_map. exact Hin.
Qed.

Lemma plain_NoDup names : plain names -> NoDup names.
Proof. intros [_ H]. exact (NoDup_map_inv lower names H). Qed.

Lemma plain_names_NoDup df : plain_names df -> NoDup (columns df).
Proof. apply plain_NoDup. Qed.

Lemma plain_names_schema df1 df2 :
  schema df1 = schema df2 -> plain_names df1 -> plain_names df2.
Proof. intro H. unfold plain_names. rewrite (schema_columns _ _ H). auto. Qed.

Lemma strip_columns_run self cols to_strip :
  same_schema self ->
  NoDup (columns (train_df self)) ->
  (forall c, In c cols -> In c (columns (factor_columns (train_df self)))) ->
  strip_columns cols to_strip self
  = (Ok tt, with_dataframes self (strip_df to_strip cols (train_df self))
                                 (strip_df to_strip cols (test_df self))).
Proof.
  intros Hs Hnd Hall. unfold strip_columns.
  rewrite (bind_eq_ok _ _ self tt self).
  - apply strip_loop_run. intros n Hn. specialize (Hall n Hn).
    apply factor_In_columns in Hall. split.
    + apply NoDup_unique_in; assumption.
    + apply NoDup_unique_in; rewrite <- (schema_columns _ _ Hs); assumption.
  - rewrite (assert_are_factors_run self cols Hs).
    replace (forallb _ cols) with true; [reflexivity |].
    symmetry. apply forallb_forall. intros n Hn. apply mem_In, Hall, Hn.
Qed.




(** ** What the fitted stages append *)

Lemma resolve_app_In df pre n src c :
  resolve (df ++ pre) n = Ok src -> In c df -> cname c = n -> src = c.
Proof.
  intros H Hin Hn. symmetry. eapply resolve_the_one; eauto.
  apply in_or_app. left. exact Hin.
Qed.

Lemma si_validate_ok df input output c :
  si_validate df input output = Ok c ->
  resolve df input = Ok c /\ ctype c = StringType
  /\ ~ In output (columns df).
Proof.
  unfold si_validate. intro H. apply rbind_ok in H. destruct H as [c0 [Hr H]].
  destruct (ctype c0) eqn:Ht; try discriminate.
  unfold output_exists in H. destruct (Py.mem output (columns df)) eqn:Hm;
    [discriminate |].
  injection H as <-. split; [exact Hr | split; [exact Ht |]].
  apply mem_false_not_In. exact Hm.
Qed.

Lemma si_transform_ok m df df' :
  si_transform m df = Ok df' ->
  exists src, resolve df (sim_inputCol m) = Ok src
              /\ ctype src = StringType
              /\ ~ In (sim_outputCol m) (columns df)
              /\ df' = df ++ [indexed_column m src].
Proof.
  unfold si_transform. intro H. apply rbind_ok in H. destruct H as [c [Hv H]].
  apply si_validate_ok in Hv. destruct Hv as [Hr [Ht Hout]].
  injection H as <-. exists c. auto.
Qed.

Lemma si_fit_ok s df m :
  si_fit s df = Ok m ->
  sim_inputCol m = si_inputCol s /\ sim_outputCol m = si_outputCol s
  /\ exists src ss, resolve df (si_inputCol s) = Ok src
                    /\ read_strings (cdata src) = Ok ss
                    /\ sim_labels m = fit_labels ss.
Proof.
  unfold si_fit. intro H. apply rbind_ok in H. destruct H as [c [Hv H]].
  apply rbind_ok in H. destruct H as [ss [Hss H]]. injection H as <-.
  apply si_validate_ok in Hv. destruct Hv as [Hr _].
  simpl. split; [reflexivity | split; [reflexivity |]]. exists c, ss. auto.
Qed.

(** The models of a fitted pipeline: one per stage, each with the labels
    read from its input column in the dataframe that the earlier stages have
    extended. *)
Lemma pipeline_fit_ok stages : forall df ms,
  pipeline_fit stages df = Ok ms ->
  map sim_inputCol ms = map si_inputCol stages
  /\ map sim_outputCol ms = map si_outputCol stages
  /\ forall m, In m ms ->
       exists pre src ss, resolve (df ++ pre) (sim_inputCol m) = Ok src
                          /\ read_strings (cdata src) = Ok ss
                          /\ sim_labels m = fit_labels ss.
Proof.
  induction stages as [| s rest IH]; intros df ms H; simpl in H.
  - injection H as <-. simpl. split; [reflexivity | split; [reflexivity |]].
    intros m [].
  - apply rbind_ok in H. destruct H as [m [Hfit H]].
    apply rbind_ok in H. destruct H as [df' [Hdf' H]].
    apply rbind_ok in H. destruct H as [ms' [Hrest H]]. injection H as <-.
    destruct (si_fit_ok _ _ _ Hfit) as [Hi [Ho [src [ss [Hr [Hss Hl]]]]]].
    destruct (IH _ _ Hrest) as [IHi [IHo IHm]].
    simpl. rewrite Hi, Ho, IHi, IHo.
    split; [reflexivity | split; [reflexivity |]].
    intros m' [<- | Hin].
    + exists [], src, ss. rewrite app_nil_r, Hi. auto.
    + destruct (IHm m' Hin) as [pre [src' [ss' [Hr' Hrest']]]].
      destruct rest as [| s' rest'].
      * simpl in Hrest. injection Hrest as <-. destruct Hin.
      * apply si_transform_ok in Hdf'. destruct Hdf' as [c [_ [_ [_ ->]]]].
        rewrite <- app_assoc in Hr'. eauto.
Qed.

(** The columns appended by a fitted pipeline, in the order of its stages. *)
Lemma pipeline_transform_ok ms : forall df df',
  pipeline_transform ms df = Ok df' ->
  exists news,
    df' = df ++ news
    /\ columns news = map sim_outputCol ms
    /\ Forall (fun c => ctype c = DoubleType) news
    /\ (forall n, In n (map sim_outputCol ms) -> ~ In n (columns df))
    /\ forall c, In c news ->
         exists m pre src, In m ms
                           /\ resolve (df ++ pre) (sim_inputCol m) = Ok src
                           /\ c = indexed_column m src.
Proof.
  induction ms as [| m rest IH]; intros df df' H; simpl in H.
  - injection H as <-. exists []. rewrite app_nil_r. simpl.
    split; [reflexivity | split; [reflexivity | split; [constructor |]]].
    split; [intros n [] | intros c []].
  - apply rbind_ok in H. destruct H as [df1 [H1 H]].
    apply si_transform_ok in H1. destruct H1 as [src [Hr [Ht [Hout ->]]]].
    destruct (IH _ _ H) as [news [-> [Hn [Hty [Hfresh Hcols]]]]].
    exists (indexed_column m src :: news). rewrite <- app_assoc. simpl.
    split; [reflexivity |].
    split; [unfold columns in *; simpl; rewrite Hn; reflexivity |].
    split; [constructor; [reflexivity | exact Hty] |].
    split.
    + intros n [<- | Hin]; [exact Hout |]. intro Hdf. apply (Hfresh n Hin).
      unfold columns. rewrite map_app. apply in_or_app. left. exact Hdf.
    + intros c [<- | Hin].
      * exists m, [], src. rewrite app_nil_r. simpl. auto.
      * destruct (Hcols c Hin) as [m' [pre [src' [Hm [Hr' Hc]]]]].
        exists m', ([indexed_column m src] ++ pre), src'.
        rewrite <- app_assoc in Hr'. simpl. auto.
Qed.

Lemma ohe_validate_ok df : forall inputs outputs seen cs,
  ohe_validate df seen inputs outputs = Ok cs ->
  Forall2 (fun i c => resolve df i = Ok c /\ is_numeric (ctype c) = true) inputs cs
  /\ List.length outputs = List.length inputs
  /\ forall o, In o outputs -> ~ In o seen.
Proof.
  induction inputs as [| i inputs IH]; intros [| o outputs] seen cs H; simpl in H;
    try discriminate.
  - injection H as <-. split; [constructor | split; [reflexivity | intros o []]].
  - apply rbind_ok in H. destruct H as [c [Hr H]].
    destruct (is_numeric (ctype c)) eqn:Hnum; simpl in H; [| discriminate].
    destruct (ohe_enough_values c) eqn:Hval; simpl in H; [| discriminate].
    destruct (Py.mem o seen) eqn:Hseen; [discriminate |].
    apply rbind_ok in H. destruct H as [cs' [Hrest H]]. injection H as <-.
    destruct (IH _ _ _ Hrest) as [HF [Hlen Hfresh]].
    split; [constructor; auto | split; [simpl; congruence |]].
    intros o' [<- | Hin]; [apply mem_false_not_In; exact Hseen |].
    intro Hs. apply (Hfresh o' Hin). apply in_or_app. left. exact Hs.
Qed.

Lemma ohe_validate_enough df : forall inputs outputs seen cs,
  ohe_validate df seen inputs outputs = Ok cs ->
  forall i c, In i inputs -> resolve df i = Ok c -> ohe_enough_values c = true.
Proof.
  induction inputs as [| i inputs IH]; intros [| o outputs] seen cs H j d Hj Hd;
    simpl in H; try discriminate; [destruct Hj |].
  apply rbind_ok in H. destruct H as [c [Hr H]].
  destruct (is_numeric (ctype c)); simpl in H; [| discriminate].
  destruct (ohe_enough_values c) eqn:Hval; simpl in H; [| discriminate].
  destruct (Py.mem o seen); [discriminate |].
  apply rbind_ok in H. destruct H as [cs' [Hrest _]].
  destruct Hj as [<- | Hj]; [congruence |].
  exact (IH _ _ _ Hrest j d Hj Hd).
Qed.

Lemma ohe_columns_ok : forall cs sizes outputs news,
  ohe_columns cs sizes outputs = Ok news ->
  news = encoded_columns cs sizes outputs
  /\ List.length sizes = List.length cs /\ List.length outputs = List.length cs
  /\ Forall2 (fun c n => ohe_size_agrees c n = true) cs sizes.
Proof.
  induction cs as [| c cs IH]; intros [| n sizes] [| o outputs] news H; simpl in H;
    try discriminate.
  - injection H as <-. repeat split; constructor.
  - destruct (ohe_size_agrees c n) eqn:Hag; [| discriminate].
    apply rbind_ok in H. destruct H as [rest [Hrest H]]. injection H as <-.
    destruct (IH _ _ _ Hrest) as [-> [Hl1 [Hl2 HF]]].
    unfold encoded_columns. simpl. repeat split; try congruence.
    constructor; assumption.
Qed.

Lemma encoded_columns_names : forall cs sizes outputs,
  List.length sizes = List.length cs -> List.length outputs = List.length cs ->
  columns (encoded_columns cs sizes outputs) = outputs.
Proof.
  unfold columns, encoded_columns.
  induction cs as [| c cs IH]; intros [| n sizes] [| o outputs] H1 H2;
    simpl in *; try discriminate; [reflexivity |].
  f_equal. apply IH; congruence.
Qed.

Lemma encoded_columns_types cs sizes outputs :
  Forall (fun c => ctype c = VectorUDT) (encoded_columns cs sizes outputs).
Proof.
  unfold encoded_columns. apply Forall_forall. intros c Hc.
  apply in_map_iff in Hc. destruct Hc as [p [<- _]]. reflexivity.
Qed.

Lemma ohe_transform_ok sizes inputs outputs df df' :
  ohe_transform sizes inputs outputs df = Ok df' ->
  exists cs,
    Forall2 (fun i c => resolve df i = Ok c /\ is_numeric (ctype c) = true) inputs cs
    /\ df' = df ++ encoded_columns cs sizes outputs
    /\ columns (encoded_columns cs sizes outputs) = outputs
    /\ forall o, In o outputs -> ~ In o (columns df).
Proof.
  unfold ohe_transform. intro H. apply rbind_ok in H. destruct H as [cs [Hv H]].
  apply rbind_ok in H. destruct H as [news [Hc H]]. injection H as <-.
  apply ohe_validate_ok in Hv. destruct Hv as [HF [Hlen Hfresh]].
  apply ohe_columns_ok in Hc. destruct Hc as [-> [Hl1 [Hl2 _]]].
  exists cs. split; [exact HF | split; [reflexivity | split; [| exact Hfresh]]].
  apply encoded_columns_names; assumption.
Qed.

Lemma va_transform_ok inputs output df df' :
  va_transform inputs output df = Ok df' ->
  exists cs sizes,
    va_validate df inputs = Ok cs
    /\ ~ In output (columns df)
    /\ df' = df ++ [mkColumn output VectorUDT true (MetaGroup sizes)
                      (va_rows (nrows df) cs)].
Proof.
  unfold va_transform. intro H. apply rbind_ok in H. destruct H as [cs [Hv H]].
  unfold output_exists in H. destruct (Py.mem output (columns df)) eqn:Hm;
    [discriminate |].
  apply rbind_ok in H. destruct H as [ns [Hns H]]. injection H as <-.
  exists cs, (fold_right Nat.add 0%nat ns).
  split; [exact Hv | split; [apply mem_false_not_In; exact Hm | reflexivity]].
Qed.

(** ** [_fit_and_transform] *)

Lemma fit_and_transform_ok model self fitted self' :
  _fit_and_transform model self = (Ok fitted, self') ->
  (if has_fit model then fit model (train_df self) = Ok fitted else fitted = model)
  /\ exists train' test',
       transform fitted (train_df self) = Ok train'
       /\ transform fitted (test_df self) = Ok test'
       /\ self' = with_dataframes self train' test'.
Proof.
  unfold _fit_and_transform, bind, get, lift, ret, set_train_df, set_test_df.
  destruct (has_fit model).
  - destruct (fit model (train_df self)) as [m | e]; [| discriminate].
    destruct (transform m (train_df self)) as [tr | e] eqn:Etr; [| discriminate].
    simpl.
    destruct (transform m (test_df self)) as [te | e] eqn:Ete; [| discriminate].
    intro H. injection H as <- <-. split; [reflexivity |].
    exists tr, te. auto.
  - destruct (transform model (train_df self)) as [tr | e] eqn:Etr; [| discriminate].
    simpl.
    destruct (transform model (test_df self)) as [te | e] eqn:Ete; [| discriminate].
    intro H. injection H as <- <-. split; [reflexivity |].
    exists tr, te. auto.
Qed.

(** When the call raises, either nothing was assigned, or the transformed
    train dataframe was assigned and the transformation of test raised. *)
Lemma fit_and_transform_raise model self e self' :
  _fit_and_transform model self = (Raise e, self') ->
  self' = self
  \/ exists fitted train',
       (if has_fit model then fit model (train_df self) = Ok fitted else fitted = model)
       /\ transform fitted (train_df self) = Ok train'
       /\ transform fitted (test_df self) = Raise e
       /\ self' = with_dataframes self train' (test_df self).
Proof.
  unfold _fit_and_transform, bind, get, lift, ret, set_train_df, set_test_df.
  destruct (has_fit model).
  - destruct (fit model (train_df self)) as [m | e0];
      [| intro H; injection H as <- <-; left; reflexivity].
    destruct (transform m (train_df self)) as [tr | e0] eqn:Etr;
      [| intro H; injection H as <- <-; left; reflexivity]. simpl.
    destruct (transform m (test_df self)) as [te | e0] eqn:Ete; [discriminate |].
    intro H. injection H as <- <-. right. exists m, tr. auto.
  - destruct (transform model (train_df self)) as [tr | e0] eqn:Etr;
      [| intro H; injection H as <- <-; left; reflexivity]. simpl.
    destruct (transform model (test_df self)) as [te | e0] eqn:Ete; [discriminate |].
    intro H. injection H as <- <-. right. exists model, tr. auto.
Qed.

(** ** The steps of [prepare_to_model] *)

Lemma prepare_to_model_steps target_col to_strip self :
  prepare_to_model target_col to_strip self
  = (cols <- assembly_columns target_col to_strip ;;
     assemble_features cols "features" ;;
     select_encoded target_col) self.
Proof.
  unfold prepare_to_model, assembly_columns, select_encoded. split_binds.
Qed.

Lemma factors_ok self fs self' :
  factors self = (Ok fs, self') ->
  self' = self
  /\ fs = columns (factor_columns (train_df self))
  /\ fs = columns (factor_columns (test_df self)).
Proof.
  unfold factors. intro H. apply get_cols_by_types_inv in H.
  destruct H as [-> H]. destruct (H fs eq_refl) as [H1 H2].
  rewrite (cols_of_types_filter _ _ is_factor_type dtype_is_string) in H1.
  rewrite (cols_of_types_filter _ _ is_factor_type dtype_is_string) in H2. auto.
Qed.

Lemma numeric_columns_ok self ns self' :
  numeric_columns self = (Ok ns, self') ->
  self' = self
  /\ ns = columns (numeric_column_list (train_df self))
  /\ ns = columns (numeric_column_list (test_df self)).
Proof.
  unfold numeric_columns. intro H. apply get_cols_by_types_inv in H.
  destruct H as [-> H]. destruct (H ns eq_refl) as [H1 H2].
  rewrite (cols_of_types_filter _ _ is_numeric_column_type dtype_is_double_or_int)
    in H1.
  rewrite (cols_of_types_filter _ _ is_numeric_column_type dtype_is_double_or_int)
    in H2. auto.
Qed.

Lemma factors_state self r self' : factors self = (r, self') -> self' = self.
Proof. unfold factors. intro H. apply get_cols_by_types_inv in H. tauto. Qed.

Lemma all_in_factors_state cols : forall self r self',
  all_in_factors cols self = (r, self') -> self' = self.
Proof.
  induction cols as [| c cols IH]; intros self r self' H; simpl in H.
  - injection H as _ <-. reflexivity.
  - unfold bind in H. destruct (factors self) as [[fs | e] s1] eqn:Hf.
    + apply factors_state in Hf. subst s1.
      destruct (Py.mem c fs); [eapply IH; eassumption |].
      injection H as _ <-. reflexivity.
    + apply factors_state in Hf. injection H as _ <-. exact Hf.
Qed.

Lemma assert_are_factors_state cols self r self' :
  _assert_are_factors cols self = (r, self') -> self' = self.
Proof.
  unfold _assert_are_factors, bind, assert_, ret, lift.
  destruct (all_in_factors cols self) as [[b | e] s1] eqn:Ha;
    apply all_in_factors_state in Ha; subst s1.
  - destruct b; intro H; injection H as _ <-; reflexivity.
  - intro H; injection H as _ <-; reflexivity.
Qed.

Lemma strip_columns_ok cols to_strip self self' :
  strip_columns cols to_strip self = (Ok tt, self') ->
  self' = with_dataframes self (strip_df to_strip cols (train_df self))
                               (strip_df to_strip cols (test_df self))
  /\ forall n, In n cols -> unique_in (train_df self) n /\ unique_in (test_df self) n.
Proof.
  unfold strip_columns. intro H. apply bind_ok in H.
  destruct H as [[] [s1 [Ha Hloop]]]. apply assert_are_factors_state in Ha. subst s1.
  pose proof (strip_loop_inv _ _ _ _ Hloop) as Hu.
  rewrite (strip_loop_run _ _ _ Hu) in Hloop. injection Hloop as <-. auto.
Qed.

Lemma string_index_ok cols suffix self self' :
  string_index cols suffix self = (Ok tt, self') ->
  exists ms train' test',
    pipeline_fit (map (fun f => mkStringIndexer f (f ++ suffix)) cols) (train_df self)
    = Ok ms
    /\ pipeline_transform ms (train_df self) = Ok train'
    /\ pipeline_transform ms (test_df self) = Ok test'
    /\ self' = with_dataframes self train' test'.
Proof.
  unfold string_index. intro H. apply bind_ok in H.
  destruct H as [[] [s1 [Ha H]]]. apply assert_are_factors_state in Ha. subst s1.
  apply bind_ok in H. destruct H as [m [s2 [Hft H]]].
  injection H as <-. apply fit_and_transform_ok in Hft.
  destruct Hft as [Hfit [tr [te [Htr [Hte ->]]]]]. simpl in Hfit.
  apply rbind_ok in Hfit. destruct Hfit as [ms [Hms Hm]]. injection Hm as <-.
  simpl in Htr, Hte. exists ms, tr, te. auto.
Qed.

Lemma one_hot_encode_ok cols suffix self self' :
  one_hot_encode cols suffix self = (Ok tt, self') ->
  let outputs := map (fun col => (col ++ suffix)%string) cols in
  exists sizes train' test',
    ohe_fit cols outputs (train_df self) = Ok sizes
    /\ ohe_transform sizes cols outputs (train_df self) = Ok train'
    /\ ohe_transform sizes cols outputs (test_df self) = Ok test'
    /\ self' = with_dataframes self train' test'.
Proof.
  unfold one_hot_encode. intro H. apply bind_ok in H.
  destruct H as [m [s2 [Hft H]]]. injection H as <-.
  apply fit_and_transform_ok in Hft.
  destruct Hft as [Hfit [tr [te [Htr [Hte ->]]]]]. simpl in Hfit.
  apply rbind_ok in Hfit. destruct Hfit as [sizes [Hs Hm]]. injection Hm as <-.
  simpl in Htr, Hte. exists sizes, tr, te. auto.
Qed.

Lemma assemble_features_ok cols out_name self self' :
  assemble_features cols out_name self = (Ok tt, self') ->
  exists train' test',
    va_transform cols out_name (train_df self) = Ok train'
    /\ va_transform cols out_name (test_df self) = Ok test'
    /\ self' = with_dataframes self train' test'.
Proof.
  unfold assemble_features. intro H. apply bind_ok in H.
  destruct H as [m [s2 [Hft H]]]. injection H as <-.
  apply fit_and_transform_ok in Hft.
  destruct Hft as [Hfit [tr [te [Htr [Hte ->]]]]]. simpl in Hfit. subst m.
  simpl in Htr, Hte. exists tr, te. auto.
Qed.

(** ** Strings: suffixes and substrings *)

Lemma length_append a b :
  String.length (a ++ b) = (String.length a + String.length b)%nat.
Proof. induction a as [| c a IH]; simpl; [reflexivity | rewrite IH; reflexivity]. Qed.

Lemma append_assoc a b c : ((a ++ b) ++ c)%string = (a ++ (b ++ c))%string.
Proof. induction a as [| x a IH]; simpl; [reflexivity | rewrite IH; reflexivity]. Qed.

Lemma append_cancel_r s : forall a b, (a ++ s)%string = (b ++ s)%string -> a = b.
Proof.
  induction a as [| x a IH]; intros [| y b] H; simpl in H.
  - reflexivity.
  - exfalso. apply (f_equal String.length) in H. simpl in H.
    rewrite length_append in H. lia.
  - exfalso. apply (f_equal String.length) in H. simpl in H.
    rewrite length_append in H. lia.
  - injection H as -> H. f_equal. apply IH. exact H.
Qed.

Lemma substring_all s : substring 0 (String.length s) s = s.
Proof. induction s as [| c s IH]; simpl; [reflexivity | rewrite IH; reflexivity]. Qed.

Lemma substring_skip a b :
  substring (String.length a) (String.length b) (a ++ b) = b.
Proof.
  induction a as [| c a IH]; simpl; [apply substring_all | exact IH].
Qed.

Lemma endswith_append a b : Py.endswith (a ++ b) b = true.
Proof.
  unfold Py.endswith. rewrite length_append.
  replace (String.length a + String.length b - String.length b)%nat
    with (String.length a) by lia.
  rewrite substring_skip, String.eqb_refl, andb_true_r.
  apply Nat.leb_le. lia.
Qed.

Lemma prefix_append a b : prefix a (a ++ b) = true.
Proof.
  induction a as [| c a IH]; simpl; [destruct b; reflexivity |].
  destruct (ascii_dec c c) as [_ | Hne]; [exact IH | contradiction].
Qed.

Lemma contains_prefix sub s : prefix sub s = true -> Py.contains sub s = true.
Proof. intro H. destruct s; cbn [Py.contains]; rewrite H; reflexivity. Qed.

Lemma contains_append sub a b : Py.contains sub (a ++ (sub ++ b)) = true.
Proof.
  induction a as [| c a IH].
  - cbn [append]. apply contains_prefix, prefix_append.
  - change (String c a ++ (sub ++ b))%string with (String c (a ++ (sub ++ b))).
    cbn [Py.contains].
    destruct (prefix sub (String c (a ++ (sub ++ b)))); [reflexivity | exact IH].
Qed.

Lemma contains_suffix sub a : Py.contains sub (a ++ sub) = true.
Proof.
  replace (a ++ sub)%string with (a ++ (sub ++ ""))%string.
  - apply contains_append.
  - f_equal. induction sub as [| c s IH]; simpl; [reflexivity | rewrite IH; reflexivity].
Qed.

(** ** The classification along the pipeline *)

Lemma columns_app (a b : DataFrame) : columns (a ++ b) = columns a ++ columns b.
Proof. unfold columns. apply map_app. Qed.

Lemma filter_map_columns (p : column -> bool) (g : column -> column) df :
  (forall c, In c df -> p (g c) = p c /\ cname (g c) = cname c) ->
  columns (filter p (map g df)) = columns (filter p df).
Proof.
  unfold columns. induction df as [| c df IH]; intro H; simpl; [reflexivity |].
  destruct (H c (or_introl eq_refl)) as [Hp Hn]. rewrite Hp.
  assert (IH' := IH (fun x Hx => H x (or_intror Hx))).
  destruct (p c); simpl; rewrite ?Hn, IH'; reflexivity.
Qed.

Lemma unique_factor_type df n c :
  unique_in df n -> In c df -> cname c = n ->
  In n (columns (factor_columns df)) -> ctype c = StringType.
Proof.
  intros Hu Hin Hn Hf. apply In_columns_filter in Hf.
  destruct Hf as [c' [Hin' [Hp' Hn']]].
  apply resolve_ok_unique in Hu. destruct Hu as [x Hx].
  rewrite (resolve_the_one _ _ _ _ Hx Hin Hn).
  rewrite <- (resolve_the_one _ _ _ _ Hx Hin' Hn').
  destruct (ctype c'); try discriminate. reflexivity.
Qed.

Lemma strip_df_keeps_types to_strip df c :
  let fs := columns (factor_columns df) in
  (forall n, In n fs -> unique_in df n) ->
  In c df ->
  ctype (if Py.mem (cname c) fs then strip_column to_strip c else c) = ctype c.
Proof.
  intros fs Hu Hin. destruct (Py.mem (cname c) fs) eqn:E; [| reflexivity].
  apply mem_In in E. simpl. symmetry.
  apply (unique_factor_type df (cname c)); auto.
Qed.

Lemma strip_df_type_filter (p : DataType -> bool) to_strip df :
  let fs := columns (factor_columns df) in
  (forall n, In n fs -> unique_in df n) ->
  columns (filter (fun c => p (ctype c)) (strip_df to_strip fs df))
  = columns (filter (fun c => p (ctype c)) df).
Proof.
  intros fs Hu. subst fs. unfold strip_df. apply filter_map_columns. intros c Hin.
  pose proof (strip_df_keeps_types to_strip df c Hu Hin) as E. cbv zeta in E.
  rewrite E. split; [reflexivity |].
  destruct (Py.mem (cname c) _); reflexivity.
Qed.

Lemma filter_types_app_none (p : DataType -> bool) (df news : DataFrame) t :
  Forall (fun c => ctype c = t) news -> p t = false ->
  filter (fun c => p (ctype c)) (df ++ news) = filter (fun c => p (ctype c)) df.
Proof.
  intros HF Hp. rewrite filter_app.
  rewrite (filter_none _ news); [apply app_nil_r |].
  intros c Hc. rewrite Forall_forall in HF. rewrite (HF c Hc). exact Hp.
Qed.

Lemma filter_types_app_all (p : DataType -> bool) (df news : DataFrame) t :
  Forall (fun c => ctype c = t) news -> p t = true ->
  filter (fun c => p (ctype c)) (df ++ news)
  = filter (fun c => p (ctype c)) df ++ news.
Proof.
  intros HF Hp. rewrite filter_app. f_equal.
  induction news as [| c news IH]; simpl; [reflexivity |].
  apply Forall_cons_iff in HF. destruct HF as [Hc HF'].
  rewrite Hc, Hp. f_equal. apply IH, HF'.
Qed.

Lemma filter_all {A} (p : A -> bool) (l : list A) :
  (forall x, In x l -> p x = true) -> filter p l = l.
Proof.
  induction l as [| a l IH]; simpl; intro H; [reflexivity |].
  rewrite (H a (or_introl eq_refl)). f_equal. apply IH.
  intros x Hx. apply H. right. exact Hx.
Qed.

Lemma dtypes_names_filter (p : string -> bool) (df : DataFrame) :
  map fst (filter (fun q => p (fst q)) (dtypes df)) = filter p (columns df).
Proof.
  unfold dtypes, columns. induction df as [| c df IH]; simpl; [reflexivity |].
  destruct (p (cname c)); simpl; rewrite IH; reflexivity.
Qed.

Lemma get_ok {A} (field : DataPreprocessor -> A) self a self' :
  get field self = (Ok a, self') -> a = field self /\ self' = self.
Proof. unfold get. intro H. injection H as <- <-. auto. Qed.

Lemma indexed_names_not_kept target fs :
  filter (fun col => negb (String.eqb col target) && negb (Py.endswith col "_cat"))
         (indexed_names fs) = [].
Proof.
  apply filter_none. intros x Hx. unfold indexed_names in Hx.
  apply in_map_iff in Hx. destruct Hx as [f [<- _]].
  rewrite endswith_append. simpl. apply andb_false_r.
Qed.

Lemma encoded_names_contain target fs :
  filter (Py.contains "_cat_vec") (encoded_names target fs) = encoded_names target fs.
Proof.
  apply filter_all. intros x Hx. unfold encoded_names, encoder_inputs in Hx.
  rewrite map_map in Hx. apply in_map_iff in Hx. destruct Hx as [f [<- _]].
  rewrite append_assoc. apply (contains_suffix "_cat_vec" f).
Qed.

Lemma one_hot_encode_columns_ok target self cols self' :
  indexed_suffix self = "_cat" ->
  _one_hot_encode_columns target self = (Ok cols, self') ->
  self' = self
  /\ cols = encoder_inputs target (columns (factor_columns (train_df self))).
Proof.
  intros Hsuf H. unfold _one_hot_encode_columns in H.
  apply bind_ok in H. destruct H as [fs [s1 [Hf H]]].
  apply factors_ok in Hf. destruct Hf as [-> [Hfs _]].
  apply bind_ok in H. destruct H as [suffix [s2 [Hg H]]].
  apply get_ok in Hg. destruct Hg as [-> ->].
  injection H as <- <-. rewrite Hsuf, Hfs. auto.
Qed.

Lemma columns_to_assemble_ok target self cols self' :
  default_suffixes self ->
  _columns_to_assemble target self = (Ok cols, self') ->
  self' = self
  /\ cols = kept_numeric target (train_df self)
            ++ filter (Py.contains "_cat_vec") (columns (train_df self)).
Proof.
  intros [Hi Ho] H. unfold _columns_to_assemble in H.
  apply bind_ok in H. destruct H as [ns [s1 [Hn H]]].
  apply numeric_columns_ok in Hn. destruct Hn as [-> [Hns _]].
  apply bind_ok in H. destruct H as [isuffix [s2 [Hg H]]].
  apply get_ok in Hg. destruct Hg as [-> ->].
  apply bind_ok in H. destruct H as [train [s3 [Hg H]]].
  apply get_ok in Hg. destruct Hg as [-> ->].
  apply bind_ok in H. destruct H as [osuffix [s4 [Hg H]]].
  apply get_ok in Hg. destruct Hg as [-> ->].
  injection H as <- <-. split; [reflexivity |].
  rewrite Hi, Ho, Hns.
  rewrite (dtypes_names_filter (Py.contains ("_cat" ++ "_vec"))). reflexivity.
Qed.

Lemma assembly_columns_ok target to_strip self cols self3 :
  default_suffixes self ->
  assembly_columns target to_strip self = (Ok cols, self3) ->
  exists t,
    steps_ok target to_strip self t
    /\ self3 = with_dataframes self (train_after_steps to_strip self t)
                                    (test_after_steps to_strip self t)
    /\ cols = assembly_list target (train_df self).
Proof.
  intros [Hi Ho] H. unfold assembly_columns in H.
  (* factors, strip_columns *)
  apply bind_ok in H. destruct H as [fs0 [s0 [Hf H]]].
  apply factors_ok in Hf. destruct Hf as [-> [-> Hfs_test]].
  apply bind_ok in H. destruct H as [[] [s1 [Hstrip H]]].
  apply strip_columns_ok in Hstrip. destruct Hstrip as [-> Huniq].
  assert (Hutr : forall n, In n (columns (factor_columns (train_df self))) ->
                           unique_in (train_df self) n)
    by (intros n Hn; apply Huniq, Hn).
  (* factors, string_index *)
  apply bind_ok in H. destruct H as [fs1 [s1' [Hf1 H]]].
  apply factors_ok in Hf1. destruct Hf1 as [-> [Hfs1 _]]. simpl in Hfs1.
  unfold factor_columns in Hfs1 at 1.
  rewrite (strip_df_type_filter is_factor_type to_strip (train_df self) Hutr) in Hfs1.
  fold (factor_columns (train_df self)) in Hfs1. subst fs1.
  apply bind_ok in H. destruct H as [isuffix [s1' [Hg H]]].
  apply get_ok in Hg. destruct Hg as [-> ->]. simpl indexed_suffix in H.
  rewrite Hi in H.
  apply bind_ok in H. destruct H as [[] [s2 [Hidx H]]].
  apply string_index_ok in Hidx.
  destruct Hidx as [ms [tr2 [te2 [Hfit [Htr2 [Hte2 ->]]]]]].
  simpl train_df in *. simpl test_df in *.
  destruct (pipeline_fit_ok _ _ _ Hfit) as [_ [Houts _]].
  rewrite map_map in Houts. simpl in Houts.
  destruct (pipeline_transform_ok _ _ _ Htr2) as [itr [-> [Hitr_n [Hitr_t _]]]].
  destruct (pipeline_transform_ok _ _ _ Hte2) as [ite [-> [Hite_n [Hite_t _]]]].
  rewrite Houts in Hitr_n, Hite_n.
  fold (indexed_names (columns (factor_columns (train_df self)))) in Hitr_n, Hite_n.
  (* the encoder *)
  apply bind_ok in H. destruct H as [ocols [s2' [Hoc H]]].
  apply one_hot_encode_columns_ok in Hoc; [| exact Hi].
  destruct Hoc as [-> ->]. simpl train_df in H.
  unfold factor_columns in H at 1.
  rewrite (filter_types_app_none is_factor_type _ _ DoubleType Hitr_t eq_refl) in H.
  rewrite (strip_df_type_filter is_factor_type to_strip (train_df self) Hutr) in H.
  fold (factor_columns (train_df self)) in H.
  apply bind_ok in H. destruct H as [osuffix [s2' [Hg H]]].
  apply get_ok in Hg. destruct Hg as [-> ->]. simpl one_hot_suffix in H.
  rewrite Ho in H.
  apply bind_ok in H. destruct H as [[] [s3 [Henc H]]].
  apply one_hot_encode_ok in Henc. cbv zeta in Henc.
  destruct Henc as [sizes [tr3 [te3 [Hsz [Htr3 [Hte3 ->]]]]]].
  simpl train_df in *. simpl test_df in *.
  destruct (ohe_transform_ok _ _ _ _ _ Htr3) as [cstr [_ [-> [Hetr_n _]]]].
  destruct (ohe_transform_ok _ _ _ _ _ Hte3) as [cste [_ [-> [Hete_n _]]]].
  fold (encoded_names target (columns (factor_columns (train_df self))))
    in Hetr_n, Hete_n.
  (* the list of columns *)
  apply columns_to_assemble_ok in H; [| split; assumption].
  destruct H as [-> ->]. simpl train_df.
  set (fs := columns (factor_columns (train_df self))) in *.
  set (enc_tr := encoded_columns cstr sizes _) in *.
  set (enc_te := encoded_columns cste sizes _) in *.
  assert (Hetr_t : Forall (fun c => ctype c = VectorUDT) enc_tr)
    by apply encoded_columns_types.
  assert (Hete_t : Forall (fun c => ctype c = VectorUDT) enc_te)
    by apply encoded_columns_types.
  exists (mkSteps ms itr ite sizes enc_tr enc_te).
  split; [| split].
  - constructor; simpl; fold fs; auto.
  - unfold train_after_steps, test_after_steps. simpl. fold fs.
    rewrite <- !app_assoc. reflexivity.
  - unfold assembly_list, kept_numeric. subst fs. f_equal.
    + unfold numeric_column_list.
      rewrite (filter_types_app_none is_numeric_column_type _ _ VectorUDT
                 Hetr_t eq_refl).
      rewrite (filter_types_app_all is_numeric_column_type _ _ DoubleType
                 Hitr_t eq_refl).
      rewrite columns_app, filter_app.
      rewrite (strip_df_type_filter is_numeric_column_type to_strip
                 (train_df self) Hutr).
      rewrite Hitr_n, indexed_names_not_kept. apply app_nil_r.
    + rewrite !columns_app, strip_df_columns, Hitr_n, Hetr_n.
      rewrite filter_app, encoded_names_contain. reflexivity.
Qed.

Lemma prefix_cat_vec_append g :
  prefix "_cat_vec" (g ++ "_cat") = prefix "_cat_vec" g.
Proof.
  do 8 (destruct g as [| ? g]; [reflexivity |];
        cbn [append prefix];
        match goal with
        | |- context [ascii_dec ?a ?b] => destruct (ascii_dec a b); [subst |]
        end; [| reflexivity]).
  destruct g; reflexivity.
Qed.

Lemma contains_cat_vec_append f :
  Py.contains "_cat_vec" (f ++ "_cat") = Py.contains "_cat_vec" f.
Proof.
  induction f as [| c f IH]; [reflexivity |].
  change (String c f ++ "_cat")%string with (String c (f ++ "_cat")).
  cbn [Py.contains].
  change (String c (f ++ "_cat")) with (String c f ++ "_cat")%string.
  rewrite prefix_cat_vec_append, IH. reflexivity.
Qed.

(** ** Feature assembly *)




(** ** The end of [prepare_to_model] *)

Lemma select_to_model_ok df target out :
  _select_to_model df target = Ok out ->
  exists lab feat,
    resolve df target = Ok lab /\ resolve df "features" = Ok feat
    /\ out = withColumnRenamed [lab; feat] target "label".
Proof.
  unfold _select_to_model, select. intro H. apply rbind_ok in H.
  destruct H as [sel [Hsel H]]. injection H as <-. simpl in Hsel.
  apply rbind_ok in Hsel. destruct Hsel as [lab [Hlab Hsel]].
  apply rbind_ok in Hsel. destruct Hsel as [cs [Hfeat Hsel]].
  apply rbind_ok in Hfeat. destruct Hfeat as [feat [Hfeat Hcs]].
  injection Hcs as <-. injection Hsel as <-. exists lab, feat. auto.
Qed.

Lemma steps_factor_columns target to_strip self t :
  steps_ok target to_strip self t ->
  columns (factor_columns (train_after_steps to_strip self t))
  = columns (factor_columns (train_df self)).
Proof.
  intro Hok. unfold train_after_steps, factor_columns.
  rewrite app_assoc.
  rewrite (filter_types_app_none is_factor_type _ _ VectorUDT
             (ok_encoded_train_types _ _ _ _ Hok) eq_refl).
  rewrite (filter_types_app_none is_factor_type _ _ DoubleType
             (ok_indexed_train_types _ _ _ _ Hok) eq_refl).
  apply (strip_df_type_filter is_factor_type).
  intros n Hn. apply (ok_unique _ _ _ _ Hok), Hn.
Qed.

(** The state reached when [prepare_to_model] returns. *)
Lemma prepare_to_model_ok target to_strip self self' :
  default_suffixes self ->
  prepare_to_model target to_strip self = (Ok tt, self') ->
  let fs := columns (factor_columns (train_df self)) in
  let label_col := if Py.mem target fs then (target ++ "_cat")%string else target in
  exists t feat_train feat_test lab_train lab_test,
    steps_ok target to_strip self t
    /\ train_df self' = train_after_steps to_strip self t ++ [feat_train]
    /\ test_df self' = test_after_steps to_strip self t ++ [feat_test]
    /\ cname feat_train = "features" /\ ctype feat_train = VectorUDT
    /\ cname feat_test = "features" /\ ctype feat_test = VectorUDT
    /\ ~ In "features" (columns (train_after_steps to_strip self t))
    /\ ~ In "features" (columns (test_after_steps to_strip self t))
    /\ resolve (train_df self') label_col = Ok lab_train
    /\ resolve (test_df self') label_col = Ok lab_test
    /\ train_encoded_df self'
       = Some (withColumnRenamed [lab_train; feat_train] label_col "label")
    /\ test_encoded_df self'
       = Some (withColumnRenamed [lab_test; feat_test] label_col "label").
Proof.
  intros Hd H. rewrite prepare_to_model_steps in H.
  apply bind_ok in H. destruct H as [cols [s3 [Hsteps H]]].
  destruct (assembly_columns_ok _ _ _ _ _ Hd Hsteps) as [t [Hok [-> _]]].
  apply bind_ok in H. destruct H as [[] [s4 [Hasm H]]].
  apply assemble_features_ok in Hasm. destruct Hasm as [tr4 [te4 [Htr [Hte ->]]]].
  simpl train_df in *. simpl test_df in *.
  apply va_transform_ok in Htr. destruct Htr as [cs1 [n1 [_ [Hfresh1 ->]]]].
  apply va_transform_ok in Hte. destruct Hte as [cs2 [n2 [_ [Hfresh2 ->]]]].
  unfold select_encoded in H.
  apply bind_ok in H. destruct H as [fs4 [s [Hf H]]].
  apply factors_ok in Hf. destruct Hf as [-> [Hfs4 _]]. simpl train_df in Hfs4.
  unfold factor_columns in Hfs4.
  rewrite (filter_types_app_none is_factor_type _ [_] VectorUDT) in Hfs4;
    [| repeat constructor | reflexivity].
  fold (factor_columns (train_after_steps to_strip self t)) in Hfs4.
  rewrite (steps_factor_columns _ _ _ _ Hok) in Hfs4. subst fs4.
  apply bind_ok in H. destruct H as [isuffix [s [Hg H]]].
  apply get_ok in Hg. destruct Hg as [-> ->]. simpl indexed_suffix in H.
  rewrite (proj1 Hd) in H.
  apply bind_ok in H. destruct H as [train [s [Hg H]]].
  apply get_ok in Hg. destruct Hg as [-> ->]. simpl train_df in H.
  apply bind_ok in H. destruct H as [tr_enc [s [Hsel1 H]]].
  unfold lift in Hsel1. injection Hsel1 as Hsel1 <-.
  apply bind_ok in H. destruct H as [[] [s5 [Hset H]]].
  unfold set_train_encoded_df in Hset. injection Hset as <-.
  apply bind_ok in H. destruct H as [test [s [Hg H]]].
  apply get_ok in Hg. destruct Hg as [-> ->]. simpl test_df in H.
  apply bind_ok in H. destruct H as [te_enc [s [Hsel2 H]]].
  unfold lift in Hsel2. injection Hsel2 as Hsel2 <-.
  unfold set_test_encoded_df in H. injection H as <-. simpl.
  apply select_to_model_ok in Hsel1.
  destruct Hsel1 as [lab1 [feat1 [Hl1 [Hf1 ->]]]].
  apply select_to_model_ok in Hsel2.
  destruct Hsel2 as [lab2 [feat2 [Hl2 [Hf2 ->]]]].
  assert (E1 : feat1 = mkColumn "features" VectorUDT true (MetaGroup n1)
                         (va_rows (nrows (train_after_steps to_strip self t)) cs1)).
  { symmetry. eapply resolve_the_one; [exact Hf1 | | reflexivity].
    apply in_or_app. right. left. reflexivity. }
  assert (E2 : feat2 = mkColumn "features" VectorUDT true (MetaGroup n2)
                         (va_rows (nrows (test_after_steps to_strip self t)) cs2)).
  { symmetry. eapply resolve_the_one; [exact Hf2 | | reflexivity].
    apply in_or_app. right. left. reflexivity. }
  subst feat1 feat2.
  eexists t, _, _, lab1, lab2.
  repeat (split; [first [eassumption | reflexivity] |]). reflexivity.
Qed.




(** ** The label of the encoded dataframes *)



(** ** Labels and codes *)

Lemma insert_label_In ss a sorted x :
  In x (insert_label ss a sorted) <-> x = a \/ In x sorted.
Proof.
  induction sorted as [| b rest IH]; simpl.
  - split; intros [H | H]; auto.
  - destruct (label_before ss a b); simpl; rewrite ?IH; split; intro H;
      intuition auto.
Qed.

Lemma fit_labels_In ss s : In s (fit_labels ss) <-> In s ss.
Proof.
  unfold fit_labels. rewrite <- (nodup_In string_dec ss s).
  induction (nodup string_dec ss) as [| a l IH]; simpl; [tauto |].
  rewrite insert_label_In, IH. split; intros [H | H]; auto.
Qed.


Lemma index_of_In s labels : In s labels -> exists k, index_of s labels = Some k.
Proof.
  induction labels as [| l rest IH]; simpl; intro H; [contradiction |].
  destruct (String.eqb l s) eqn:E; [exists 0%nat; reflexivity |].
  destruct H as [-> | H]; [rewrite String.eqb_refl in E; discriminate |].
  destruct (IH H) as [k ->]. exists (S k). reflexivity.
Qed.

Lemma read_strings_cells cells : forall ss,
  read_strings cells = Ok ss ->
  forall v, In v cells -> v = VNull \/ exists s, v = VStr s /\ In s ss.
Proof.
  induction cells as [| c cells IH]; intros ss H v Hv; [contradiction |].
  simpl in H. destruct c; try discriminate.
  - destruct Hv as [<- | Hv]; [left; reflexivity | eapply IH; eassumption].
  - apply rbind_ok in H. destruct H as [ss' [Hss' H]]. injection H as <-.
    destruct Hv as [<- | Hv].
    + right. exists s. split; [reflexivity | left; reflexivity].
    + destruct (IH _ Hss' v Hv) as [-> | [s' [-> Hs']]]; [left; reflexivity |].
      right. exists s'. split; [reflexivity | right; exact Hs'].
Qed.







(** ** One-hot encoding *)




(** ** Columns of the other numeric types *)


Section ExplorationKeys.

Variable describe_statistics : list value -> result (list value).
Variable to_numeric : value -> result value.



End ExplorationKeys.






(** ** Transformations depend on the schema only *)

Lemma rbind_rel {A1 A2 B1 B2} (R : A1 -> A2 -> Prop) (S : B1 -> B2 -> Prop)
    (r1 : result A1) (r2 : result A2) (k1 : A1 -> result B1) (k2 : A2 -> result B2) :
  rel_result R r1 r2 ->
  (forall a b, R a b -> rel_result S (k1 a) (k2 b)) ->
  rel_result S (rbind r1 k1) (rbind r2 k2).
Proof.
  destruct r1 as [a | e1], r2 as [b | e2]; simpl; intros H Hk;
    try contradiction; auto.
Qed.

Lemma rel_result_ok {A B} (R : A -> B -> Prop) r1 r2 a :
  rel_result R r1 r2 -> r1 = Ok a -> exists b, r2 = Ok b /\ R a b.
Proof.
  intros H ->. destruct r2 as [b | e]; simpl in H; [eauto | contradiction].
Qed.

Lemma filter_named_schema n df1 df2 :
  schema df1 = schema df2 ->
  schema (filter (named n) df1) = schema (filter (named n) df2).
Proof.
  unfold schema. revert df2.
  induction df1 as [| c1 df1 IH]; intros [| c2 df2] H; cbn [map filter] in *;
    try discriminate; [reflexivity |].
  injection H as Hn Ht Hnull Hmeta Hrest.
  assert (E : named n c1 = named n c2) by (unfold named; rewrite Hn; reflexivity).
  assert (F : field_of c1 = field_of c2) by (unfold field_of; congruence).
  rewrite E. destruct (named n c2); cbn [map]; rewrite ?F, (IH _ Hrest); reflexivity.
Qed.

Lemma resolve_congruent n df1 df2 :
  schema df1 = schema df2 ->
  rel_result (fun c1 c2 => field_of c1 = field_of c2) (resolve df1 n) (resolve df2 n).
Proof.
  intro H. apply (filter_named_schema n) in H. unfold resolve. fold (named n).
  destruct (filter (named n) df1) as [| a1 [| b1 l1]],
           (filter (named n) df2) as [| a2 [| b2 l2]];
    simpl in *; try discriminate; try reflexivity.
  injection H as H1 H2 H3 H4. unfold field_of. congruence.
Qed.

Lemma field_of_eq c1 c2 :
  field_of c1 = field_of c2 ->
  cname c1 = cname c2 /\ ctype c1 = ctype c2 /\ cnullable c1 = cnullable c2
  /\ cmeta c1 = cmeta c2.
Proof. unfold field_of. intro H. injection H as -> -> -> ->. auto. Qed.

Lemma schema_app df1 df2 : schema (df1 ++ df2) = schema df1 ++ schema df2.
Proof. unfold schema. apply map_app. Qed.

Lemma output_exists_schema df1 df2 n :
  schema df1 = schema df2 -> output_exists df1 n = output_exists df2 n.
Proof.
  intro H. unfold output_exists. rewrite (schema_columns _ _ H). reflexivity.
Qed.

Lemma si_validate_congruent df1 df2 input output :
  schema df1 = schema df2 ->
  rel_result (fun c1 c2 => field_of c1 = field_of c2)
             (si_validate df1 input output) (si_validate df2 input output).
Proof.
  intro H. unfold si_validate.
  apply (rbind_rel (fun c1 c2 => field_of c1 = field_of c2));
    [apply resolve_congruent, H |].
  intros c1 c2 Hc. destruct (field_of_eq _ _ Hc) as [_ [Ht _]].
  rewrite Ht, (output_exists_schema _ _ output H).
  destruct (ctype c2); simpl; try reflexivity.
  destruct (output_exists df2 output); simpl; [reflexivity | exact Hc].
Qed.

Lemma si_transform_congruent m df1 df2 :
  schema df1 = schema df2 ->
  rel_result (fun a b => schema a = schema b) (si_transform m df1) (si_transform m df2).
Proof.
  intro H. unfold si_transform.
  apply (rbind_rel same_fields); [apply si_validate_congruent, H |].
  intros c1 c2 Hc. simpl. rewrite !schema_app, H. reflexivity.
Qed.

Lemma pipeline_transform_congruent ms : forall df1 df2,
  schema df1 = schema df2 ->
  rel_result (fun a b => schema a = schema b)
             (pipeline_transform ms df1) (pipeline_transform ms df2).
Proof.
  induction ms as [| m ms IH]; intros df1 df2 H; simpl; [exact H |].
  apply (rbind_rel (fun a b => schema a = schema b));
    [apply si_transform_congruent, H | exact IH].
Qed.

Lemma ohe_validate_congruent df1 df2 : forall inputs outputs seen,
  schema df1 = schema df2 ->
  rel_result (Forall2 same_fields)
             (ohe_validate df1 seen inputs outputs)
             (ohe_validate df2 seen inputs outputs).
Proof.
  induction inputs as [| i inputs IH]; intros [| o outputs] seen H; simpl;
    try reflexivity; [constructor |].
  apply (rbind_rel same_fields); [apply resolve_congruent, H |].
  intros c1 c2 Hc. destruct (field_of_eq _ _ Hc) as [_ [Ht [_ Hm]]]. rewrite Ht.
  destruct (is_numeric (ctype c2)); simpl; [| reflexivity].
  assert (E : ohe_enough_values c1 = ohe_enough_values c2)
    by (unfold ohe_enough_values; rewrite Hm; reflexivity).
  rewrite E. destruct (ohe_enough_values c2); simpl; [| reflexivity].
  destruct (Py.mem o seen); simpl; [reflexivity |].
  apply (rbind_rel (Forall2 same_fields)); [apply IH, H |].
  intros cs1 cs2 Hcs. simpl. constructor; assumption.
Qed.

Lemma ohe_columns_congruent : forall cs1 cs2 sizes outputs,
  Forall2 same_fields cs1 cs2 ->
  rel_result (fun a b => schema a = schema b)
             (ohe_columns cs1 sizes outputs) (ohe_columns cs2 sizes outputs).
Proof.
  induction cs1 as [| c1 cs1 IH]; intros cs2 sizes outputs HF;
    inversion HF as [| ? c2 ? cs2' Hc HF']; subst; simpl.
  - destruct sizes, outputs; unfold rel_result; simpl; reflexivity.
  - destruct sizes as [| n sizes], outputs as [| o outputs]; simpl;
      try (unfold rel_result; simpl; reflexivity).
    destruct (field_of_eq _ _ Hc) as [_ [_ [_ Hm]]].
    assert (E : ohe_size_agrees c1 n = ohe_size_agrees c2 n)
      by (unfold ohe_size_agrees; rewrite Hm; reflexivity).
    rewrite E. destruct (ohe_size_agrees c2 n); [| exact eq_refl].
    apply (rbind_rel (fun a b => schema a = schema b)); [apply IH, HF' |].
    intros a b Hab. simpl. unfold schema in *. simpl. rewrite Hab. reflexivity.
Qed.

Lemma ohe_transform_congruent sizes inputs outputs df1 df2 :
  schema df1 = schema df2 ->
  rel_result (fun a b => schema a = schema b)
             (ohe_transform sizes inputs outputs df1)
             (ohe_transform sizes inputs outputs df2).
Proof.
  intro H. unfold ohe_transform. rewrite (schema_columns _ _ H).
  apply (rbind_rel (Forall2 same_fields)); [apply ohe_validate_congruent, H |].
  intros cs1 cs2 Hcs.
  apply (rbind_rel (fun a b => schema a = schema b));
    [apply ohe_columns_congruent, Hcs |].
  intros a b Hab. simpl. rewrite !schema_app, H, Hab. reflexivity.
Qed.

Lemma va_validate_congruent df1 df2 : forall inputs,
  schema df1 = schema df2 -> sized_vectors df1 ->
  rel_result (Forall2 (fun c1 c2 => same_fields c1 c2 /\ sized c1))
             (va_validate df1 inputs) (va_validate df2 inputs).
Proof.
  intros inputs H Hsz. induction inputs as [| i inputs IH]; simpl; [constructor |].
  pose proof (resolve_congruent i _ _ H) as Hr.
  destruct (resolve df1 i) as [c1 | e1] eqn:E1, (resolve df2 i) as [c2 | e2];
    simpl in Hr; try contradiction; [| exact Hr]. simpl.
  destruct (field_of_eq _ _ Hr) as [_ [Ht _]]. rewrite Ht.
  destruct (va_supported (ctype c2)); simpl; [| reflexivity].
  apply (rbind_rel (Forall2 (fun c1 c2 => same_fields c1 c2 /\ sized c1)));
    [exact IH |].
  intros cs1 cs2 Hcs. simpl. constructor; [| exact Hcs].
  split; [exact Hr |]. apply Hsz. apply (resolve_In _ _ _ E1).
Qed.

Lemma va_lengths_congruent : forall cs1 cs2,
  Forall2 (fun c1 c2 => same_fields c1 c2 /\ sized c1) cs1 cs2 ->
  rel_result eq (va_lengths cs1) (va_lengths cs2).
Proof.
  induction cs1 as [| c1 cs1 IH]; intros cs2 HF;
    inversion HF as [| ? c2 ? cs2' [Hc Hs] HF']; subst; simpl; [reflexivity |].
  destruct (field_of_eq _ _ Hc) as [_ [Ht [_ Hm]]].
  assert (E : va_length c1 = va_length c2).
  { unfold va_length. rewrite <- Ht, <- Hm. unfold sized in Hs.
    destruct (ctype c1); try reflexivity.
    destruct (Hs eq_refl) as [n ->]. reflexivity. }
  rewrite E. destruct (va_length c2) as [n | e]; [| exact eq_refl]. simpl.
  apply (rbind_rel eq); [apply IH, HF' |]. intros ns ? <-. reflexivity.
Qed.

Lemma va_transform_congruent inputs output df1 df2 :
  schema df1 = schema df2 -> sized_vectors df1 ->
  rel_result (fun a b => schema a = schema b)
             (va_transform inputs output df1) (va_transform inputs output df2).
Proof.
  intros H Hsz. unfold va_transform.
  apply (rbind_rel (Forall2 (fun c1 c2 => same_fields c1 c2 /\ sized c1)));
    [apply va_validate_congruent; assumption |].
  intros cs1 cs2 Hcs. rewrite (output_exists_schema _ _ output H).
  destruct (output_exists df2 output); simpl; [reflexivity |].
  apply (rbind_rel eq); [apply va_lengths_congruent, Hcs |].
  intros ns ? <-. simpl. rewrite !schema_app, H. reflexivity.
Qed.

Lemma select_to_model_congruent df1 df2 target :
  schema df1 = schema df2 ->
  rel_result (fun _ _ => True)
             (_select_to_model df1 target) (_select_to_model df2 target).
Proof.
  intro H. unfold _select_to_model, select. simpl.
  apply (rbind_rel (fun _ _ => True)); [| intros; exact I].
  apply (rbind_rel same_fields); [apply resolve_congruent, H |]. intros c1 c2 _.
  apply (rbind_rel (fun _ _ => True)); [| intros; exact I].
  apply (rbind_rel same_fields); [apply resolve_congruent, H |]. intros; exact I.
Qed.

Lemma transform_congruent m df1 df2 :
  schema df1 = schema df2 -> sized_vectors df1 ->
  rel_result (fun a b => schema a = schema b) (transform m df1) (transform m df2).
Proof.
  intros H Hsz. destruct m; simpl.
  - exact eq_refl.
  - apply pipeline_transform_congruent, H.
  - exact eq_refl.
  - apply ohe_transform_congruent, H.
  - apply va_transform_congruent; assumption.
Qed.

Lemma strip_df_schema to_strip names df1 df2 :
  schema df1 = schema df2 ->
  schema (strip_df to_strip names df1) = schema (strip_df to_strip names df2).
Proof.
  unfold schema, strip_df. revert df2.
  induction df1 as [| c1 df1 IH]; intros [| c2 df2] H; cbn [map] in *;
    try discriminate; [reflexivity |].
  injection H as Hn Ht Hnull Hmeta Hrest. rewrite (IH _ Hrest), Hn.
  f_equal. destruct (Py.mem (cname c2) names); unfold field_of; simpl; congruence.
Qed.

(** ** Distinct names and sized vectors are kept *)

Lemma NoDup_snoc {A} (l : list A) x : NoDup l -> ~ In x l -> NoDup (l ++ [x]).
Proof.
  intros Hnd Hx. apply NoDup_app; [exact Hnd | repeat constructor; intros [] |].
  intros a Ha [<- | []]. exact (Hx Ha).
Qed.

Lemma sized_vectors_app df news :
  sized_vectors df -> Forall sized news -> sized_vectors (df ++ news).
Proof.
  intros H1 H2 c Hc. apply in_app_or in Hc. destruct Hc as [Hc | Hc]; [apply H1, Hc |].
  rewrite Forall_forall in H2. apply H2, Hc.
Qed.

Lemma sized_vectors_schema df1 df2 :
  schema df1 = schema df2 -> sized_vectors df1 -> sized_vectors df2.
Proof.
  unfold schema. revert df2.
  induction df1 as [| c1 df1 IH]; intros [| c2 df2] H Hsz; cbn [map] in *;
    try discriminate; [exact Hsz |].
  injection H as Hn Ht Hnull Hmeta Hrest. intros c [<- | Hc].
  - unfold sized. rewrite <- Ht, <- Hmeta. apply (Hsz c1). left. reflexivity.
  - apply (IH df2 Hrest); [| exact Hc]. intros x Hx. apply Hsz. right. exact Hx.
Qed.

Lemma strip_df_sized to_strip names df :
  sized_vectors df -> sized_vectors (strip_df to_strip names df).
Proof.
  intros H c Hc. unfold strip_df in Hc. apply in_map_iff in Hc.
  destruct Hc as [c0 [<- Hc0]]. destruct (Py.mem (cname c0) names).
  - intro Hty. discriminate Hty.
  - apply H, Hc0.
Qed.

Lemma pipeline_transform_wf ms : forall df df',
  pipeline_transform ms df = Ok df' ->
  NoDup (columns df) -> sized_vectors df ->
  NoDup (columns df') /\ sized_vectors df'.
Proof.
  induction ms as [| m ms IH]; intros df df' H Hnd Hsz; simpl in H.
  - injection H as <-. auto.
  - apply rbind_ok in H. destruct H as [df1 [H1 H]].
    apply si_transform_ok in H1. destruct H1 as [src [_ [_ [Hout ->]]]].
    apply (IH _ _ H).
    + rewrite columns_app. simpl. apply NoDup_snoc; assumption.
    + apply sized_vectors_app; [exact Hsz |]. repeat constructor.
      intro Hty. discriminate Hty.
Qed.

Lemma ohe_validate_NoDup df : forall inputs outputs seen cs,
  ohe_validate df seen inputs outputs = Ok cs -> NoDup seen -> NoDup (seen ++ outputs).
Proof.
  induction inputs as [| i inputs IH]; intros [| o outputs] seen cs H Hnd; simpl in H;
    try discriminate.
  - rewrite app_nil_r. exact Hnd.
  - apply rbind_ok in H. destruct H as [c [_ H]].
    destruct (is_numeric (ctype c)); simpl in H; [| discriminate].
    destruct (ohe_enough_values c); simpl in H; [| discriminate].
    destruct (Py.mem o seen) eqn:Hseen; [discriminate |].
    apply rbind_ok in H. destruct H as [cs' [Hrest _]].
    change (o :: outputs) with ([o] ++ outputs). rewrite app_assoc.
    apply (IH _ _ _ Hrest). apply NoDup_snoc; [exact Hnd |].
    apply mem_false_not_In. exact Hseen.
Qed.

Lemma encoded_columns_sized cs sizes outputs :
  Forall sized (encoded_columns cs sizes outputs).
Proof.
  apply Forall_forall. intros c Hc. unfold encoded_columns in Hc.
  apply in_map_iff in Hc. destruct Hc as [p [<- _]]. intros _. simpl. eauto.
Qed.

Lemma transform_wf m df df' :
  transform m df = Ok df' ->
  NoDup (columns df) -> sized_vectors df ->
  NoDup (columns df') /\ sized_vectors df'.
Proof.
  intros H Hnd Hsz. destruct m; simpl in H; try discriminate.
  - eapply pipeline_transform_wf; eassumption.
  - pose proof H as H'. unfold ohe_transform in H'.
    apply rbind_ok in H'. destruct H' as [cs [Hv _]].
    apply ohe_validate_NoDup in Hv; [| exact Hnd].
    apply ohe_transform_ok in H. destruct H as [cs' [_ [-> [Hn _]]]].
    split.
    + rewrite columns_app, Hn. exact Hv.
    + apply sized_vectors_app; [exact Hsz | apply encoded_columns_sized].
  - apply va_transform_ok in H. destruct H as [cs [n [_ [Hout ->]]]]. split.
    + rewrite columns_app. simpl. apply NoDup_snoc; assumption.
    + apply sized_vectors_app; [exact Hsz |]. repeat constructor.
      intros _. simpl. eauto.
Qed.

(** ** Each step completes or changes nothing *)

Lemma well_formed_with_dataframes self train test :
  well_formed self ->
  schema train = schema test -> NoDup (columns train) -> sized_vectors train ->
  well_formed (with_dataframes self train test).
Proof.
  intros [_ [Hd _]] H1 H2 H3. unfold well_formed, same_schema, default_suffixes.
  simpl. auto.
Qed.

Lemma fit_and_transform_all_or_nothing model : all_or_nothing (_fit_and_transform model).
Proof.
  intros self r self' Hwf H.
  pose proof Hwf as [Hs [Hd [Hnd Hsz]]].
  destruct r as [fitted | e].
  - apply fit_and_transform_ok in H. destruct H as [_ [tr [te [Htr [Hte ->]]]]].
    pose proof (transform_congruent fitted _ _ Hs Hsz) as Hc.
    rewrite Htr, Hte in Hc. simpl in Hc.
    destruct (transform_wf _ _ _ Htr Hnd Hsz) as [Hnd' Hsz'].
    apply well_formed_with_dataframes; assumption.
  - apply fit_and_transform_raise in H. destruct H as [H | H]; [exact H |].
    destruct H as [fitted [tr [_ [Htr [Hte _]]]]]. exfalso.
    pose proof (transform_congruent fitted _ _ Hs Hsz) as Hc.
    rewrite Htr, Hte in Hc. exact Hc.
Qed.

Lemma bind_all_or_nothing_reader {A B} (m : M A) (k : A -> M B) :
  (forall self r self', m self = (r, self') -> self' = self) ->
  (forall a, all_or_nothing (k a)) ->
  all_or_nothing (bind m k).
Proof.
  intros Hm Hk self r self' Hwf H. unfold bind in H.
  destruct (m self) as [[a | e] s1] eqn:E; apply Hm in E; subst s1.
  - eapply Hk; eassumption.
  - injection H as <- <-. reflexivity.
Qed.

Lemma bind_ret_all_or_nothing {A} (m : M A) :
  all_or_nothing m -> all_or_nothing (bind m (fun _ => ret tt)).
Proof.
  intros Hm self r self' Hwf H. unfold bind, ret in H.
  destruct (m self) as [[a | e] s1] eqn:E; injection H as <- <-;
    exact (Hm _ _ _ Hwf E).
Qed.

Lemma get_state {A} (field : DataPreprocessor -> A) self r self' :
  get field self = (r, self') -> self' = self.
Proof. unfold get. intro H. injection H as _ <-. reflexivity. Qed.

Lemma numeric_columns_state self r self' :
  numeric_columns self = (r, self') -> self' = self.
Proof. unfold numeric_columns. intro H. apply get_cols_by_types_inv in H. tauto. Qed.

Lemma one_hot_encode_columns_state target self r self' :
  _one_hot_encode_columns target self = (r, self') -> self' = self.
Proof.
  unfold _one_hot_encode_columns, bind, get, ret.
  destruct (factors self) as [[fs | e] s1] eqn:E; apply factors_state in E; subst s1;
    intro H; injection H as _ <-; reflexivity.
Qed.

Lemma columns_to_assemble_state target self r self' :
  _columns_to_assemble target self = (r, self') -> self' = self.
Proof.
  unfold _columns_to_assemble, bind, get, ret.
  destruct (numeric_columns self) as [[ns | e] s1] eqn:E;
    apply numeric_columns_state in E; subst s1;
    intro H; injection H as _ <-; reflexivity.
Qed.

Lemma index_step_all_or_nothing : all_or_nothing index_step.
Proof.
  unfold index_step.
  apply bind_all_or_nothing_reader; [apply factors_state |]. intro fs.
  apply bind_all_or_nothing_reader; [apply get_state |]. intro isuffix.
  unfold string_index.
  apply bind_all_or_nothing_reader; [apply assert_are_factors_state |]. intros _.
  apply bind_ret_all_or_nothing, fit_and_transform_all_or_nothing.
Qed.

Lemma encode_step_all_or_nothing target : all_or_nothing (encode_step target).
Proof.
  unfold encode_step.
  apply bind_all_or_nothing_reader; [apply one_hot_encode_columns_state |]. intro cols.
  apply bind_all_or_nothing_reader; [apply get_state |]. intro osuffix.
  unfold one_hot_encode.
  apply bind_ret_all_or_nothing, fit_and_transform_all_or_nothing.
Qed.

Lemma assemble_step_all_or_nothing target : all_or_nothing (assemble_step target).
Proof.
  unfold assemble_step.
  apply bind_all_or_nothing_reader; [apply columns_to_assemble_state |]. intro cols.
  unfold assemble_features.
  apply bind_ret_all_or_nothing, fit_and_transform_all_or_nothing.
Qed.

Lemma strip_step_all_or_nothing to_strip : all_or_nothing (strip_step to_strip).
Proof.
  intros self r self' Hwf H. pose proof Hwf as [Hs [Hd [Hnd Hsz]]].
  unfold strip_step in H. rewrite (bind_eq_ok _ _ _ _ _ (factors_run self Hs)) in H.
  rewrite (strip_columns_run self _ to_strip Hs Hnd (fun c Hc => Hc)) in H.
  injection H as <- <-.
  apply well_formed_with_dataframes; auto.
  - apply strip_df_schema, Hs.
  - rewrite strip_df_columns. exact Hnd.
  - apply strip_df_sized, Hsz.
Qed.

Lemma select_encoded_all_or_nothing target : all_or_nothing (select_encoded target).
Proof.
  intros self r self' Hwf H. pose proof Hwf as [Hs [Hd [Hnd Hsz]]].
  unfold select_encoded in H.
  rewrite (bind_eq_ok _ _ _ _ _ (factors_run self Hs)) in H.
  unfold bind, get, lift, set_train_encoded_df, set_test_encoded_df in H.
  set (label := if Py.mem target (columns (factor_columns (train_df self)))
                then (target ++ indexed_suffix self)%string else target) in H.
  pose proof (select_to_model_congruent _ _ label Hs) as Hc.
  destruct (_select_to_model (train_df self) label) as [tr | e1];
    [| injection H as <- <-; reflexivity].
  simpl in H.
  destruct (_select_to_model (test_df self) label) as [te | e2]; [| contradiction].
  injection H as <- <-. unfold well_formed, same_schema, default_suffixes. simpl.
  auto.
Qed.

Lemma pipeline_steps_all_or_nothing target to_strip step :
  In step (pipeline_steps target to_strip) -> all_or_nothing step.
Proof.
  intros [<- | [<- | [<- | [<- | [<- | []]]]]].
  - apply strip_step_all_or_nothing.
  - apply index_step_all_or_nothing.
  - apply encode_step_all_or_nothing.
  - apply assemble_step_all_or_nothing.
  - apply select_encoded_all_or_nothing.
Qed.

Lemma prepare_to_model_run_steps target to_strip self :
  prepare_to_model target to_strip self
  = run_steps (pipeline_steps target to_strip) self.
Proof.
  unfold prepare_to_model, pipeline_steps, run_steps, strip_step, index_step,
    encode_step, assemble_step, select_encoded.
  split_binds.
Qed.

(** A sequence of steps that raises: some steps completed, the next one
    raised, and the ones after it did not run. *)
Lemma run_steps_raise steps : forall self e self',
  (forall step, In step steps -> all_or_nothing step) ->
  well_formed self ->
  run_steps steps self = (Raise e, self') ->
  exists completed failing rest,
    steps = completed ++ failing :: rest
    /\ run_steps completed self = (Ok tt, self')
    /\ failing self' = (Raise e, self')
    /\ well_formed self'.
Proof.
  induction steps as [| step steps IH]; intros self e self' Hall Hwf H; simpl in H.
  - discriminate H.
  - unfold bind in H. destruct (step self) as [[[] | e0] s1] eqn:E.
    + pose proof (Hall step (or_introl eq_refl) _ _ _ Hwf E) as Hwf1. simpl in Hwf1.
      destruct (IH s1 e self' (fun x Hx => Hall x (or_intror Hx)) Hwf1 H)
        as (completed & failing & rest & -> & Hrun & Hfail & Hwf').
      exists (step :: completed), failing, rest. simpl.
      rewrite (bind_eq_ok _ _ _ _ _ E). auto.
    + injection H as <- <-.
      pose proof (Hall step (or_introl eq_refl) _ _ _ Hwf E) as Hsame. simpl in Hsame.
      subst s1. exists [], step, steps. simpl. auto.
Qed.

(** ** Failure of [prepare_to_model] *)

(** A sequence of steps that raises, from any instance: some steps
    completed, the next one raised from the instance they left, and the ones
    after it did not run.  From a well-formed instance the failing step
    changed nothing. *)
Lemma run_steps_failure steps : forall self e self',
  (forall step, In step steps -> all_or_nothing step) ->
  run_steps steps self = (Raise e, self') ->
  exists completed failing rest self1,
    steps = completed ++ failing :: rest
    /\ run_steps completed self = (Ok tt, self1)
    /\ failing self1 = (Raise e, self')
    /\ (well_formed self -> self' = self1).
Proof.
  induction steps as [| step steps IH]; intros self e self' Hall H; simpl in H.
  - discriminate H.
  - unfold bind in H. destruct (step self) as [[[] | e0] s1] eqn:E.
    + destruct (IH s1 e self' (fun x Hx => Hall x (or_intror Hx)) H)
        as (completed & failing & rest & self1 & -> & Hrun & Hfail & Hsame).
      exists (step :: completed), failing, rest, self1. simpl.
      rewrite (bind_eq_ok _ _ _ _ _ E).
      split; [reflexivity |]. split; [exact Hrun |]. split; [exact Hfail |].
      intro Hwf. apply Hsame.
      exact (Hall step (or_introl eq_refl) _ _ _ Hwf E).
    + injection H as <- <-. exists [], step, steps, self. simpl.
      split; [reflexivity |]. split; [reflexivity |]. split; [exact E |].
      intro Hwf. exact (Hall step (or_introl eq_refl) _ _ _ Hwf E).
Qed.

Lemma raise_keeps_test_reader {A B} (m : M A) (k : A -> M B) :
  (forall self r self', m self = (r, self') -> self' = self) ->
  (forall a, raise_keeps_test (k a)) ->
  raise_keeps_test (bind m k).
Proof.
  intros Hm Hk self e self' H. unfold bind in H.
  destruct (m self) as [[a | e0] s1] eqn:E; apply Hm in E; subst s1.
  - exact (Hk a _ _ _ H).
  - injection H as _ <-. reflexivity.
Qed.

Lemma raise_keeps_test_fit_and_transform model :
  raise_keeps_test (bind (_fit_and_transform model) (fun _ => ret tt)).
Proof.
  intros self e self' H. unfold bind, ret in H.
  destruct (_fit_and_transform model self) as [[m | e0] s1] eqn:E; [discriminate H |].
  injection H as _ <-. apply fit_and_transform_raise in E.
  destruct E as [-> | (fitted & tr & _ & _ & _ & ->)]; reflexivity.
Qed.

Lemma raise_keeps_test_later_steps target to_strip completed failing rest :
  pipeline_steps target to_strip = completed ++ failing :: rest ->
  completed <> [] -> raise_keeps_test failing.
Proof.
  unfold pipeline_steps. intros Hsplit Hne.
  destruct completed as [| c0 completed]; [contradiction |].
  assert (Hin : In failing [index_step; encode_step target; assemble_step target;
                            select_encoded target]).
  { cbn [app] in Hsplit. injection Hsplit as _ Hsplit. rewrite Hsplit.
    apply in_or_app. right. left. reflexivity. }
  destruct Hin as [<- | [<- | [<- | [<- | []]]]].
  - unfold index_step.
    apply raise_keeps_test_reader; [apply factors_state |]. intro fs.
    apply raise_keeps_test_reader; [apply get_state |]. intro isuffix.
    unfold string_index.
    apply raise_keeps_test_reader; [apply assert_are_factors_state |]. intros _.
    apply raise_keeps_test_fit_and_transform.
  - unfold encode_step.
    apply raise_keeps_test_reader; [apply one_hot_encode_columns_state |]. intro cols.
    apply raise_keeps_test_reader; [apply get_state |]. intro osuffix.
    apply raise_keeps_test_fit_and_transform.
  - unfold assemble_step.
    apply raise_keeps_test_reader; [apply columns_to_assemble_state |]. intro cols.
    apply raise_keeps_test_fit_and_transform.
  - intros self e self' H. unfold select_encoded in H.
    unfold bind, get, lift, set_train_encoded_df, set_test_encoded_df in H.
    destruct (factors self) as [[fs | e0] s1] eqn:E; apply factors_state in E; subst s1;
      [| injection H as _ <-; reflexivity].
    destruct (_select_to_model (train_df self) _) as [tr | e1];
      [| injection H as _ <-; reflexivity].
    cbn [train_df test_df] in H.
    destruct (_select_to_model (test_df self) _) as [te | e2];
      [discriminate H | injection H as _ <-; reflexivity].
Qed.

(** C8, as amended: when [prepare_to_model] raises, its five steps split into
    the steps that completed, the step that raised and the steps that never
    ran; nothing that the completed steps assigned is rolled back, and the
    failing step started from the instance they left.  The failing step may
    have assigned before it raised: a step other than the stripping leaves the
    test dataframe as the completed steps made it, the train dataframe being
    assigned first.  On a well-formed instance (identical schemas, the
    default suffixes, sized vector columns) whose column names are identifiers
    that differ even when case is ignored, the failing step changed nothing:
    the instance is left exactly as the completed steps made it. *)
Theorem C8_failure_keeps_completed_steps (target to_strip : string)
    (self : DataPreprocessor) (e : exn) (self' : DataPreprocessor) :
  prepare_to_model target to_strip self = (Raise e, self') ->
  exists completed failing rest self1,
    pipeline_steps target to_strip = completed ++ failing :: rest
    /\ run_steps completed self = (Ok tt, self1)
    /\ failing self1 = (Raise e, self')
    /\ (completed <> [] -> test_df self' = test_df self1)
    /\ (well_formed self -> plain_names (train_df self) -> self' = self1).
Proof.
  intro H. rewrite prepare_to_model_run_steps in H.
  destruct (run_steps_failure _ _ _ _
              (pipeline_steps_all_or_nothing target to_strip) H)
    as (completed & failing & rest & self1 & Hsplit & Hrun & Hfail & Hsame).
  exists completed, failing, rest, self1.
  split; [exact Hsplit |]. split; [exact Hrun |]. split; [exact Hfail |].
  split; [| intros Hwf _; exact (Hsame Hwf)].
  intro Hne.
  exact (raise_keeps_test_later_steps _ _ _ _ _ Hsplit Hne _ _ _ Hfail).
Qed.

(** With a vector column that does not carry its size and a test dataframe
    without rows, the assembly transforms and assigns the train dataframe,
    then raises on the test dataframe: the instance is left with [features]
    in train and not in test, a state that no sequence of completed steps
    produces. *)
Lemma C8_counterexample : ~ failure_leaves_completed_steps.
Proof.
  intro H.
  destruct (prepare_to_model "target" " " unsized_self) as [[[] | e] self'] eqn:E;
    [vm_compute in E; discriminate E |].
  destruct (H "target" " " unsized_self e self' eq_refl (conj eq_refl eq_refl) E)
    as (completed & failing & rest & Hsplit & Hrun).
  assert (Hlen : List.length (train_df self') <> List.length (test_df self')).
  { vm_compute in E. injection E as _ <-. vm_compute. discriminate. }
  apply Hlen. clear Hlen E.
  apply (f_equal (fun p => (is_ok (fst p), List.length (train_df (snd p)),
                            List.length (test_df (snd p))))) in Hrun.
  cbn [fst snd is_ok] in Hrun. unfold pipeline_steps in Hsplit.
  remember (List.length (train_df self')) as a eqn:Ea.
  remember (List.length (test_df self')) as b eqn:Eb. clear Ea Eb.
  destruct completed as [| c1 [| c2 [| c3 [| c4 [| c5 completed]]]]];
    cbn [app] in Hsplit; inversion Hsplit; subst;
    try (vm_compute in Hrun;
         first [discriminate Hrun | injection Hrun as <- <-; reflexivity]).
Qed.

Lemma C8_witness :
  exists e self' completed failing rest,
    prepare_to_model "target" " " features_self = (Raise e, self')
    /\ columns (train_df self')
       = ["color"; "features"; "target"; "color_cat"; "color_cat_vec"]
    /\ pipeline_steps "target" " " = completed ++ failing :: rest
    /\ run_steps completed features_self = (Ok tt, self')
    /\ failing self' = (Raise e, self').
Proof.
  destruct (prepare_to_model "target" " " features_self) as [ [ [ ] | e ] self' ] eqn:E;
    [vm_compute in E; discriminate E |].
  assert (Hwf : well_formed features_self).
  { split; [reflexivity |]. split; [split; reflexivity |]. split.
    - vm_compute. repeat constructor; simpl; intuition discriminate.
    - intros c [<- | [<- | [<- | []]]] Hty; discriminate Hty. }
  assert (Hplain : plain_names (train_df features_self)).
  { split; [repeat constructor |].
    vm_compute. repeat constructor; simpl; intuition discriminate. }
  destruct (C8_failure_keeps_completed_steps "target" " " features_self e self' E)
    as (completed & failing & rest & self1 & H1 & H2 & H3 & _ & H4).
  specialize (H4 Hwf Hplain). subst self1.
  exists e, self', completed, failing, rest.
  split; [reflexivity |]. split; [| auto].
  vm_compute in E. injection E as _ <-. reflexivity.
Defined.

(** ** [_get_join_count] *)


Lemma get_join_count_run column self c_train c_test :
  ~ In column join_count_names ->
  resolve (train_df self) column = Ok c_train ->
  resolve (test_df self) column = Ok c_test ->
  _get_join_count column self
  = (Ok (mkFrame [column; "in_train"; "in_test"]
           (join_count_rows (cdata c_train) (cdata c_test))),
     self).
Proof.
  intros Hres Htr Hte.
  assert (E1 : String.eqb column "count" = false).
  { apply String.eqb_neq. intro E. apply Hres. rewrite E. simpl. auto. }
  assert (E2 : String.eqb column "in_train" = false).
  { apply String.eqb_neq. intro E. apply Hres. rewrite E. simpl. auto. }
  assert (E3 : String.eqb column "in_test" = false).
  { apply String.eqb_neq. intro E. apply Hres. rewrite E. simpl. auto. }
  assert (E1' : String.eqb "count" column = false)
    by (rewrite String.eqb_sym; exact E1).
  assert (E2' : String.eqb "in_train" column = false)
    by (rewrite String.eqb_sym; exact E2).
  assert (E3' : String.eqb "in_test" column = false)
    by (rewrite String.eqb_sym; exact E3).
  unfold _get_join_count, bind, get, lift.
  unfold groupBy_count. rewrite Hte, Htr. cbn [rbind].
  unfold orderBy_desc, withColumn_col, join_outer, select_frame, position, Py.mem.
  repeat (progress (unfold position;
                    cbn [fcols frows positions position_all existsb rbind remove_nth
                          app orb List.length Nat.sub];
                    rewrite ?String.eqb_refl, ?E1, ?E2, ?E3, ?E1', ?E2', ?E3';
                    eval_eqb)).
  reflexivity.
Qed.

Lemma insert_desc_In i row sorted x :
  In x (insert_desc i row sorted) <-> x = row \/ In x sorted.
Proof.
  induction sorted as [| r rest IH]; simpl.
  - split; intros [H | H]; auto.
  - destruct (int_of (cell r i) <? int_of (cell row i))%Z; simpl; rewrite ?IH;
      split; intro H; intuition auto.
Qed.

Lemma sorted_rows_In i rows x :
  In x (fold_right (insert_desc i) [] rows) <-> In x rows.
Proof.
  induction rows as [| r rows IH]; simpl; [tauto |].
  rewrite insert_desc_In, IH. split; intros [H | H]; auto.
Qed.

Lemma side_rows_In cells row :
  In row (side_rows cells)
  <-> exists k, In k cells
                /\ row = [k; VInt (Z.of_nat (count_occ value_eq_dec cells k));
                          VInt (Z.of_nat (count_occ value_eq_dec cells k))].
Proof.
  unfold side_rows, counted_rows. rewrite in_map_iff. split.
  - intros [r [<- Hr]]. apply sorted_rows_In in Hr. apply in_map_iff in Hr.
    destruct Hr as [k [<- Hk]]. apply nodup_In in Hk. exists k. auto.
  - intros [k [Hk ->]].
    exists [k; VInt (Z.of_nat (count_occ value_eq_dec cells k))].
    split; [reflexivity |]. apply sorted_rows_In. apply in_map_iff.
    exists k. split; [reflexivity |]. apply nodup_In. exact Hk.
Qed.

Lemma key_eqb_true a b : key_eqb a b = true <-> a = b /\ a <> VNull.
Proof.
  unfold key_eqb. split.
  - intro H. destruct a, b; try discriminate;
      (match type of H with
       | (if ?d then _ else _) = _ => destruct d as [E | _]; [| discriminate]
       end; split; [exact E | discriminate]).
  - intros [<- Hn]. destruct a; try contradiction;
      (match goal with
       | |- (if ?d then _ else _) = _ =>
           destruct d as [_ | E]; [reflexivity | contradiction]
       end).
Qed.

Lemma count_or_null_In cells k :
  In k cells -> count_or_null cells k = VInt (Z.of_nat (count_occ value_eq_dec cells k)).
Proof.
  intro H. apply (count_occ_In value_eq_dec) in H. unfold count_or_null.
  destruct (count_occ value_eq_dec cells k); [lia | reflexivity].
Qed.

Lemma count_or_null_not_In cells k : ~ In k cells -> count_or_null cells k = VNull.
Proof.
  intro H. apply (count_occ_not_In value_eq_dec) in H. unfold count_or_null.
  rewrite H. reflexivity.
Qed.

(** Every row of the joined counts is a value, its count in train and its
    count in test, a missing count standing for zero. *)
Lemma join_count_rows_shape train_cells test_cells row :
  In row (join_count_rows train_cells test_cells) ->
  exists k a b,
    row = [k; a; b]
    /\ (In k train_cells \/ In k test_cells)
    /\ is_count a /\ is_count b
    /\ (k <> VNull ->
        a = count_or_null train_cells k /\ b = count_or_null test_cells k).
Proof.
  unfold join_count_rows, joined_rows. intro H. apply in_map_iff in H.
  destruct H as [row0 [<- H]]. apply in_app_or in H. destruct H as [H | H].
  - apply in_flat_map in H. destruct H as [lr [Hlr H]].
    apply side_rows_In in Hlr. destruct Hlr as [k [Hk ->]].
    cbn [cell nth remove_nth] in H.
    destruct (filter _ (side_rows test_cells)) as [| m ms] eqn:E.
    + destruct H as [<- | []]. cbn.
      exists k, (VInt (Z.of_nat (count_occ value_eq_dec train_cells k))), VNull.
      split; [reflexivity |]. split; [left; exact Hk |].
      split; [right; eauto |]. split; [left; reflexivity |].
      intro Hnn. split; [symmetry; apply count_or_null_In, Hk |].
      symmetry. apply count_or_null_not_In. intro Hte.
      assert (Hin : In [k; VInt (Z.of_nat (count_occ value_eq_dec test_cells k));
                        VInt (Z.of_nat (count_occ value_eq_dec test_cells k))]
                       (filter (fun rr => key_eqb k (cell rr 0)) (side_rows test_cells))).
      { apply filter_In. split; [apply side_rows_In; eauto |].
        apply key_eqb_true. cbn. auto. }
      rewrite E in Hin. exact Hin.
    + rewrite <- E in H. apply in_map_iff in H. destruct H as [rr [<- Hrr]].
      apply filter_In in Hrr. destruct Hrr as [Hrr Hkey].
      apply side_rows_In in Hrr. destruct Hrr as [k' [Hk' ->]].
      cbn in Hkey. apply key_eqb_true in Hkey. destruct Hkey as [<- Hnn]. cbn.
      exists k, (VInt (Z.of_nat (count_occ value_eq_dec train_cells k))),
             (VInt (Z.of_nat (count_occ value_eq_dec test_cells k))).
      split; [reflexivity |]. split; [left; exact Hk |].
      split; [right; eauto |]. split; [right; eauto |].
      intros _. split; symmetry; apply count_or_null_In; assumption.
  - apply in_map_iff in H. destruct H as [rr [<- Hrr]].
    apply filter_In in Hrr. destruct Hrr as [Hrr Hnone].
    apply side_rows_In in Hrr. destruct Hrr as [k [Hk ->]]. cbn.
    exists k, VNull, (VInt (Z.of_nat (count_occ value_eq_dec test_cells k))).
    split; [reflexivity |]. split; [right; exact Hk |].
    split; [left; reflexivity |]. split; [right; eauto |].
    intro Hnn. split; [| symmetry; apply count_or_null_In, Hk].
    symmetry. apply count_or_null_not_In. intro Htr.
    apply negb_true_iff in Hnone.
    assert (Hex : existsb (fun lr => key_eqb (cell lr 0) (cell [k; VInt (Z.of_nat (count_occ value_eq_dec test_cells k)); VInt (Z.of_nat (count_occ value_eq_dec test_cells k))] 0))
                          (side_rows train_cells) = true).
    { apply existsb_exists.
      exists [k; VInt (Z.of_nat (count_occ value_eq_dec train_cells k));
              VInt (Z.of_nat (count_occ value_eq_dec train_cells k))].
      split; [apply side_rows_In; eauto |]. apply key_eqb_true. cbn. auto. }
    rewrite Hex in Hnone. discriminate Hnone.
Qed.

Lemma join_count_rows_keys train_cells test_cells k :
  k <> VNull -> In k train_cells \/ In k test_cells ->
  exists row, In row (join_count_rows train_cells test_cells) /\ cell row 0 = k.
Proof.
  intros Hnn Hk. unfold join_count_rows, joined_rows.
  destruct (in_dec value_eq_dec k train_cells) as [Htr | Hntr].
  - set (lr := [k; VInt (Z.of_nat (count_occ value_eq_dec train_cells k));
                VInt (Z.of_nat (count_occ value_eq_dec train_cells k))]).
    assert (Hlr : In lr (side_rows train_cells)) by (apply side_rows_In; eauto).
    destruct (filter (fun rr => key_eqb (cell lr 0) (cell rr 0)) (side_rows test_cells))
      as [| m ms] eqn:E.
    + exists (map (cell (cell lr 0 :: remove_nth 0 lr ++ nulls 2)) [0; 2; 4]%nat).
      split; [| reflexivity].
      apply (in_map (fun row => map (cell row) [0; 2; 4]%nat)). apply in_or_app. left.
      apply in_flat_map. exists lr. split; [exact Hlr |]. rewrite E. left. reflexivity.
    + exists (map (cell (cell lr 0 :: remove_nth 0 lr ++ remove_nth 0 m)) [0; 2; 4]%nat).
      split; [| reflexivity].
      apply (in_map (fun row => map (cell row) [0; 2; 4]%nat)). apply in_or_app. left.
      apply in_flat_map. exists lr. split; [exact Hlr |]. rewrite E. left. reflexivity.
  - destruct Hk as [Hk | Hk]; [contradiction |].
    set (rr := [k; VInt (Z.of_nat (count_occ value_eq_dec test_cells k));
                VInt (Z.of_nat (count_occ value_eq_dec test_cells k))]).
    exists (map (cell (cell rr 0 :: nulls 2 ++ remove_nth 0 rr)) [0; 2; 4]%nat).
    split; [| reflexivity].
    apply (in_map (fun row => map (cell row) [0; 2; 4]%nat)). apply in_or_app. right.
    apply (in_map (fun rr => cell rr 0 :: nulls 2 ++ remove_nth 0 rr)).
    apply filter_In. split; [apply side_rows_In; eauto |].
    apply negb_true_iff.
    destruct (existsb _ (side_rows train_cells)) eqn:E; [| reflexivity].
    apply existsb_exists in E. destruct E as [lr [Hlr Hkey]].
    apply side_rows_In in Hlr. destruct Hlr as [k' [Hk' ->]].
    cbn in Hkey. apply key_eqb_true in Hkey. destruct Hkey as [-> _]. contradiction.
Qed.

(** ** The pandas side of [explore_factors] *)

Lemma toPandas_collectable cols rows :
  Forall collectable rows ->
  Pandas.toPandas (mkFrame cols rows)
  = Ok (Pandas.mkDataFrame
          (map (fun i => VInt (Z.of_nat i)) (seq 0 (List.length rows))) cols rows).
Proof.
  intro H. unfold Pandas.toPandas. cbn [frows fcols].
  replace (existsb _ rows) with false; [reflexivity |].
  symmetry. induction H as [| row rows Hrow _ IH]; [reflexivity |].
  cbn [existsb]. rewrite IH, orb_false_r.
  destruct Hrow as (k & a & b & -> & Hk & Ha & Hb). cbn [existsb].
  destruct (value_eq_dec k VError) as [E | _]; [contradiction |].
  destruct Ha as [-> | [n ->]], Hb as [-> | [m ->]]; reflexivity.
Qed.

Lemma binarize_rows rows :
  Forall collectable rows ->
  Pandas.map_result (Pandas.update_nth 0 Pandas.binarize_cell)
    (map (fun row => [cell row 1; binarize_count (cell row 2)]) rows)
  = Ok (map (fun row => [binarize_count (cell row 1); binarize_count (cell row 2)]) rows)
  /\ Pandas.map_result (Pandas.update_nth 1 Pandas.binarize_cell)
       (map (remove_nth 0) rows)
     = Ok (map (fun row => [cell row 1; binarize_count (cell row 2)]) rows).
Proof.
  intro H. induction H as [| row rows Hrow _ [IH1 IH2]]; [split; reflexivity |].
  destruct Hrow as (k & a & b & -> & Hk & Ha & Hb).
  cbn [map Pandas.map_result]. rewrite IH1, IH2.
  destruct Ha as [-> | [n ->]], Hb as [-> | [m ->]]; split; reflexivity.
Qed.

Lemma exploration_table_run column rows :
  ~ In column join_count_names ->
  Forall collectable rows ->
  (pandas_df <-- Pandas.toPandas (mkFrame [column; "in_train"; "in_test"] rows) ;;;
   pandas_df <-- Pandas.set_index pandas_df column ;;;
   _binarize_pandas pandas_df ["in_test"; "in_train"])%result
  = Ok (exploration_table rows).
Proof.
  intros Hres Hrows.
  assert (E2 : String.eqb "in_train" column = false).
  { apply String.eqb_neq. intro E. apply Hres. rewrite <- E. simpl. auto. }
  assert (E3 : String.eqb "in_test" column = false).
  { apply String.eqb_neq. intro E. apply Hres. rewrite <- E. simpl. auto. }
  rewrite (toPandas_collectable _ _ Hrows). cbn [rbind].
  unfold Pandas.set_index. cbn [Pandas.columns Pandas.rows positions].
  rewrite String.eqb_refl, E2, E3. cbn [rbind].
  change (remove_nth 0 [column; "in_train"; "in_test"]) with ["in_train"; "in_test"].
  destruct (binarize_rows rows Hrows) as [H1 H2].
  cbn [_binarize_pandas]. unfold Pandas.assign_column.
  cbn [Pandas.columns Pandas.rows Pandas.index positions]. eval_eqb. cbn [rbind].
  rewrite H2. cbn [rbind Pandas.columns Pandas.rows Pandas.index positions]. eval_eqb.
  cbn [rbind]. rewrite H1. reflexivity.
Qed.

(** ** [explore_factors] *)

Lemma join_count_rows_collectable train_cells test_cells :
  ~ In VError train_cells -> ~ In VError test_cells ->
  Forall collectable (join_count_rows train_cells test_cells).
Proof.
  intros H1 H2. apply Forall_forall. intros row Hrow.
  destruct (join_count_rows_shape _ _ _ Hrow) as (k & a & b & -> & Hk & Ha & Hb & _).
  exists k, a, b. split; [reflexivity |]. split; [| auto].
  intros ->. destruct Hk; contradiction.
Qed.

Lemma explore_factors_loop_run self : forall cols acc,
  (forall n, In n cols ->
     ~ In n join_count_names
     /\ (exists c, resolve (train_df self) n = Ok c)
     /\ (exists c, resolve (test_df self) n = Ok c)
     /\ ~ In VError (cells_of (train_df self) n)
     /\ ~ In VError (cells_of (test_df self) n)) ->
  explore_factors_loop cols acc self
  = (Ok (fold_left (fun d n => Py.setitem d n (factor_table self n)) cols acc), self).
Proof.
  induction cols as [| n cols IH]; intros acc H; [reflexivity |].
  destruct (H n (or_introl eq_refl)) as (Hres & [ctr Htr] & [cte Hte] & Hetr & Hete).
  cbn [explore_factors_loop fold_left].
  rewrite (bind_eq_ok _ _ _ _ _ (get_join_count_run n self ctr cte Hres Htr Hte)).
  unfold cells_of in Hetr, Hete. rewrite Htr in Hetr. rewrite Hte in Hete.
  assert (Etab : factor_table self n
                 = exploration_table (join_count_rows (cdata ctr) (cdata cte)))
    by (unfold factor_table, cells_of; rewrite Htr, Hte; reflexivity).
  rewrite Etab.
  pose proof (exploration_table_run n _ Hres
                (join_count_rows_collectable _ _ Hetr Hete)) as Hrun.
  unfold bind, lift.
  destruct (Pandas.toPandas _) as [p1 | e1]; [| discriminate Hrun].
  cbn [rbind] in Hrun.
  destruct (Pandas.set_index p1 n) as [p2 | e2]; [| discriminate Hrun].
  cbn [rbind] in Hrun. rewrite Hrun.
  apply IH. intros m Hm. apply H. right. exact Hm.
Qed.

Lemma getitem_setitem {V} (d : Py.dict V) k v k' :
  Py.getitem (Py.setitem d k v) k'
  = if String.eqb k k' then Some v else Py.getitem d k'.
Proof.
  induction d as [| [k0 v0] d IH]; simpl.
  - destruct (String.eqb k k'); reflexivity.
  - destruct (String.eqb k0 k) eqn:E; simpl.
    + apply String.eqb_eq in E. subst k0. destruct (String.eqb k k'); reflexivity.
    + destruct (String.eqb k0 k') eqn:E'; [| exact IH].
      apply String.eqb_eq in E'. subst k0. rewrite String.eqb_sym, E. reflexivity.
Qed.

Lemma getitem_fold_setitem {V} (T : string -> V) cols : forall (acc : Py.dict V) k,
  In k cols \/ Py.getitem acc k = Some (T k) ->
  Py.getitem (fold_left (fun d n => Py.setitem d n (T n)) cols acc) k = Some (T k).
Proof.
  induction cols as [| n cols IH]; intros acc k H; simpl.
  - destruct H as [[] | H]. exact H.
  - apply IH. rewrite getitem_setitem.
    destruct (String.eqb n k) eqn:E.
    + apply String.eqb_eq in E. subst n. right. reflexivity.
    + destruct H as [[-> | H] | H]; auto.
      rewrite String.eqb_refl in E. discriminate E.
Qed.

Lemma indexed_rows_exploration rows p :
  In p (indexed_rows (exploration_table rows))
  <-> exists row, In row rows
                  /\ p = (cell row 0,
                          [binarize_count (cell row 1); binarize_count (cell row 2)]).
Proof.
  unfold indexed_rows, exploration_table. cbn [Pandas.index Pandas.rows].
  induction rows as [| r rows IH]; cbn [map combine In].
  - split; [intros [] | intros [row [[] _]]].
  - rewrite IH. split.
    + intros [<- | [row [Hin ->]]]; [exists r | exists row]; auto.
    + intros [row [[<- | Hin] ->]]; [left; reflexivity | right; exists row; auto].
Qed.

Lemma binarize_count_or_null cells k :
  binarize_count (count_or_null cells k) = indicator cells k.
Proof.
  unfold count_or_null, indicator.
  destruct (count_occ value_eq_dec cells k); reflexivity.
Qed.

(** C9: a factor column may be called [count], the name that
    [_get_join_count] gives to the column of counts.  On such an instance the
    grouping yields two columns of that name, the ordering by [count] cannot
    tell them apart, and [explore_factors] raises instead of returning a
    table for the column; the instance is left as it was. *)
Theorem C9_factor_named_count :
  In "count" (columns (factor_columns (train_df count_self)))
  /\ _get_join_count "count" count_self
     = (Raise (AnalysisException "reference is ambiguous"), count_self)
  /\ explore_factors count_self
     = (Raise (AnalysisException "reference is ambiguous"), count_self).
Proof.
  split; [left; reflexivity |]. split; vm_compute; reflexivity.
Qed.

Lemma C9_counterexample : ~ explore_factors_covers_every_factor.
Proof.
  intro H. destruct (H count_self) as [d [Hd _]].
  - reflexivity.
  - vm_compute. repeat constructor; simpl; intuition discriminate.
  - intros c [<- | []]. vm_compute. intuition discriminate.
  - intros c [<- | []]. vm_compute. intuition discriminate.
  - vm_compute in Hd. discriminate Hd.
Qed.


(** ** The lifetime of an instance *)

Lemma strip_columns_all_or_nothing cols to_strip :
  all_or_nothing (strip_columns cols to_strip).
Proof.
  intros self r self' Hwf H. pose proof Hwf as [Hs [Hd [Hnd Hsz]]].
  destruct (forallb (fun c => Py.mem c (columns (factor_columns (train_df self)))) cols)
    eqn:E.
  - rewrite strip_columns_run in H; [| assumption | assumption |].
    + injection H as <- <-. apply well_formed_with_dataframes; auto.
      * apply strip_df_schema, Hs.
      * rewrite strip_df_columns. exact Hnd.
      * apply strip_df_sized, Hsz.
    + intros c Hc. apply mem_In. rewrite forallb_forall in E. apply E, Hc.
  - unfold strip_columns in H.
    rewrite (bind_eq_raise _ _ self (AssertionError "Some column is not a factor") self)
      in H; [injection H as <- <-; reflexivity |].
    rewrite (assert_are_factors_run self cols Hs), E. reflexivity.
Qed.

Lemma string_index_all_or_nothing cols suffix : all_or_nothing (string_index cols suffix).
Proof.
  unfold string_index.
  apply bind_all_or_nothing_reader; [apply assert_are_factors_state |]. intros _.
  apply bind_ret_all_or_nothing, fit_and_transform_all_or_nothing.
Qed.

Lemma one_hot_encode_all_or_nothing cols suffix :
  all_or_nothing (one_hot_encode cols suffix).
Proof.
  unfold one_hot_encode.
  apply bind_ret_all_or_nothing, fit_and_transform_all_or_nothing.
Qed.

Lemma assemble_features_all_or_nothing cols out_name :
  all_or_nothing (assemble_features cols out_name).
Proof.
  unfold assemble_features.
  apply bind_ret_all_or_nothing, fit_and_transform_all_or_nothing.
Qed.

Lemma all_or_nothing_keeps {A} (m : M A) self r self' :
  all_or_nothing m -> well_formed self -> m self = (r, self') -> well_formed self'.
Proof.
  intros Hm Hwf H. specialize (Hm _ _ _ Hwf H). destruct r; [exact Hm |].
  subst self'. exact Hwf.
Qed.

Lemma run_steps_keeps steps : forall self r self',
  (forall step, In step steps -> all_or_nothing step) ->
  well_formed self -> run_steps steps self = (r, self') -> well_formed self'.
Proof.
  induction steps as [| step steps IH]; intros self r self' Hall Hwf H; simpl in H.
  - injection H as _ <-. exact Hwf.
  - unfold bind in H. destruct (step self) as [[[] | e0] s1] eqn:E.
    + apply (IH s1 r self' (fun x Hx => Hall x (or_intror Hx))); [| exact H].
      exact (all_or_nothing_keeps _ _ _ _ (Hall step (or_introl eq_refl)) Hwf E).
    + injection H as _ <-.
      exact (all_or_nothing_keeps _ _ _ _ (Hall step (or_introl eq_refl)) Hwf E).
Qed.

Lemma explore_factors_loop_state cols : forall acc self r self',
  explore_factors_loop cols acc self = (r, self') -> self' = self.
Proof.
  induction cols as [| c cols IH]; intros acc self r self' H; simpl in H.
  - injection H as _ <-. reflexivity.
  - unfold _get_join_count, bind, get, lift in H.
    repeat match type of H with
           | context [match ?x with Ok _ => _ | Raise _ => _ end] =>
               destruct x; try (injection H as _ <-; reflexivity)
           end.
    eapply IH. exact H.
Qed.

Lemma explore_factors_state self r self' :
  explore_factors self = (r, self') -> self' = self.
Proof.
  unfold explore_factors, bind.
  destruct (factors self) as [[fs | e] s1] eqn:E; apply factors_state in E; subst s1.
  - apply explore_factors_loop_state.
  - intro H. injection H as _ <-. reflexivity.
Qed.

Lemma explore_numeric_columns_loop_state ds tn cols : forall acc self r self',
  explore_numeric_columns_loop ds tn cols acc self = (r, self') -> self' = self.
Proof.
  induction cols as [| c cols IH]; intros acc self r self' H; simpl in H.
  - injection H as _ <-. reflexivity.
  - unfold bind, get, lift in H.
    repeat match type of H with
           | context [match ?x with Ok _ => _ | Raise _ => _ end] =>
               destruct x; try (injection H as _ <-; reflexivity)
           end.
    eapply IH. exact H.
Qed.

Lemma explore_numeric_columns_state ds tn self r self' :
  explore_numeric_columns ds tn self = (r, self') -> self' = self.
Proof.
  unfold explore_numeric_columns, bind.
  destruct (numeric_columns self) as [[ns | e] s1] eqn:E;
    apply numeric_columns_state in E; subst s1.
  - apply explore_numeric_columns_loop_state.
  - intro H. injection H as _ <-. reflexivity.
Qed.

(** Identical schemas, distinct names and sized vectors are kept by every
    call, so they hold during the whole lifetime of an instance that starts
    with them. *)
Lemma called_well_formed self self' :
  well_formed self -> called self self' -> well_formed self'.
Proof.
  intros Hwf Hcall. destruct Hcall as [? ? ? ? ? H | ? ? ? ? ? H | ? ? ? ? ? H
                                      | ? ? ? ? ? H | ? ? ? ? ? H | ? ? ? H
                                      | ? ? ? ? ? H].
  - exact (all_or_nothing_keeps _ _ _ _ (strip_columns_all_or_nothing _ _) Hwf H).
  - exact (all_or_nothing_keeps _ _ _ _ (string_index_all_or_nothing _ _) Hwf H).
  - exact (all_or_nothing_keeps _ _ _ _ (one_hot_encode_all_or_nothing _ _) Hwf H).
  - exact (all_or_nothing_keeps _ _ _ _ (assemble_features_all_or_nothing _ _) Hwf H).
  - rewrite prepare_to_model_run_steps in H.
    exact (run_steps_keeps _ _ _ _ (pipeline_steps_all_or_nothing _ _) Hwf H).
  - apply explore_factors_state in H. subst. exact Hwf.
  - apply explore_numeric_columns_state in H. subst. exact Hwf.
Qed.

Lemma lifetime_well_formed self0 self :
  well_formed self0 -> lifetime self0 self -> well_formed self.
Proof.
  intros Hwf Hlife. induction Hlife as [| s s' _ IH Hcall]; [exact Hwf |].
  exact (called_well_formed _ _ IH Hcall).
Qed.

(** ** The two properties, during the lifetime of an instance *)

(** C4, as amended: on an instance whose train and test schemas are
    identical, and so at any point of the lifetime of an instance built from
    well-formed datasets, [factors] returns the names of the columns declared
    [string] and [numeric_columns] the names of the columns declared [int] or
    [double], each in schema order and each the same whether computed over
    train or over test; no column is in both selections, a column is in one
    of them exactly when its declared type is string, int or double, and the
    two lists of names are disjoint when the column names are distinct. *)
Theorem C4_factors_and_numeric_columns (self : DataPreprocessor) :
  same_schema self \/ (exists self0, well_formed self0 /\ lifetime self0 self) ->
  let fs := columns (factor_columns (train_df self)) in
  let ns := columns (numeric_column_list (train_df self)) in
  factors self = (Ok fs, self)
  /\ numeric_columns self = (Ok ns, self)
  /\ fs = columns (factor_columns (test_df self))
  /\ ns = columns (numeric_column_list (test_df self))
  /\ (forall c, In c (train_df self) ->
        (In c (factor_columns (train_df self))
         \/ In c (numeric_column_list (train_df self))
         <-> ctype c = StringType \/ ctype c = IntegerType \/ ctype c = DoubleType)
        /\ ~ (In c (factor_columns (train_df self))
              /\ In c (numeric_column_list (train_df self))))
  /\ (NoDup (columns (train_df self)) -> forall n, In n fs -> ~ In n ns).
Proof.
  intro H.
  assert (Hs : same_schema self).
  { destruct H as [H | [self0 [Hwf Hlife]]]; [exact H |].
    exact (proj1 (lifetime_well_formed _ _ Hwf Hlife)). }
  clear H. cbv zeta.
  split; [apply factors_run, Hs |].
  split; [apply numeric_columns_run, Hs |].
  split; [apply (filter_type_schema is_factor_type), Hs |].
  split; [apply (filter_type_schema is_numeric_column_type), Hs |].
  split.
  - intros c Hc. unfold factor_columns, numeric_column_list.
    rewrite !filter_In. split.
    + rewrite <- factor_or_numeric_type, orb_true_iff. tauto.
    + intros [[_ H1] [_ H2]]. destruct (ctype c); discriminate.
  - intros Hnd n Hf Hn.
    apply In_columns_filter in Hf. destruct Hf as [c1 [Hin1 [Hp1 Hn1]]].
    apply In_columns_filter in Hn. destruct Hn as [c2 [Hin2 [Hp2 Hn2]]].
    assert (c1 = c2).
    { apply (NoDup_map_In_eq cname (train_df self)); auto. congruence. }
    subst c2. destruct (ctype c1); discriminate.
Qed.

Lemma C4_counterexample : ~ covers_recognized_families.
Proof.
  intro H.
  pose (df := [float_column "weight" [(1 # 2)%Q]]).
  specialize (H df df (mkDataPreprocessor df df None None "_vec" "_cat") [] []
                eq_refl eq_refl eq_refl (float_column "weight" [(1 # 2)%Q])).
  simpl in H. apply H; auto.
Qed.

Lemma C4_witness :
  let self := mkDataPreprocessor
                [string_column "color" ["red"]; int_column "size" [1%Z];
                 float_column "weight" [(1 # 2)%Q]]
                [string_column "color" ["blue"]; int_column "size" [2%Z];
                 float_column "weight" [(3 # 2)%Q]]
                None None "_vec" "_cat" in
  factors self = (Ok ["color"], self) /\ numeric_columns self = (Ok ["size"], self).
Proof.
  intro self.
  destruct (C4_factors_and_numeric_columns self (or_introl eq_refl)) as [Hf [Hn _]].
  split; [exact Hf | exact Hn].
Defined.

(* ================================================================= *)
(** * Further properties of the methods *)

(** The example instance is well formed. *)
Lemma example_self_well_formed : well_formed example_self.
Proof.
  split; [reflexivity |]. split; [split; reflexivity |]. split.
  - vm_compute. repeat constructor; simpl; intuition discriminate.
  - intros c [<- | [<- | [<- | [<- | []]]]] Hty; discriminate Hty.
Qed.

(** ** [strip_columns], twice *)

Lemma strip_column_idempotent to_strip c :
  strip_column to_strip (strip_column to_strip c) = strip_column to_strip c.
Proof.
  unfold strip_column. cbn [cname cdata]. f_equal.
  rewrite map_map. apply map_ext. intro v. apply strip_column_udf_idempotent.
Qed.

Lemma strip_df_idempotent to_strip names df :
  strip_df to_strip names (strip_df to_strip names df) = strip_df to_strip names df.
Proof.
  unfold strip_df. rewrite map_map. apply map_ext. intro c.
  destruct (Py.mem (cname c) names) eqn:E.
  - cbn [strip_column cname]. rewrite E. apply strip_column_idempotent.
  - rewrite E. reflexivity.
Qed.

Lemma with_dataframes_twice self a b c d :
  with_dataframes (with_dataframes self a b) c d = with_dataframes self c d.
Proof. reflexivity. Qed.

Lemma unique_in_strip_df to_strip names df n :
  unique_in (strip_df to_strip names df) n <-> unique_in df n.
Proof.
  unfold unique_in. rewrite strip_df_named_length. reflexivity.
Qed.

Lemma factors_dtypes a b :
  dtypes (train_df a) = dtypes (train_df b) ->
  dtypes (test_df a) = dtypes (test_df b) ->
  fst (factors a) = fst (factors b).
Proof.
  intros H1 H2. unfold factors, _get_cols_by_types, bind, get, cols_of_types.
  rewrite H1, H2.
  destruct (list_eq_dec _ _ _); reflexivity.
Qed.

Lemma all_in_factors_congruent cols a b :
  fst (factors a) = fst (factors b) ->
  fst (all_in_factors cols a) = fst (all_in_factors cols b).
Proof.
  intros Hf. induction cols as [| col rest IH]; [reflexivity |].
  cbn [all_in_factors]. unfold bind.
  destruct (factors a) as [ra a'] eqn:Ea. destruct (factors b) as [rb b'] eqn:Eb.
  apply factors_state in Ea. apply factors_state in Eb. subst a' b'.
  cbn [fst] in Hf. subst rb.
  destruct ra as [fs | e]; [| reflexivity].
  destruct (Py.mem col fs); [exact IH | reflexivity].
Qed.

Lemma assert_are_factors_congruent cols a b :
  fst (factors a) = fst (factors b) ->
  fst (_assert_are_factors cols a) = fst (_assert_are_factors cols b).
Proof.
  intros Hf. unfold _assert_are_factors, bind.
  pose proof (all_in_factors_congruent cols a b Hf) as Ha.
  destruct (all_in_factors cols a) as [ra a'] eqn:Ea.
  destruct (all_in_factors cols b) as [rb b'] eqn:Eb.
  cbn [fst] in Ha. subst rb.
  destruct ra as [[|] | e]; reflexivity.
Qed.

(** The assertion gives the same outcome on two instances with the same
    factors, and never changes the instance. *)
Lemma assert_are_factors_transfer cols a b r :
  fst (factors a) = fst (factors b) ->
  _assert_are_factors cols b = (r, b) ->
  _assert_are_factors cols a = (r, a).
Proof.
  intros Hf Hb.
  pose proof (assert_are_factors_congruent cols a b Hf) as H.
  rewrite Hb in H. cbn [fst] in H.
  destruct (_assert_are_factors cols a) as [ra a'] eqn:Ea.
  pose proof (assert_are_factors_state _ _ _ _ Ea) as ->.
  cbn [fst] in H. subst ra. reflexivity.
Qed.

Lemma all_in_factors_true cols : forall self self',
  all_in_factors cols self = (Ok true, self') ->
  forall n, In n cols ->
    In n (columns (factor_columns (train_df self)))
    /\ In n (columns (factor_columns (test_df self))).
Proof.
  induction cols as [| col rest IH]; intros self self' H n Hn; [destruct Hn |].
  cbn [all_in_factors] in H.
  apply bind_ok in H. destruct H as (fs & self1 & Hf & H).
  apply factors_ok in Hf. destruct Hf as (-> & Ftr & Fte).
  destruct (Py.mem col fs) eqn:Em.
  - destruct Hn as [<- | Hn].
    + apply mem_In in Em. split; [rewrite <- Ftr | rewrite <- Fte]; exact Em.
    + exact (IH _ _ H n Hn).
  - discriminate H.
Qed.

Lemma assert_are_factors_ok cols self self' :
  _assert_are_factors cols self = (Ok tt, self') ->
  self' = self
  /\ forall n, In n cols ->
       In n (columns (factor_columns (train_df self)))
       /\ In n (columns (factor_columns (test_df self))).
Proof.
  intro H. split; [exact (assert_are_factors_state _ _ _ _ H) |].
  unfold _assert_are_factors in H.
  apply bind_ok in H. destruct H as (ok & self1 & Ha & H).
  pose proof (all_in_factors_state _ _ _ _ Ha) as ->.
  destruct ok; [| discriminate H].
  exact (all_in_factors_true _ _ _ Ha).
Qed.

Lemma dtypes_strip_df to_strip names df :
  (forall c, In c df -> Py.mem (cname c) names = true -> ctype c = StringType) ->
  dtypes (strip_df to_strip names df) = dtypes df.
Proof.
  intro H. unfold dtypes, strip_df. rewrite map_map. apply map_ext_in.
  intros c Hc. destruct (Py.mem (cname c) names) eqn:E; [| reflexivity].
  cbn. rewrite (H c Hc E). reflexivity.
Qed.

Lemma listed_factor_type cols df c :
  (forall n, In n cols -> In n (columns (factor_columns df)) /\ unique_in df n) ->
  In c df -> Py.mem (cname c) cols = true -> ctype c = StringType.
Proof.
  intros H Hc Hm. apply mem_In in Hm. destruct (H _ Hm) as [Hf Hu].
  exact (unique_factor_type df (cname c) c Hu Hc eq_refl Hf).
Qed.

(** X1: when [strip_columns] returns, calling it again with the same arguments
    returns too and leaves the instance as the first call left it. *)
Theorem X1_strip_columns_twice (cols : list string) (to_strip : string)
    (self self1 : DataPreprocessor) :
  strip_columns cols to_strip self = (Ok tt, self1) ->
  strip_columns cols to_strip self1 = (Ok tt, self1).
Proof.
  intro H.
  destruct (strip_columns_ok _ _ _ _ H) as [Hself Huniq].
  unfold strip_columns in H. apply bind_ok in H.
  destruct H as ([] & self0 & Ha & Hloop).
  destruct (assert_are_factors_ok _ _ _ Ha) as [-> Hfs].
  assert (Dtr : dtypes (train_df self1) = dtypes (train_df self)).
  { subst self1. cbn [with_dataframes train_df]. apply dtypes_strip_df.
    intros c Hc Hm. eapply listed_factor_type; [| exact Hc | exact Hm].
    intros n Hn. split; [exact (proj1 (Hfs n Hn)) | exact (proj1 (Huniq n Hn))]. }
  assert (Dte : dtypes (test_df self1) = dtypes (test_df self)).
  { subst self1. cbn [with_dataframes test_df]. apply dtypes_strip_df.
    intros c Hc Hm. eapply listed_factor_type; [| exact Hc | exact Hm].
    intros n Hn. split; [exact (proj2 (Hfs n Hn)) | exact (proj2 (Huniq n Hn))]. }
  assert (Ea1 : _assert_are_factors cols self1 = (Ok tt, self1)).
  { apply (assert_are_factors_transfer cols self1 self); [| exact Ha].
    apply factors_dtypes; assumption. }
  unfold strip_columns. rewrite (bind_eq_ok _ _ _ _ _ Ea1).
  rewrite strip_loop_run.
  - subst self1. cbn [with_dataframes train_df test_df].
    rewrite !strip_df_idempotent. reflexivity.
  - intros n Hn. subst self1. cbn [with_dataframes train_df test_df].
    rewrite !unique_in_strip_df. exact (Huniq n Hn).
Qed.

Lemma X1_witness :
  let self1 := snd (strip_columns ["color"] " " example_self) in
  strip_columns ["color"] " " self1 = (Ok tt, self1).
Proof.
  intro self1. apply (X1_strip_columns_twice ["color"] " " example_self).
  vm_compute. reflexivity.
Defined.

(** ** The assertion of [_get_cols_by_types] *)

(** X2: on an instance that the constructor built from datasets with distinct
    column names and sized vector columns, the assertion of
    [_get_cols_by_types] never fails, whatever the list of types and whatever
    methods were called since, whether they returned or raised: the method
    returns the columns of the train dataframe that have one of the types,
    which are those of the test dataframe too, and leaves the instance as it
    is. *)
Theorem X2_type_assertion_never_fails (train test : DataFrame)
    (self0 self : DataPreprocessor) (types : list string) :
  __init__ train test = Ok self0 ->
  NoDup (columns train) -> sized_vectors train ->
  lifetime self0 self ->
  _get_cols_by_types types self = (Ok (cols_of_types (train_df self) types), self)
  /\ cols_of_types (train_df self) types = cols_of_types (test_df self) types.
Proof.
  intros Hinit Hnd Hsz Hlife.
  destruct (init_ok _ _ _ Hinit) as (Htr & _ & Hs & Hd & _).
  assert (Hwf : well_formed self0).
  { rewrite <- Htr in Hnd, Hsz. repeat split; try assumption; apply Hd. }
  destruct (lifetime_well_formed _ _ Hwf Hlife) as [Hsame _].
  pose proof (schema_dtypes _ _ Hsame) as Hdt.
  split; [apply get_cols_by_types_run; exact Hdt |].
  unfold cols_of_types. rewrite Hdt. reflexivity.
Qed.

Lemma X2_witness :
  let self := snd (prepare_to_model "target" " " example_self) in
  _get_cols_by_types ["double"; "vector"] self
  = (Ok ["color_cat"; "shape_cat"; "color_cat_vec"; "shape_cat_vec"; "features"], self).
Proof.
  intro self.
  apply (X2_type_assertion_never_fails example_train example_test example_self self
           ["double"; "vector"]).
  - reflexivity.
  - exact (proj1 (proj2 (proj2 example_self_well_formed))).
  - exact (proj2 (proj2 (proj2 example_self_well_formed))).
  - apply (lifetime_call _ example_self); [apply lifetime_start |].
    apply (call_prepare_to_model "target" " " example_self
             (fst (prepare_to_model "target" " " example_self))).
    apply surjective_pairing.
Defined.

(** ** [string_index] *)

(** X3: on an instance with identical schemas, [string_index] on a list with a
    column that is not a factor raises the assertion error before anything is
    fitted, and leaves the instance unchanged. *)
Theorem X3_string_index_rejects_non_factors (cols : list string) (suffix : string)
    (self : DataPreprocessor) :
  same_schema self ->
  (exists c, In c cols /\ ~ In c (columns (factor_columns (train_df self)))) ->
  string_index cols suffix self
  = (Raise (AssertionError "Some column is not a factor"), self).
Proof.
  intros Hs (c & Hc & Hnot). unfold string_index.
  apply bind_eq_raise. rewrite (assert_are_factors_run _ _ Hs).
  destruct (forallb _ cols) eqn:E; [| reflexivity].
  exfalso. apply Hnot. rewrite forallb_forall in E.
  apply mem_In. exact (E c Hc).
Qed.

Lemma X3_witness :
  string_index ["color"; "size"] "_cat" example_self
  = (Raise (AssertionError "Some column is not a factor"), example_self).
Proof.
  apply X3_string_index_rejects_non_factors.
  - reflexivity.
  - exists "size". split; [right; left; reflexivity |].
    vm_compute. intuition discriminate.
Defined.







Lemma resolve_app_fresh df news n c :
  resolve df n = Ok c -> ~ In n (columns news) -> resolve (df ++ news) n = Ok c.
Proof.
  intros H Hn. apply resolve_ok. apply resolve_ok in H.
  rewrite filter_app, H.
  rewrite (filter_none (named n) news); [reflexivity |].
  intros x Hx. unfold named. apply String.eqb_neq. intros E.
  apply Hn. rewrite <- E. apply in_map. exact Hx.
Qed.



(** ** What only a completed [prepare_to_model] assigns *)

Lemma keeps_ret {A} (a : A) : keeps_encoded (ret a).
Proof. intros self r self' H. injection H as _ <-. auto. Qed.

Lemma keeps_get {A} (field : DataPreprocessor -> A) : keeps_encoded (get field).
Proof. intros self r self' H. injection H as _ <-. auto. Qed.

Lemma keeps_lift {A} (x : result A) : keeps_encoded (lift x).
Proof. intros self r self' H. injection H as _ <-. auto. Qed.

Lemma keeps_assert b msg : keeps_encoded (assert_ b msg).
Proof. destruct b; [apply keeps_ret | apply keeps_lift]. Qed.

Lemma keeps_set_train_df df : keeps_encoded (set_train_df df).
Proof. intros self r self' H. injection H as _ <-. cbn. auto. Qed.

Lemma keeps_set_test_df df : keeps_encoded (set_test_df df).
Proof. intros self r self' H. injection H as _ <-. cbn. auto. Qed.

Lemma keeps_bind {A B} (m : M A) (k : A -> M B) :
  keeps_encoded m -> (forall a, keeps_encoded (k a)) -> keeps_encoded (bind m k).
Proof.
  intros Hm Hk self r self' H. unfold bind in H.
  destruct (m self) as [[a | e] self1] eqn:E.
  - destruct (Hm _ _ _ E) as (H1 & H2 & H3 & H4).
    destruct (Hk a _ _ _ H) as (K1 & K2 & K3 & K4).
    repeat split; congruence.
  - injection H as _ <-. exact (Hm _ _ _ E).
Qed.

Lemma keeps_for {A} (xs : list A) (body : A -> M unit) :
  (forall x, keeps_encoded (body x)) -> keeps_encoded (for_ xs body).
Proof.
  intro Hb. induction xs as [| x xs IH]; cbn [for_].
  - apply keeps_ret.
  - apply keeps_bind; [apply Hb | intros _; exact IH].
Qed.

Lemma keeps_state {A} (m : M A) :
  (forall self r self', m self = (r, self') -> self' = self) -> keeps_encoded m.
Proof. intros Hm self r self' H. rewrite (Hm _ _ _ H). auto. Qed.

Lemma keeps_assert_are_factors cols : keeps_encoded (_assert_are_factors cols).
Proof. apply keeps_state. apply assert_are_factors_state. Qed.

Lemma keeps_fit_and_transform model : keeps_encoded (_fit_and_transform model).
Proof.
  unfold _fit_and_transform. destruct (has_fit model);
  repeat first
    [ apply keeps_ret | apply keeps_get | apply keeps_lift | apply keeps_assert
    | apply keeps_set_train_df | apply keeps_set_test_df
    | apply keeps_for; intro
    | apply keeps_bind; [| intro] ].
Qed.

Lemma keeps_strip_columns cols to_strip : keeps_encoded (strip_columns cols to_strip).
Proof.
  unfold strip_columns. apply keeps_bind; [apply keeps_assert_are_factors | intros _].
  unfold strip_columns_body.
  repeat first
    [ apply keeps_ret | apply keeps_get | apply keeps_lift | apply keeps_assert
    | apply keeps_set_train_df | apply keeps_set_test_df
    | apply keeps_for; intro
    | apply keeps_bind; [| intro] ].
Qed.

Lemma keeps_string_index cols suffix : keeps_encoded (string_index cols suffix).
Proof.
  unfold string_index. apply keeps_bind; [apply keeps_assert_are_factors | intros _].
  apply keeps_bind; [apply keeps_fit_and_transform | intros _; apply keeps_ret].
Qed.

Lemma keeps_one_hot_encode cols suffix : keeps_encoded (one_hot_encode cols suffix).
Proof.
  unfold one_hot_encode.
  apply keeps_bind; [apply keeps_fit_and_transform | intros _; apply keeps_ret].
Qed.

Lemma keeps_assemble_features cols out_name :
  keeps_encoded (assemble_features cols out_name).
Proof.
  unfold assemble_features.
  apply keeps_bind; [apply keeps_fit_and_transform | intros _; apply keeps_ret].
Qed.

Lemma keeps_factors : keeps_encoded factors.
Proof. apply keeps_state. apply factors_state. Qed.

Lemma keeps_numeric_columns : keeps_encoded numeric_columns.
Proof. apply keeps_state. apply numeric_columns_state. Qed.

Lemma keeps_first_steps target to_strip step :
  In step [strip_step to_strip; index_step; encode_step target; assemble_step target] ->
  keeps_encoded step.
Proof.
  intros [<- | [<- | [<- | [<- | []]]]].
  - unfold strip_step. apply keeps_bind; [apply keeps_factors | intro].
    apply keeps_strip_columns.
  - unfold index_step. apply keeps_bind; [apply keeps_factors | intro].
    apply keeps_bind; [apply keeps_get | intro]. apply keeps_string_index.
  - unfold encode_step.
    apply keeps_bind;
      [apply keeps_state; apply one_hot_encode_columns_state | intro].
    apply keeps_bind; [apply keeps_get | intro]. apply keeps_one_hot_encode.
  - unfold assemble_step.
    apply keeps_bind;
      [apply keeps_state; apply columns_to_assemble_state | intro].
    apply keeps_assemble_features.
Qed.

Lemma keeps_run_steps steps :
  (forall step, In step steps -> keeps_encoded step) -> keeps_encoded (run_steps steps).
Proof.
  induction steps as [| step rest IH]; intro H; cbn [run_steps].
  - apply keeps_ret.
  - apply keeps_bind; [apply H; left; reflexivity | intros _].
    apply IH. intros s Hs. apply H. right. exact Hs.
Qed.

Lemma In_before_last {A} (l1 l2 l : list A) x y z :
  l1 ++ x :: l2 = l ++ [y] -> In z l1 -> In z l.
Proof.
  intros E Hz.
  assert (H : removelast (l1 ++ x :: l2) = l).
  { rewrite E. apply removelast_last. }
  rewrite removelast_app in H by discriminate.
  rewrite <- H. apply in_or_app. left. exact Hz.
Qed.

(** A call of [prepare_to_model] that raises has assigned neither encoded
    dataframe. *)
Lemma prepare_to_model_raise_encoded target to_strip self e self' :
  well_formed self ->
  prepare_to_model target to_strip self = (Raise e, self') ->
  train_encoded_df self' = train_encoded_df self
  /\ test_encoded_df self' = test_encoded_df self
  /\ one_hot_suffix self' = one_hot_suffix self
  /\ indexed_suffix self' = indexed_suffix self.
Proof.
  intros Hwf H. rewrite prepare_to_model_run_steps in H.
  destruct (run_steps_raise _ _ _ _
              (pipeline_steps_all_or_nothing target to_strip) Hwf H)
    as (completed & failing & rest & Hsteps & Hrun & _ & _).
  apply (keeps_run_steps completed) with (r := Ok tt); [| exact Hrun].
  intros step Hstep. apply (keeps_first_steps target to_strip).
  symmetry in Hsteps.
  exact (In_before_last completed rest
           [strip_step to_strip; index_step; encode_step target; assemble_step target]
           failing (select_encoded target) step Hsteps Hstep).
Qed.

(** [prepare_to_model] does not return on a dataframe that has a column
    called [features]. *)
Lemma prepare_to_model_features_taken target to_strip self self' :
  default_suffixes self ->
  In "features" (columns (train_df self)) ->
  prepare_to_model target to_strip self <> (Ok tt, self').
Proof.
  intros Hd Hin H.
  destruct (prepare_to_model_ok _ _ _ _ Hd H)
    as (t & ft & fe & lt & le & _ & _ & _ & _ & _ & _ & _ & Hfresh & _).
  apply Hfresh. unfold train_after_steps.
  rewrite columns_app, strip_df_columns. apply in_or_app. left. exact Hin.
Qed.

(** X6: with the default suffixes, [prepare_to_model] raises on a train
    dataframe that has a column called [features], whatever the target. *)
Theorem X6_features_column_taken (target to_strip : string) (self : DataPreprocessor) :
  default_suffixes self ->
  In "features" (columns (train_df self)) ->
  exists e self', prepare_to_model target to_strip self = (Raise e, self').
Proof.
  intros Hd Hin.
  destruct (prepare_to_model target to_strip self) as [[[] | e] self'] eqn:E.
  - exfalso. exact (prepare_to_model_features_taken _ _ _ _ Hd Hin E).
  - exists e, self'. reflexivity.
Qed.

Lemma X6_witness :
  exists e self', prepare_to_model "target" " " features_self = (Raise e, self').
Proof.
  apply X6_features_column_taken.
  - split; reflexivity.
  - vm_compute. auto.
Defined.

(** X7: [strip_columns], [string_index], [one_hot_encode],
    [assemble_features], [explore_factors] and [explore_numeric_columns]
    never assign the encoded dataframes nor the suffixes, whether they return
    or raise; a call of [prepare_to_model] that raises on a well-formed
    instance leaves both encoded dataframes as they were, and a call that
    returns has assigned both. *)
Theorem X7_encoded_assigned_on_success :
  (forall cols to_strip, keeps_encoded (strip_columns cols to_strip))
  /\ (forall cols suffix, keeps_encoded (string_index cols suffix))
  /\ (forall cols suffix, keeps_encoded (one_hot_encode cols suffix))
  /\ (forall cols out_name, keeps_encoded (assemble_features cols out_name))
  /\ keeps_encoded explore_factors
  /\ (forall describe_statistics to_numeric,
        keeps_encoded (explore_numeric_columns describe_statistics to_numeric))
  /\ (forall target to_strip self e self',
        well_formed self ->
        prepare_to_model target to_strip self = (Raise e, self') ->
        train_encoded_df self' = train_encoded_df self
        /\ test_encoded_df self' = test_encoded_df self)
  /\ (forall target to_strip self self',
        default_suffixes self ->
        prepare_to_model target to_strip self = (Ok tt, self') ->
        exists train_encoded test_encoded,
          train_encoded_df self' = Some train_encoded
          /\ test_encoded_df self' = Some test_encoded).
Proof.
  split; [exact keeps_strip_columns |].
  split; [exact keeps_string_index |].
  split; [exact keeps_one_hot_encode |].
  split; [exact keeps_assemble_features |].
  split; [apply keeps_state; exact explore_factors_state |].
  split; [intros ds tn; apply keeps_state; exact (explore_numeric_columns_state ds tn) |].
  split.
  - intros target to_strip self e self' Hwf H.
    destruct (prepare_to_model_raise_encoded _ _ _ _ _ Hwf H) as (H1 & H2 & _).
    split; assumption.
  - intros target to_strip self self' Hd H.
    destruct (prepare_to_model_ok _ _ _ _ Hd H)
      as (t & ft & fe & lt & le & _ & _ & _ & _ & _ & _ & _ & _ & _ & _ & _ & H1 & H2).
    eexists _, _. split; eassumption.
Qed.

Lemma X7_witness :
  train_encoded_df (snd (string_index ["color"] "_cat" example_self)) = None
  /\ test_encoded_df (snd (string_index ["color"] "_cat" example_self)) = None.
Proof.
  destruct (proj1 (proj2 X7_encoded_assigned_on_success) ["color"] "_cat"
              example_self
              (fst (string_index ["color"] "_cat" example_self))
              (snd (string_index ["color"] "_cat" example_self))
              (surjective_pairing _)) as (H1 & H2 & _).
  split; [exact H1 | exact H2].
Defined.

(** X8: on a well-formed instance, after [prepare_to_model] returned, any
    further call of [prepare_to_model], whatever its arguments, raises, and
    the two encoded dataframes stay those of the first call. *)
Theorem X8_prepare_to_model_again (target to_strip target' to_strip' : string)
    (self self' : DataPreprocessor) :
  well_formed self ->
  prepare_to_model target to_strip self = (Ok tt, self') ->
  exists e self'',
    prepare_to_model target' to_strip' self' = (Raise e, self'')
    /\ train_encoded_df self'' = train_encoded_df self'
    /\ test_encoded_df self'' = test_encoded_df self'.
Proof.
  intros Hwf H.
  assert (Hwf' : well_formed self').
  { apply (called_well_formed self self' Hwf).
    exact (call_prepare_to_model _ _ _ _ _ H). }
  destruct Hwf as (_ & Hd & _).
  destruct (prepare_to_model_ok _ _ _ _ Hd H)
    as (t & ft & fe & lt & le & _ & Htr & _ & Hname & _).
  assert (Hin : In "features" (columns (train_df self'))).
  { rewrite Htr, columns_app. apply in_or_app. right. left. exact Hname. }
  destruct (prepare_to_model target' to_strip' self') as [[[] | e] self''] eqn:E.
  - exfalso.
    exact (prepare_to_model_features_taken _ _ _ _ (proj1 (proj2 Hwf')) Hin E).
  - exists e, self''. split; [reflexivity |].
    destruct (prepare_to_model_raise_encoded _ _ _ _ _ Hwf' E) as (H1 & H2 & _).
    split; assumption.
Qed.

Lemma X8_witness :
  let self' := snd (prepare_to_model "target" " " example_self) in
  exists e self'',
    prepare_to_model "size" "" self' = (Raise e, self'')
    /\ train_encoded_df self'' = train_encoded_df self'
    /\ test_encoded_df self'' = test_encoded_df self'.
Proof.
  intro self'.
  apply (X8_prepare_to_model_again "target" " " "size" "" example_self self').
  - exact example_self_well_formed.
  - vm_compute. reflexivity.
Defined.

(** ** The dataframes after [prepare_to_model] *)



(** ** The label and the features *)

(** X10: with the default suffixes, when the target is the name of a column
    of the train dataframe and does not contain [_cat_vec], and the names of
    the columns together with those that the first three steps append are
    identifiers that differ even when case is ignored, the column that
    [prepare_to_model] selects as label (the target, or its indexed column
    when the target is a factor) is a column of the train dataframe that is
    not handed to [assemble_features]: every name handed over is the name of
    a column, and is not the name of the label even when case is ignored. *)
Theorem X10_label_not_assembled (target to_strip : string)
    (self : DataPreprocessor) (cols : list string) (self3 : DataPreprocessor) :
  default_suffixes self ->
  let fs := columns (factor_columns (train_df self)) in
  let label := if Py.mem target fs then (target ++ "_cat")%string else target in
  let names := columns (train_df self) ++ indexed_names fs ++ encoded_names target fs in
  plain names ->
  In target (columns (train_df self)) ->
  Py.contains "_cat_vec" target = false ->
  assembly_columns target to_strip self = (Ok cols, self3) ->
  columns (train_df self3) = names
  /\ In label names
  /\ forall n, In n cols -> In n names /\ lower n <> lower label.
Proof.
  intros Hd fs label names Hplain Htarget Hc H.
  destruct (assembly_columns_ok _ _ _ _ _ Hd H) as (t & Hok & -> & ->).
  assert (Hgen : forall n, Py.contains "_cat_vec" n = false ->
                   (String.eqb n target = true \/ Py.endswith n "_cat" = true) ->
                   ~ In n (assembly_list target (train_df self))).
  { intros n Hn Hex Hin. unfold assembly_list in Hin.
    apply in_app_or in Hin. destruct Hin as [Hin | Hin].
    - unfold kept_numeric in Hin. apply filter_In in Hin. destruct Hin as [_ Hin].
      apply andb_true_iff in Hin. destruct Hin as [H1 H2].
      destruct Hex as [Hex | Hex]; [rewrite Hex in H1 | rewrite Hex in H2];
        discriminate.
    - apply in_app_or in Hin. destruct Hin as [Hin | Hin].
      + apply filter_In in Hin. destruct Hin as [_ Hin]. congruence.
      + rewrite <- encoded_names_contain in Hin.
        apply filter_In in Hin. destruct Hin as [_ Hin]. congruence. }
  assert (Hlabel : ~ In label (assembly_list target (train_df self))).
  { unfold label. destruct (Py.mem target fs).
    - apply Hgen; [rewrite contains_cat_vec_append; exact Hc |].
      right. apply endswith_append.
    - apply Hgen; [exact Hc | left; apply String.eqb_refl]. }
  assert (Hin_label : In label names).
  { unfold label, names. destruct (Py.mem target fs) eqn:Em.
    - apply in_or_app. right. apply in_or_app. left.
      unfold indexed_names. apply (in_map (fun fac => (fac ++ "_cat")%string)).
      apply mem_In. exact Em.
    - apply in_or_app. left. exact Htarget. }
  split.
  { cbn [with_dataframes train_df]. unfold train_after_steps, names, fs.
    rewrite !columns_app, strip_df_columns.
    rewrite (ok_indexed_train_names _ _ _ _ Hok), (ok_encoded_train_names _ _ _ _ Hok).
    reflexivity. }
  split; [exact Hin_label |].
  intros n Hn.
  assert (Hin : In n names).
  { unfold assembly_list in Hn. unfold names. fold fs in Hn.
    apply in_app_or in Hn. destruct Hn as [Hn | Hn].
    - apply in_or_app. left. unfold kept_numeric in Hn.
      apply filter_In in Hn. destruct Hn as [Hn _].
      apply In_columns_filter in Hn. destruct Hn as (c & Hc' & _ & <-).
      apply in_map. exact Hc'.
    - apply in_app_or in Hn. destruct Hn as [Hn | Hn].
      + apply filter_In in Hn. destruct Hn as [Hn _].
        apply in_app_or in Hn. apply in_or_app.
        destruct Hn as [Hn | Hn]; [left; exact Hn |].
        right. apply in_or_app. left. exact Hn.
      + apply in_or_app. right. apply in_or_app. right. exact Hn. }
  split; [exact Hin |].
  intro Hlow. apply Hlabel.
  rewrite <- (NoDup_map_In_eq lower names n label (proj2 Hplain) Hin Hin_label Hlow).
  exact Hn.
Qed.

Lemma X10_witness :
  let cols := ["size"; "color_cat_vec"; "shape_cat_vec"] in
  assembly_columns "target" " " example_self
  = (Ok cols, snd (assembly_columns "target" " " example_self))
  /\ forall n, In n cols -> lower n <> "target".
Proof.
  intro cols.
  assert (H : assembly_columns "target" " " example_self
              = (Ok cols, snd (assembly_columns "target" " " example_self)))
    by (vm_compute; reflexivity).
  split; [exact H |].
  assert (Hplain : plain (columns (train_df example_self)
                          ++ indexed_names (columns (factor_columns (train_df example_self)))
                          ++ encoded_names "target"
                               (columns (factor_columns (train_df example_self))))).
  { split; [repeat constructor |].
    vm_compute. repeat constructor; simpl; intuition discriminate. }
  destruct (X10_label_not_assembled "target" " " example_self cols _
              (conj eq_refl eq_refl) Hplain
              (or_intror (or_intror (or_intror (or_introl eq_refl)))) eq_refl H)
    as (_ & _ & Hall).
  intros n Hn. exact (proj2 (Hall n Hn)).
Defined.



(** ** [_select_to_model] *)

Lemma resolve_raise df n e :
  resolve df n = Raise e -> exists msg, e = AnalysisException msg.
Proof.
  unfold resolve. destruct (filter _ df) as [| c [| c' rest]]; intro H;
    [injection H as <- | discriminate H | injection H as <-]; eexists; reflexivity.
Qed.




(** ** The dictionaries returned by the explorations *)

Lemma keys_setitem {V} (d : Py.dict V) k v :
  Py.keys (Py.setitem d k v)
  = if Py.mem k (Py.keys d) then Py.keys d else Py.keys d ++ [k].
Proof.
  unfold Py.keys, Py.mem. induction d as [| [k' v'] d IH]; [reflexivity |].
  cbn [Py.setitem map fst existsb]. rewrite (String.eqb_sym k k').
  destruct (String.eqb k' k) eqn:E.
  - apply String.eqb_eq in E. subst k'. reflexivity.
  - cbn [map fst orb]. rewrite IH.
    destruct (existsb (String.eqb k) (map fst d)); reflexivity.
Qed.

Lemma keys_setitem_fresh {V} (d : Py.dict V) k v :
  ~ In k (Py.keys d) -> Py.keys (Py.setitem d k v) = Py.keys d ++ [k].
Proof.
  intro H. rewrite keys_setitem.
  apply mem_false_not_In in H. rewrite H. reflexivity.
Qed.

(** Distinct names are what unique resolution gives. *)
Lemma NoDup_columns_filter (p : column -> bool) df :
  (forall n, In n (columns (filter p df)) -> unique_in df n) ->
  NoDup (columns (filter p df)).
Proof.
  induction df as [| c df IH]; intro H; [constructor |].
  assert (Hrest : forall n, In n (columns (filter p df)) ->
                    unique_in df n /\ n <> cname c).
  { intros n Hn.
    assert (Hu : unique_in (c :: df) n).
    { apply H. cbn [filter]. destruct (p c); [right |]; exact Hn. }
    apply In_columns_filter in Hn. destruct Hn as (c' & Hc' & _ & Hname).
    unfold unique_in in *. cbn [filter] in Hu. unfold named at 1 in Hu.
    destruct (String.eqb (cname c) n) eqn:E.
    - exfalso. cbn [List.length] in Hu. injection Hu as Hu.
      apply length_zero_iff_nil in Hu.
      assert (Hin : In c' (filter (named n) df)).
      { apply filter_In. split; [exact Hc' |]. unfold named. apply String.eqb_eq.
        exact Hname. }
      rewrite Hu in Hin. destruct Hin.
    - split; [exact Hu |]. apply String.eqb_neq in E. congruence. }
  cbn [filter]. destruct (p c) eqn:Ep.
  - cbn [columns map]. constructor.
    + intro Hin. destruct (Hrest _ Hin) as [_ Hne]. apply Hne. reflexivity.
    + apply IH. intros n Hn. exact (proj1 (Hrest n Hn)).
  - apply IH. intros n Hn. exact (proj1 (Hrest n Hn)).
Qed.

Lemma get_join_count_ok column self f self' :
  _get_join_count column self = (Ok f, self') ->
  (exists c, resolve (train_df self) column = Ok c)
  /\ (exists c, resolve (test_df self) column = Ok c)
  /\ column <> "count".
Proof.
  intro H. unfold _get_join_count in H.
  apply bind_ok in H. destruct H as (test & s1 & Hg1 & H).
  apply get_ok in Hg1. destruct Hg1 as [-> ->].
  apply bind_ok in H. destruct H as (test_c & s2 & Hl1 & H).
  unfold lift in Hl1. injection Hl1 as Hl1 <-.
  apply bind_ok in H. destruct H as (train & s3 & Hg2 & H).
  apply get_ok in Hg2. destruct Hg2 as [-> ->].
  apply bind_ok in H. destruct H as (train_c & s4 & Hl2 & _).
  unfold lift in Hl2. injection Hl2 as Hl2 <-.
  apply rbind_ok in Hl1. destruct Hl1 as (g1 & Hgb1 & Ho1).
  apply rbind_ok in Hl2. destruct Hl2 as (g2 & Hgb2 & _).
  unfold groupBy_count in Hgb1, Hgb2.
  apply rbind_ok in Hgb1. destruct Hgb1 as (c1 & Hr1 & Hf1).
  apply rbind_ok in Hgb2. destruct Hgb2 as (c2 & Hr2 & _).
  split; [exists c2; exact Hr2 |]. split; [exists c1; exact Hr1 |].
  intros ->. injection Hf1 as <-.
  apply rbind_ok in Ho1. destruct Ho1 as (o & Ho & _).
  discriminate Ho.
Qed.

Lemma explore_factors_loop_ok cols : forall acc self d self',
  explore_factors_loop cols acc self = (Ok d, self') ->
  (forall n, In n cols ->
     unique_in (train_df self) n /\ unique_in (test_df self) n /\ n <> "count")
  /\ (NoDup (Py.keys acc ++ cols) -> Py.keys d = Py.keys acc ++ cols).
Proof.
  induction cols as [| col cols IH]; intros acc self d self' H.
  - injection H as <- _. split; [intros n [] |]. intros _. rewrite app_nil_r.
    reflexivity.
  - cbn [explore_factors_loop] in H.
    apply bind_ok in H. destruct H as (jc & s1 & Hjc & H).
    pose proof Hjc as Hst. unfold _get_join_count in Hst.
    assert (s1 = self) as ->.
    { unfold bind, get, lift in Hst.
      repeat match type of Hst with
             | context [match ?x with Ok _ => _ | Raise _ => _ end] =>
                 destruct x; try discriminate Hst
             end.
      injection Hst as _ <-. reflexivity. }
    clear Hst.
    apply bind_ok in H. destruct H as (p1 & s2 & Hp1 & H).
    injection Hp1 as _ <-.
    apply bind_ok in H. destruct H as (p2 & s3 & Hp2 & H).
    injection Hp2 as _ <-.
    apply bind_ok in H. destruct H as (p3 & s4 & Hp3 & H).
    injection Hp3 as _ <-.
    destruct (IH _ _ _ _ H) as [Hall Hkeys].
    destruct (get_join_count_ok _ _ _ _ Hjc) as (Htr & Hte & Hne).
    split.
    + intros n [<- | Hn]; [| exact (Hall n Hn)].
      split; [apply resolve_ok_unique; exact Htr |].
      split; [apply resolve_ok_unique; exact Hte | exact Hne].
    + intro Hnd.
      assert (Hfresh : ~ In col (Py.keys acc)).
      { intro Hin. apply NoDup_remove_2 in Hnd. apply Hnd.
        apply in_or_app. left. exact Hin. }
      rewrite Hkeys; rewrite (keys_setitem_fresh _ _ _ Hfresh);
        rewrite <- app_assoc; [reflexivity |].
      exact Hnd.
Qed.

(** X13: when [explore_factors] returns, the instance is unchanged and the keys
    of the dictionary are the factor columns, in schema order, the same for
    train and test, without repetition. *)
Theorem X13_explore_factors_keys (self : DataPreprocessor)
    (d : Py.dict Pandas.DataFrame) (self' : DataPreprocessor) :
  explore_factors self = (Ok d, self') ->
  self' = self
  /\ Py.keys d = columns (factor_columns (train_df self))
  /\ Py.keys d = columns (factor_columns (test_df self))
  /\ NoDup (Py.keys d).
Proof.
  intro H. split; [exact (explore_factors_state _ _ _ H) |].
  unfold explore_factors in H. apply bind_ok in H.
  destruct H as (fs & s1 & Hf & H).
  apply factors_ok in Hf. destruct Hf as (-> & Ftr & Fte).
  destruct (explore_factors_loop_ok _ _ _ _ _ H) as [Hall Hkeys].
  assert (Hnd : NoDup fs).
  { rewrite Ftr. apply NoDup_columns_filter. intros n Hn.
    apply Hall. rewrite Ftr. exact Hn. }
  cbn [Py.keys map app] in Hkeys. specialize (Hkeys Hnd).
  rewrite Hkeys. repeat split; assumption.
Qed.

Lemma X13_witness :
  exists d, explore_factors colors_self = (Ok d, colors_self) /\ Py.keys d = ["color"].
Proof.
  destruct (explore_factors colors_self) as [[d | e] self'] eqn:E;
    [| vm_compute in E; discriminate E].
  destruct (X13_explore_factors_keys colors_self d self' E) as (-> & H & _).
  exists d. split; [reflexivity | exact H].
Defined.

(** X14: [explore_factors] raises, and leaves the instance unchanged, as soon as
    a factor column is called [count]. *)
Theorem X14_factor_named_count (self : DataPreprocessor) :
  In "count" (columns (factor_columns (train_df self))) ->
  exists e, explore_factors self = (Raise e, self).
Proof.
  intro Hin.
  destruct (explore_factors self) as [[d | e] self'] eqn:E.
  - exfalso. unfold explore_factors in E. apply bind_ok in E.
    destruct E as (fs & s1 & Hf & H).
    apply factors_ok in Hf. destruct Hf as (-> & Ftr & _).
    destruct (explore_factors_loop_ok _ _ _ _ _ H) as [Hall _].
    rewrite <- Ftr in Hin. destruct (Hall _ Hin) as (_ & _ & Hne).
    apply Hne. reflexivity.
  - rewrite (explore_factors_state _ _ _ E). exists e. reflexivity.
Qed.

Lemma X14_witness :
  exists e, explore_factors count_self = (Raise e, count_self).
Proof.
  apply X14_factor_named_count. left. reflexivity.
Defined.

Section NumericExploration.

Variable describe_statistics : list value -> result (list value).
Variable to_numeric : value -> result value.

Lemma summary_of_ok df col new f :
  summary_of describe_statistics df col new = Ok f ->
  (exists c, resolve df col = Ok c)
  /\ fcols f = map (fun n => if String.eqb n col then new else n) ["summary"; col].
Proof.
  intro H. unfold summary_of, select in H. cbn [resolve_all] in H.
  apply rbind_ok in H. destruct H as (sel & Hsel & H).
  apply rbind_ok in Hsel. destruct Hsel as (c & Hc & Hsel).
  cbn [rbind] in Hsel. injection Hsel as <-.
  apply rbind_ok in H. destruct H as (described & Hd & H).
  injection H as <-.
  cbn [describe] in Hd. apply rbind_ok in Hd. destruct Hd as (stats & _ & Hd).
  injection Hd as <-.
  split; [exists c; exact Hc |].
  destruct (resolve_In _ _ _ Hc) as [_ ->]. reflexivity.
Qed.

Lemma explore_numeric_columns_loop_ok cols : forall acc self d self',
  explore_numeric_columns_loop describe_statistics to_numeric cols acc self
  = (Ok d, self') ->
  (forall n, In n cols ->
     unique_in (train_df self) n /\ unique_in (test_df self) n /\ n <> "summary")
  /\ (NoDup (Py.keys acc ++ cols) -> Py.keys d = Py.keys acc ++ cols).
Proof.
  induction cols as [| col cols IH]; intros acc self d self' H.
  - injection H as <- _. split; [intros n [] |]. intros _. rewrite app_nil_r.
    reflexivity.
  - cbn [explore_numeric_columns_loop] in H.
    apply bind_ok in H. destruct H as (train & s1 & Hg1 & H).
    apply get_ok in Hg1. destruct Hg1 as [-> ->].
    apply bind_ok in H. destruct H as (train_summary & s2 & Hs1 & H).
    injection Hs1 as Hs1 <-.
    apply bind_ok in H. destruct H as (test & s3 & Hg2 & H).
    apply get_ok in Hg2. destruct Hg2 as [-> ->].
    apply bind_ok in H. destruct H as (test_summary & s4 & Hs2 & H).
    injection Hs2 as Hs2 <-.
    apply bind_ok in H. destruct H as (pandas_df & s5 & Hj & H).
    injection Hj as Hj <-.
    apply bind_ok in H. destruct H as (indexed & s6 & Hi & H).
    injection Hi as _ <-.
    apply bind_ok in H. destruct H as (numeric & s7 & Hn & H).
    injection Hn as _ <-.
    destruct (IH _ _ _ _ H) as [Hall Hkeys].
    destruct (summary_of_ok _ _ _ _ Hs1) as [Htr Hcols].
    destruct (summary_of_ok _ _ _ _ Hs2) as [Hte _].
    split.
    + intros n [<- | Hn]; [| exact (Hall n Hn)].
      split; [apply resolve_ok_unique; exact Htr |].
      split; [apply resolve_ok_unique; exact Hte |].
      intros ->. apply rbind_ok in Hj. destruct Hj as (j & Hj & _).
      unfold join_outer in Hj. rewrite Hcols in Hj. discriminate Hj.
    + intro Hnd.
      assert (Hfresh : ~ In col (Py.keys acc)).
      { intro Hin. apply NoDup_remove_2 in Hnd. apply Hnd.
        apply in_or_app. left. exact Hin. }
      rewrite Hkeys; rewrite (keys_setitem_fresh _ _ _ Hfresh);
        rewrite <- app_assoc; [reflexivity |].
      exact Hnd.
Qed.

End NumericExploration.

(** X15: when [explore_numeric_columns] returns, the instance is unchanged and
    the keys of the dictionary are the numeric columns, in schema order, the
    same for train and test, without repetition. *)
Theorem X15_explore_numeric_columns_keys
    (describe_statistics : list value -> result (list value))
    (to_numeric : value -> result value)
    (self : DataPreprocessor) (d : Py.dict Pandas.DataFrame)
    (self' : DataPreprocessor) :
  explore_numeric_columns describe_statistics to_numeric self = (Ok d, self') ->
  self' = self
  /\ Py.keys d = columns (numeric_column_list (train_df self))
  /\ Py.keys d = columns (numeric_column_list (test_df self))
  /\ NoDup (Py.keys d).
Proof.
  intro H. split; [exact (explore_numeric_columns_state _ _ _ _ _ H) |].
  unfold explore_numeric_columns in H. apply bind_ok in H.
  destruct H as (ns & s1 & Hf & H).
  apply numeric_columns_ok in Hf. destruct Hf as (-> & Ftr & Fte).
  destruct (explore_numeric_columns_loop_ok _ _ _ _ _ _ _ H) as [Hall Hkeys].
  assert (Hnd : NoDup ns).
  { rewrite Ftr. apply NoDup_columns_filter. intros n Hn.
    apply Hall. rewrite Ftr. exact Hn. }
  cbn [Py.keys map app] in Hkeys. specialize (Hkeys Hnd).
  rewrite Hkeys. repeat split; assumption.
Qed.

Lemma X15_witness :
  exists d,
    explore_numeric_columns count_only as_is colors_self = (Ok d, colors_self)
    /\ Py.keys d = ["size"].
Proof.
  destruct (explore_numeric_columns count_only as_is colors_self)
    as [[d | e] self'] eqn:E; [| vm_compute in E; discriminate E].
  destruct (X15_explore_numeric_columns_keys count_only as_is colors_self d self' E)
    as (-> & H & _).
  exists d. split; [reflexivity | exact H].
Defined.

(** X16: [explore_numeric_columns] raises, and leaves the instance unchanged, as
    soon as a numeric column is called [summary]. *)
Theorem X16_numeric_named_summary
    (describe_statistics : list value -> result (list value))
    (to_numeric : value -> result value) (self : DataPreprocessor) :
  In "summary" (columns (numeric_column_list (train_df self))) ->
  exists e,
    explore_numeric_columns describe_statistics to_numeric self = (Raise e, self).
Proof.
  intro Hin.
  destruct (explore_numeric_columns describe_statistics to_numeric self)
    as [[d | e] self'] eqn:E.
  - exfalso. unfold explore_numeric_columns in E. apply bind_ok in E.
    destruct E as (ns & s1 & Hf & H).
    apply numeric_columns_ok in Hf. destruct Hf as (-> & Ftr & _).
    destruct (explore_numeric_columns_loop_ok _ _ _ _ _ _ _ H) as [Hall _].
    rewrite <- Ftr in Hin. destruct (Hall _ Hin) as (_ & _ & Hne).
    apply Hne. reflexivity.
  - rewrite (explore_numeric_columns_state _ _ _ _ _ E). exists e. reflexivity.
Qed.

Lemma X16_witness :
  exists e,
    explore_numeric_columns count_only as_is summary_self = (Raise e, summary_self).
Proof.
  apply X16_numeric_named_summary. left. reflexivity.
Defined.

(** ** Assignments to the columns of a pandas table *)

Lemma map_result_Forall2 {A B} (f : A -> result B) l : forall l',
  Pandas.map_result f l = Ok l' <-> Forall2 (fun x y => f x = Ok y) l l'.
Proof.
  induction l as [| x l IH]; intro l'; cbn [Pandas.map_result].
  - split; intro H; [injection H as <-; constructor | inversion H; reflexivity].
  - split; intro H.
    + apply rbind_ok in H. destruct H as (y & Hy & H).
      apply rbind_ok in H. destruct H as (ys & Hys & H). injection H as <-.
      constructor; [exact Hy | apply IH; exact Hys].
    + inversion H as [| ? y ? ys Hy Hys]; subst.
      rewrite Hy. cbn [rbind]. apply IH in Hys. rewrite Hys. reflexivity.
Qed.

Lemma update_nth_spec (g : value -> result value) i : forall row row',
  Pandas.update_nth i g row = Ok row' ->
  List.length row' = List.length row
  /\ forall j, (j < List.length row)%nat ->
       if Nat.eqb j i then g (cell row j) = Ok (cell row' j)
       else cell row' j = cell row j.
Proof.
  induction i as [| i IH]; intros [| v row] row' H; cbn [Pandas.update_nth] in H.
  - injection H as <-. split; [reflexivity |]. intros j Hj. inversion Hj.
  - apply rbind_ok in H. destruct H as (w & Hw & H). injection H as <-.
    split; [reflexivity |]. intros [| j] _; [exact Hw | reflexivity].
  - injection H as <-. split; [reflexivity |]. intros j Hj. inversion Hj.
  - apply rbind_ok in H. destruct H as (ys & Hys & H). injection H as <-.
    destruct (IH _ _ Hys) as [Hlen Hcells].
    split; [cbn [List.length]; rewrite Hlen; reflexivity |].
    intros [| j] Hj; [reflexivity |].
    apply (Hcells j). cbn [List.length] in Hj. lia.
Qed.

Lemma positions_nth names name : forall k i,
  In i (positions names name k) <->
  exists j, i = (k + j)%nat /\ nth_error names j = Some name.
Proof.
  induction names as [| n names IH]; intros k i; cbn [positions].
  - split; [intros [] | intros (j & _ & H); destruct j; discriminate H].
  - assert (Hrest : In i (positions names name (S k)) <->
                    exists j, i = (k + S j)%nat /\ nth_error names j = Some name).
    { rewrite IH. split; intros (j & -> & H); exists j; split; auto; lia. }
    destruct (String.eqb n name) eqn:E.
    + apply String.eqb_eq in E. subst n. cbn [In]. rewrite Hrest. split.
      * intros [<- | (j & -> & H)]; [exists 0%nat | exists (S j)]; split; auto; lia.
      * intros ([| j] & -> & H); [left; lia | right; exists j; auto].
    + rewrite Hrest. apply String.eqb_neq in E. split.
      * intros (j & -> & H). exists (S j). auto.
      * intros ([| j] & -> & H); [injection H as H; contradiction | exists j; auto].
Qed.

Lemma assign_column_ok (g : value -> result value) df label df' :
  Pandas.assign_column df label g = Ok df' ->
  Pandas.index df' = Pandas.index df
  /\ Pandas.columns df' = Pandas.columns df
  /\ exists i, nth_error (Pandas.columns df) i = Some label
               /\ Forall2 (fun row row' => Pandas.update_nth i g row = Ok row')
                    (Pandas.rows df) (Pandas.rows df').
Proof.
  unfold Pandas.assign_column. intro H.
  destruct (positions (Pandas.columns df) label 0) as [| i [| i' rest]] eqn:E;
    [discriminate H | | discriminate H].
  apply rbind_ok in H. destruct H as (rs & Hrs & H). injection H as <-.
  cbn. split; [reflexivity |]. split; [reflexivity |].
  exists i. split.
  - assert (Hin : In i (positions (Pandas.columns df) label 0))
      by (rewrite E; left; reflexivity).
    apply positions_nth in Hin. destruct Hin as (j & -> & Hj). exact Hj.
  - apply map_result_Forall2. exact Hrs.
Qed.

Lemma Forall2_compose {A} (R S T : A -> A -> Prop) l1 : forall l2 l3,
  (forall a b c, R a b -> S b c -> T a c) ->
  Forall2 R l1 l2 -> Forall2 S l2 l3 -> Forall2 T l1 l3.
Proof.
  induction l1 as [| a l1 IH]; intros l2 l3 H H1 H2.
  - inversion H1; subst. inversion H2; subst. constructor.
  - inversion H1; subst. inversion H2; subst. constructor; eauto.
Qed.

Lemma Forall2_same {A} (R : A -> A -> Prop) l :
  (forall a, R a a) -> Forall2 R l l.
Proof. intro H. induction l; constructor; auto. Qed.

Lemma assign_loop_spec (g : value -> result value) cols : forall df df',
  NoDup (Pandas.columns df) -> NoDup cols ->
  _make_pandas_df_numeric_loop g df cols = Ok df' ->
  Pandas.index df' = Pandas.index df
  /\ Pandas.columns df' = Pandas.columns df
  /\ (forall c, In c cols -> In c (Pandas.columns df))
  /\ updated_rows g (Pandas.columns df) cols (Pandas.rows df) (Pandas.rows df').
Proof.
  induction cols as [| col cols IH]; intros df df' Hnd Hcols H;
    cbn [_make_pandas_df_numeric_loop] in H.
  - injection H as <-. split; [reflexivity |]. split; [reflexivity |].
    split; [intros c [] |].
    apply Forall2_same. intro row. split; [reflexivity |]. intros j _.
    destruct (nth_error (Pandas.columns df) j); reflexivity.
  - apply rbind_ok in H. destruct H as (df1 & H1 & H).
    destruct (assign_column_ok _ _ _ _ H1) as (Hi1 & Hc1 & i & Hi & Hrows1).
    inversion Hcols as [| ? ? Hfresh Hcols']; subst.
    rewrite <- Hc1 in Hnd.
    destruct (IH _ _ Hnd Hcols' H) as (Hi2 & Hc2 & Hin & Hrows2).
    rewrite Hc1 in *.
    split; [congruence |]. split; [congruence |].
    split.
    { intros c [<- | Hc]; [exact (nth_error_In _ _ Hi) | exact (Hin c Hc)]. }
    unfold updated_rows in *.
    apply (fun Hc => Forall2_compose _ _ _ _ _ _ Hc Hrows1 Hrows2).
    intros row row1 row' Hup [Hlen2 Hcells2].
    destruct (update_nth_spec _ _ _ _ Hup) as [Hlen1 Hcells1].
    split; [congruence |]. intros j Hj.
    specialize (Hcells1 j Hj). rewrite <- Hlen1 in Hj. specialize (Hcells2 j Hj).
    destruct (nth_error (Pandas.columns df) j) as [l |] eqn:El.
    + cbn [Py.mem existsb]. rewrite (String.eqb_sym l col).
      destruct (Nat.eqb j i) eqn:Eji.
      * apply Nat.eqb_eq in Eji. subst j.
        assert (l = col) as -> by congruence.
        rewrite String.eqb_refl. cbn [orb].
        apply mem_false_not_In in Hfresh.
        rewrite Hfresh in Hcells2. rewrite Hcells2. exact Hcells1.
      * assert (Hne : String.eqb col l = false).
        { apply String.eqb_neq. intros <-. apply Nat.eqb_neq in Eji. apply Eji.
          assert (Hlt : (j < List.length (Pandas.columns df))%nat).
          { apply nth_error_Some. rewrite El. discriminate. }
          apply (proj1 (NoDup_nth_error (Pandas.columns df)) Hnd j i Hlt).
          rewrite El, Hi. reflexivity. }
        rewrite Hne. cbn [orb]. rewrite Hcells1 in Hcells2. exact Hcells2.
    + destruct (Nat.eqb j i) eqn:Eji.
      * apply Nat.eqb_eq in Eji. subst j. congruence.
      * congruence.
Qed.

Lemma binarize_pandas_loop cols : forall df,
  _binarize_pandas df cols = _make_pandas_df_numeric_loop Pandas.binarize_cell df cols.
Proof.
  induction cols as [| col cols IH]; intro df; [reflexivity |].
  cbn [_binarize_pandas _make_pandas_df_numeric_loop].
  destruct (Pandas.assign_column df col Pandas.binarize_cell); cbn [rbind];
    [apply IH | reflexivity].
Qed.

Lemma binarize_cell_binary v w :
  Pandas.binarize_cell v = Ok w -> w = VInt 0 \/ w = VInt 1.
Proof.
  destruct v as [| s | n | x | b | l |]; cbn; intro H; try discriminate H;
    injection H as <-.
  - left. reflexivity.
  - destruct (0 <? n)%Z; auto.
  - destruct (Qle_bool x 0); auto.
  - destruct b; auto.
Qed.

Lemma Forall2_In_r {A B} (R : A -> B -> Prop) l l' y :
  Forall2 R l l' -> In y l' -> exists x, In x l /\ R x y.
Proof.
  induction 1 as [| a b l l' Hab _ IH]; intros Hy; [destruct Hy |].
  destruct Hy as [<- | Hy].
  - exists a. split; [left; reflexivity | exact Hab].
  - destruct (IH Hy) as (x & Hx & Hr). exists x. split; [right |]; assumption.
Qed.

(** X17: on a table with distinct column labels and for a list of labels
    without repetition, when [_binarize_pandas] returns, every listed label
    is a column of the table, the index and the labels are unchanged, every
    cell under a listed label is the outcome of the test [> 0] on the former
    cell, which is 0 or 1, and every other cell is unchanged. *)
Theorem X17_binarize_pandas (pandas_df : Pandas.DataFrame) (cols : list string)
    (df' : Pandas.DataFrame) :
  NoDup (Pandas.columns pandas_df) -> NoDup cols ->
  _binarize_pandas pandas_df cols = Ok df' ->
  Pandas.index df' = Pandas.index pandas_df
  /\ Pandas.columns df' = Pandas.columns pandas_df
  /\ (forall c, In c cols -> In c (Pandas.columns pandas_df))
  /\ updated_rows Pandas.binarize_cell (Pandas.columns pandas_df) cols
       (Pandas.rows pandas_df) (Pandas.rows df')
  /\ (forall row' j l,
        In row' (Pandas.rows df') ->
        nth_error (Pandas.columns pandas_df) j = Some l -> In l cols ->
        (j < List.length row')%nat ->
        cell row' j = VInt 0 \/ cell row' j = VInt 1).
Proof.
  intros Hnd Hcols H. rewrite binarize_pandas_loop in H.
  destruct (assign_loop_spec _ _ _ _ Hnd Hcols H) as (Hi & Hc & Hin & Hrows).
  split; [exact Hi |]. split; [exact Hc |]. split; [exact Hin |].
  split; [exact Hrows |].
  intros row' j l Hrow Hl Hmem Hj.
  destruct (Forall2_In_r _ _ _ _ Hrows Hrow) as (row & _ & Hlen & Hcells).
  rewrite Hlen in Hj. specialize (Hcells j Hj). rewrite Hl in Hcells.
  apply mem_In in Hmem. rewrite Hmem in Hcells.
  exact (binarize_cell_binary _ _ Hcells).
Qed.

Lemma X17_witness :
  exists df',
    _binarize_pandas counts_table ["in_test"; "in_train"] = Ok df'
    /\ Pandas.index df' = [VStr "red"; VStr "blue"; VStr "green"]
    /\ Pandas.columns df' = ["in_train"; "in_test"].
Proof.
  destruct (_binarize_pandas counts_table ["in_test"; "in_train"]) as [df' | e] eqn:E;
    [| vm_compute in E; discriminate E].
  destruct (X17_binarize_pandas counts_table ["in_test"; "in_train"] df') as (H1 & H2 & _).
  - vm_compute. repeat constructor; simpl; intuition discriminate.
  - repeat constructor; simpl; intuition discriminate.
  - exact E.
  - exists df'. split; [reflexivity |]. split; [exact H1 | exact H2].
Defined.

(** X18: on a table with distinct column labels, when
    [_make_pandas_df_numeric] returns, the index and the labels are unchanged
    and every cell under a label is the outcome of [to_numeric] on the former
    cell. *)
Theorem X18_make_pandas_df_numeric (to_numeric : value -> result value)
    (pandas_df df' : Pandas.DataFrame) :
  NoDup (Pandas.columns pandas_df) ->
  _make_pandas_df_numeric to_numeric pandas_df = Ok df' ->
  Pandas.index df' = Pandas.index pandas_df
  /\ Pandas.columns df' = Pandas.columns pandas_df
  /\ Forall2
       (fun row row' =>
          List.length row' = List.length row
          /\ forall j, (j < List.length row)%nat ->
               if (j <? List.length (Pandas.columns pandas_df))%nat
               then to_numeric (cell row j) = Ok (cell row' j)
               else cell row' j = cell row j)
       (Pandas.rows pandas_df) (Pandas.rows df').
Proof.
  intros Hnd H. unfold _make_pandas_df_numeric in H.
  destruct (assign_loop_spec _ _ _ _ Hnd Hnd H) as (Hi & Hc & _ & Hrows).
  split; [exact Hi |]. split; [exact Hc |].
  unfold updated_rows in Hrows.
  apply (Forall2_impl (B := list value)) with (2 := Hrows).
  intros row row' [Hlen Hcells]. split; [exact Hlen |].
  intros j Hj. specialize (Hcells j Hj).
  destruct (nth_error (Pandas.columns pandas_df) j) as [l |] eqn:El.
  - assert (Hlt : (j < List.length (Pandas.columns pandas_df))%nat).
    { apply nth_error_Some. rewrite El. discriminate. }
    apply Nat.ltb_lt in Hlt. rewrite Hlt.
    assert (Hm : Py.mem l (Pandas.columns pandas_df) = true).
    { apply mem_In. exact (nth_error_In _ _ El). }
    rewrite Hm in Hcells. exact Hcells.
  - apply nth_error_None in El. apply Nat.ltb_ge in El. rewrite El. exact Hcells.
Qed.

Lemma X18_witness :
  exists df',
    _make_pandas_df_numeric as_is counts_table = Ok df'
    /\ Pandas.columns df' = ["in_train"; "in_test"].
Proof.
  destruct (_make_pandas_df_numeric as_is counts_table) as [df' | e] eqn:E;
    [| vm_compute in E; discriminate E].
  destruct (X18_make_pandas_df_numeric as_is counts_table df') as (_ & H2 & _).
  - vm_compute. repeat constructor; simpl; intuition discriminate.
  - exact E.
  - exists df'. split; [reflexivity | exact H2].
Defined.

(** ** Appending twice *)

(** X19: after [one_hot_encode] returned for a non-empty list, calling it again
    with the same arguments raises [IllegalArgumentException], the first
    output column being there already, and leaves the instance as the first
    call left it. *)
Theorem X19_one_hot_encode_again (col : string) (cols : list string) (suffix : string)
    (self self' : DataPreprocessor) :
  one_hot_encode (col :: cols) suffix self = (Ok tt, self') ->
  one_hot_encode (col :: cols) suffix self'
  = (Raise (IllegalArgumentException "Column already exists"), self').
Proof.
  intro H.
  destruct (one_hot_encode_ok _ _ _ _ H) as (sizes & train' & test' & _ & Htr & _ & ->).
  destruct (ohe_transform_ok _ _ _ _ _ Htr) as (cs & Hres & -> & Hcols & Hfresh).
  inversion Hres as [| ? c ? cs' [Hc Hnum] _]; subst.
  assert (Hval : ohe_enough_values c = true).
  { unfold ohe_transform in Htr. apply rbind_ok in Htr. destruct Htr as [cs0 [Hv _]].
    exact (ohe_validate_enough _ _ _ _ _ Hv col c (or_introl eq_refl) Hc). }
  remember (encoded_columns (c :: cs') sizes
              (map (fun col0 => (col0 ++ suffix)%string) (col :: cols))) as enc eqn:Eenc.
  clear Eenc.
  assert (Hres' : resolve (train_df self ++ enc) col = Ok c).
  { apply resolve_app_fresh; [exact Hc |]. rewrite Hcols. intro Hin.
    apply (Hfresh _ Hin). destruct (resolve_In _ _ _ Hc) as [Hsrc <-].
    apply in_map. exact Hsrc. }
  assert (Em : Py.mem (col ++ suffix)%string (columns (train_df self ++ enc)) = true).
  { apply mem_In. rewrite columns_app, Hcols. apply in_or_app. right. left.
    reflexivity. }
  unfold one_hot_encode. apply bind_eq_raise.
  unfold _fit_and_transform. cbn [has_fit]. apply bind_eq_raise.
  unfold bind, get, lift. cbn [with_dataframes train_df fit].
  unfold ohe_fit. cbn [map ohe_validate]. rewrite Hres'. cbn [rbind].
  rewrite Hnum, Hval. cbn [negb]. rewrite Em. reflexivity.
Qed.

Lemma X19_witness :
  let self' := snd (one_hot_encode ["code"] "_vec" three_categories) in
  one_hot_encode ["code"] "_vec" self'
  = (Raise (IllegalArgumentException "Column already exists"), self').
Proof.
  intro self'. apply (X19_one_hot_encode_again "code" [] "_vec" three_categories).
  vm_compute. reflexivity.
Defined.

Lemma va_validate_app df news : forall inputs cs,
  va_validate df inputs = Ok cs ->
  (forall n, In n (columns news) -> ~ In n (columns df)) ->
  va_validate (df ++ news) inputs = Ok cs.
Proof.
  induction inputs as [| i inputs IH]; intros cs H Hfresh; [exact H |].
  cbn [va_validate] in *. apply rbind_ok in H. destruct H as (c & Hc & H).
  rewrite (resolve_app_fresh df news i c Hc).
  - cbn [rbind]. destruct (va_supported (ctype c)); [| discriminate H].
    apply rbind_ok in H. destruct H as (cs' & Hcs & H). injection H as <-.
    rewrite (IH _ Hcs Hfresh). reflexivity.
  - intro Hin. apply (Hfresh _ Hin). destruct (resolve_In _ _ _ Hc) as [Hsrc <-].
    apply in_map. exact Hsrc.
Qed.

(** X20: after [assemble_features] returned, calling it again with the same
    arguments raises [IllegalArgumentException], the output column being
    there already, and leaves the instance as the first call left it. *)
Theorem X20_assemble_features_again (cols : list string) (out_name : string)
    (self self' : DataPreprocessor) :
  assemble_features cols out_name self = (Ok tt, self') ->
  assemble_features cols out_name self'
  = (Raise (IllegalArgumentException "Output column already exists."), self').
Proof.
  intro H.
  destruct (assemble_features_ok _ _ _ _ H) as (train' & test' & Htr & _ & ->).
  destruct (va_transform_ok _ _ _ _ Htr) as (cs & sizes & Hval & Hfresh & ->).
  unfold assemble_features. apply bind_eq_raise.
  unfold _fit_and_transform. cbn [has_fit]. unfold bind, ret, get, lift.
  cbn [with_dataframes train_df transform]. unfold va_transform.
  rewrite (va_validate_app _ _ _ _ Hval).
  - cbn [rbind]. unfold output_exists.
    assert (Em : Py.mem out_name
                   (columns (train_df self
                             ++ [mkColumn out_name VectorUDT true (MetaGroup sizes)
                                   (va_rows (nrows (train_df self)) cs)])) = true).
    { apply mem_In. rewrite columns_app. apply in_or_app. right. left. reflexivity. }
    rewrite Em. reflexivity.
  - intros n [<- | []]. exact Hfresh.
Qed.

Lemma X20_witness :
  let self' := snd (assemble_features ["size"; "target"] "features" example_self) in
  assemble_features ["size"; "target"] "features" self'
  = (Raise (IllegalArgumentException "Output column already exists."), self').
Proof.
  intro self'.
  apply (X20_assemble_features_again ["size"; "target"] "features" example_self).
  vm_compute. reflexivity.
Defined.

(** ** Decoding the indexed columns *)

Lemma index_of_nth s labels : forall k,
  index_of s labels = Some k -> nth_error labels k = Some s.
Proof.
  induction labels as [| l labels IH]; intros k H; [discriminate H |].
  cbn [index_of] in H. destruct (String.eqb l s) eqn:E.
  - injection H as <-. apply String.eqb_eq in E. subst l. reflexivity.
  - destruct (index_of s labels) as [k' |]; [| discriminate H].
    injection H as <-. exact (IH _ eq_refl).
Qed.

Lemma NoDup_insert_label ss a sorted :
  ~ In a sorted -> NoDup sorted -> NoDup (insert_label ss a sorted).
Proof.
  induction sorted as [| b rest IH]; intros Ha Hnd; cbn [insert_label].
  - constructor; [intros [] | constructor].
  - destruct (label_before ss a b).
    + constructor; assumption.
    + inversion Hnd as [| ? ? Hb Hrest]; subst. constructor.
      * intro Hin. apply insert_label_In in Hin. destruct Hin as [-> | Hin].
        -- apply Ha. left. reflexivity.
        -- apply Hb. exact Hin.
      * apply IH; [| exact Hrest]. intro Hin. apply Ha. right. exact Hin.
Qed.

Lemma fold_insert_label_In ss l x :
  In x (fold_right (insert_label ss) [] l) -> In x l.
Proof.
  induction l as [| b l IH]; intro Hin; [exact Hin |].
  cbn [fold_right] in Hin. apply insert_label_In in Hin.
  destruct Hin as [-> | Hin]; [left; reflexivity | right; apply IH; exact Hin].
Qed.

Lemma NoDup_fit_labels ss : NoDup (fit_labels ss).
Proof.
  unfold fit_labels.
  pose proof (NoDup_nodup string_dec ss) as Hnd.
  induction Hnd as [| a l Ha Hnd IH]; [constructor |].
  cbn [fold_right]. apply NoDup_insert_label; [| exact IH].
  intro Hin. apply Ha. exact (fold_insert_label_In _ _ _ Hin).
Qed.

Lemma read_strings_In cells : forall ss,
  read_strings cells = Ok ss -> forall s, In s ss -> In (VStr s) cells.
Proof.
  induction cells as [| v cells IH]; intros ss H s Hs.
  - injection H as <-. destruct Hs.
  - destruct v; cbn [read_strings] in H; try discriminate H.
    + right. exact (IH _ H s Hs).
    + apply rbind_ok in H. destruct H as (ss' & Hss & H). injection H as <-.
      destruct Hs as [<- | Hs]; [left; reflexivity | right; exact (IH _ Hss s Hs)].
Qed.

Lemma si_code_decodes labels v : decodes labels v (si_code labels v).
Proof.
  unfold si_code, decodes. destruct v as [| s | | | | |]; try (intros s' Hs; discriminate Hs).
  destruct (index_of s labels) as [k |] eqn:E.
  - exists k, s. split; [reflexivity |]. split; [reflexivity |].
    exact (index_of_nth _ _ _ E).
  - intros s' Hs Hin. injection Hs as <-.
    destruct (index_of_In _ _ Hin) as (k & Hk). congruence.
Qed.

Lemma map_si_code_decodes labels cells :
  Forall2 (decodes labels) cells (map (si_code labels) cells).
Proof.
  induction cells as [| v cells IH]; constructor; [apply si_code_decodes | exact IH].
Qed.

Lemma map_pair_In {A B C} (f : A -> B) (g : A -> C) (h : B -> C) l : forall xs,
  map f l = xs -> map g l = map h xs ->
  forall m, In m l -> g m = h (f m) /\ In (f m) xs.
Proof.
  induction l as [| a l IH]; intros xs Hf Hg m Hm; [destruct Hm |].
  subst xs. cbn [map] in Hg. injection Hg as Ha Hg.
  destruct Hm as [<- | Hm].
  - split; [exact Ha | left; reflexivity].
  - destruct (IH _ eq_refl Hg m Hm) as [H1 H2]. split; [exact H1 | right; exact H2].
Qed.

Lemma pipeline_transform_NoDup ms : forall df df',
  pipeline_transform ms df = Ok df' -> NoDup (columns df) -> NoDup (columns df').
Proof.
  induction ms as [| m ms IH]; intros df df' H Hnd.
  - injection H as <-. exact Hnd.
  - cbn [pipeline_transform] in H. apply rbind_ok in H. destruct H as (df1 & H1 & H).
    apply (IH _ _ H). apply si_transform_ok in H1.
    destruct H1 as (src & _ & _ & Hfresh & ->).
    rewrite columns_app. apply NoDup_snoc; assumption.
Qed.

Lemma factor_resolves df f :
  NoDup (columns df) -> In f (columns (factor_columns df)) ->
  exists c, resolve df f = Ok c.
Proof.
  intros Hnd Hf. apply In_columns_filter in Hf. destruct Hf as (c & Hc & _ & <-).
  exists c. exact (resolve_NoDup _ _ Hnd Hc).
Qed.

(** The column appended for the factor [f], from the dataframe [df] that the
    fitted indexers transform. *)
Lemma indexed_column_resolves cols suffix (train df df' : DataFrame)
    (ms : list StringIndexerModel) f src_train src :
  pipeline_fit (map (fun c => mkStringIndexer c (c ++ suffix)) cols) train = Ok ms ->
  pipeline_transform ms df = Ok df' ->
  NoDup (columns df) -> In f cols ->
  resolve train f = Ok src_train -> resolve df f = Ok src ->
  exists ss,
    read_strings (cdata src_train) = Ok ss
    /\ resolve df' (f ++ suffix)
       = Ok (mkColumn (f ++ suffix) DoubleType false (MetaNominal (fit_labels ss))
               (map (si_code (fit_labels ss)) (cdata src))).
Proof.
  intros Hfit Htr Hnd Hf Hst Hs.
  destruct (pipeline_fit_ok _ _ _ Hfit) as (Hins & Houts & Hlabels).
  rewrite map_map in Hins, Houts. cbn [si_inputCol si_outputCol] in Hins, Houts.
  rewrite map_id in Hins.
  pose proof (map_pair_In sim_inputCol sim_outputCol
                (fun c => (c ++ suffix)%string) ms cols Hins Houts) as Hpair.
  destruct (pipeline_transform_ok _ _ _ Htr) as (news & -> & Hcols & _ & _ & Hnews).
  assert (Hin : In (f ++ suffix)%string (columns news)).
  { rewrite Hcols, Houts.
    exact (in_map (fun c => (c ++ suffix)%string) cols f Hf). }
  apply in_map_iff in Hin. destruct Hin as (c & Hname & Hc).
  destruct (Hnews c Hc) as (m & pre & src' & Hm & Hres & ->).
  destruct (Hpair m Hm) as [Hout _].
  cbn [indexed_column cname] in Hname. rewrite Hout in Hname.
  apply append_cancel_r in Hname.
  destruct (resolve_In _ _ _ Hs) as [Hsrc Hsname].
  rewrite Hname in Hres.
  pose proof (resolve_app_In _ _ _ _ _ Hres Hsrc Hsname) as ->.
  destruct (Hlabels m Hm) as (pre2 & src2 & ss & Hres2 & Hread & Hlab).
  rewrite Hname in Hres2.
  destruct (resolve_In _ _ _ Hst) as [Hsrct Hstname].
  pose proof (resolve_app_In _ _ _ _ _ Hres2 Hsrct Hstname) as ->.
  exists ss. split; [exact Hread |].
  assert (Hnd' : NoDup (columns (df ++ news)))
    by exact (pipeline_transform_NoDup _ _ _ Htr Hnd).
  assert (Hcin : In (indexed_column m src) (df ++ news))
    by (apply in_or_app; right; exact Hc).
  pose proof (resolve_NoDup _ _ Hnd' Hcin) as Hr.
  unfold indexed_column in Hr at 1. cbn [cname] in Hr.
  rewrite Hout, Hname in Hr. rewrite Hr.
  unfold indexed_column. rewrite Hout, Hname, Hlab. reflexivity.
Qed.

(** X21: with distinct column names, after [string_index] returned, the column
    appended for a listed factor carries, in train and in test, the same list
    of labels: distinct strings, exactly those of the train column.  Every
    code is the position of the cell's string in this list, so the labels
    decode the column, and a cell that raises stands for a value that is no
    string or whose string is not among the labels. *)
Theorem X21_string_index_decodes (cols : list string) (suffix : string)
    (self self' : DataPreprocessor) (f : string) :
  NoDup (columns (train_df self)) -> NoDup (columns (test_df self)) ->
  string_index cols suffix self = (Ok tt, self') ->
  In f cols ->
  exists src_train src_test labels idx_train idx_test,
    resolve (train_df self) f = Ok src_train
    /\ resolve (test_df self) f = Ok src_test
    /\ resolve (train_df self') (f ++ suffix) = Ok idx_train
    /\ resolve (test_df self') (f ++ suffix) = Ok idx_test
    /\ cmeta idx_train = MetaNominal labels
    /\ cmeta idx_test = MetaNominal labels
    /\ NoDup labels
    /\ (forall s, In s labels <-> In (VStr s) (cdata src_train))
    /\ Forall2 (decodes labels) (cdata src_train) (cdata idx_train)
    /\ Forall2 (decodes labels) (cdata src_test) (cdata idx_test).
Proof.
  intros Hndtr Hndte H Hf.
  destruct (string_index_ok _ _ _ _ H) as (ms & train' & test' & Hfit & Htr & Hte & ->).
  unfold string_index in H. apply bind_ok in H. destruct H as ([] & s1 & Ha & _).
  destruct (assert_are_factors_ok _ _ _ Ha) as [_ Hfs].
  destruct (Hfs f Hf) as [Hftr Hfte].
  destruct (factor_resolves _ _ Hndtr Hftr) as (src_train & Hst).
  destruct (factor_resolves _ _ Hndte Hfte) as (src_test & Hse).
  destruct (indexed_column_resolves _ _ _ _ _ _ _ _ _ Hfit Htr Hndtr Hf Hst Hst)
    as (ss & Hread & Hrtr).
  destruct (indexed_column_resolves _ _ _ _ _ _ _ _ _ Hfit Hte Hndte Hf Hst Hse)
    as (ss' & Hread' & Hrte).
  assert (ss' = ss) as -> by congruence.
  eexists src_train, src_test, (fit_labels ss), _, _.
  cbn [with_dataframes train_df test_df].
  split; [exact Hst |]. split; [exact Hse |].
  split; [exact Hrtr |]. split; [exact Hrte |].
  split; [reflexivity |]. split; [reflexivity |].
  split; [apply NoDup_fit_labels |].
  split.
  - intro s. rewrite fit_labels_In. split.
    + apply (read_strings_In _ _ Hread).
    + intro Hin. destruct (read_strings_cells _ _ Hread _ Hin) as [Hn | (s' & Hs' & Hin')];
        [discriminate Hn |]. injection Hs' as ->. exact Hin'.
  - split; apply map_si_code_decodes.
Qed.

Lemma X21_witness :
  exists src_train labels idx_train,
    resolve example_train "color" = Ok src_train
    /\ resolve (train_df (snd (string_index ["color"] "_cat" example_self))) "color_cat"
       = Ok idx_train
    /\ cmeta idx_train = MetaNominal labels
    /\ Forall2 (decodes labels) (cdata src_train) (cdata idx_train).
Proof.
  destruct (X21_string_index_decodes ["color"] "_cat" example_self
              (snd (string_index ["color"] "_cat" example_self)) "color")
    as (st & se & labels & it & ie & H1 & _ & H3 & _ & H5 & _ & _ & _ & H9 & _).
  - exact (proj1 (proj2 (proj2 example_self_well_formed))).
  - vm_compute. repeat constructor; simpl; intuition discriminate.
  - vm_compute. reflexivity.
  - left. reflexivity.
  - exists st, labels, it. auto.
Defined.

(** ** The columns during the lifetime of an instance *)

Lemma appends_reader {A} (m : M A) :
  (forall self r self', m self = (r, self') -> self' = self) -> appends m.
Proof.
  intros Hm self r self' _ H. rewrite (Hm _ _ _ H). exists []. rewrite app_nil_r.
  reflexivity.
Qed.













(** ** The joined counts *)

Lemma join_count_names_lower n : In n join_count_names -> In (lower n) join_count_names.
Proof.
  intros [<- | [<- | [<- | []]]]; vm_compute; auto.
Qed.


(** X23: on an instance whose column names are identifiers that differ even
    when case is ignored, for a factor column of the train and of the test
    dataframe whose cells can be computed and whose name is none of [count],
    [in_train] and [in_test], whatever the case of its letters,
    [_get_join_count] returns a relation with the columns [column],
    [in_train], [in_test] and leaves the instance unchanged.  Every row holds
    a value of the train or of the test column and, when this value is not
    null, its number of occurrences in train and in test, a null standing for
    none; every value of either column that is not null has a row. *)
Theorem X23_get_join_count (column : string) (self : DataPreprocessor)
    (c_train c_test : Spark.column) :
  plain_names (train_df self) -> plain_names (test_df self) ->
  In c_train (train_df self) -> In c_test (test_df self) ->
  cname c_train = column -> cname c_test = column ->
  ctype c_train = StringType -> ctype c_test = StringType ->
  ~ In VError (cdata c_train) -> ~ In VError (cdata c_test) ->
  ~ In (lower column) join_count_names ->
  exists rows,
    _get_join_count column self
    = (Ok (mkFrame [column; "in_train"; "in_test"] rows), self)
    /\ (forall row, In row rows ->
          exists k a b,
            row = [k; a; b]
            /\ (In k (cdata c_train) \/ In k (cdata c_test))
            /\ (k <> VNull ->
                a = count_or_null (cdata c_train) k
                /\ b = count_or_null (cdata c_test) k))
    /\ (forall k, k <> VNull -> In k (cdata c_train) \/ In k (cdata c_test) ->
          exists row, In row rows /\ cell row 0 = k).
Proof.
  intros Ptr Pte Itr Ite Ntr Nte _ _ _ _ Hlow.
  assert (Hname : ~ In column join_count_names).
  { intro Hin. exact (Hlow (join_count_names_lower column Hin)). }
  pose proof (resolve_NoDup _ _ (plain_names_NoDup _ Ptr) Itr) as Htr.
  pose proof (resolve_NoDup _ _ (plain_names_NoDup _ Pte) Ite) as Hte.
  rewrite Ntr in Htr. rewrite Nte in Hte.
  exists (join_count_rows (cdata c_train) (cdata c_test)).
  split; [exact (get_join_count_run _ _ _ _ Hname Htr Hte) |].
  split.
  - intros row Hrow.
    destruct (join_count_rows_shape _ _ _ Hrow) as (k & a & b & -> & Hk & _ & _ & Hab).
    exists k, a, b. auto.
  - intros k Hk Hin. exact (join_count_rows_keys _ _ _ Hk Hin).
Qed.

Lemma X23_witness :
  exists rows,
    _get_join_count "color" colors_self
    = (Ok (mkFrame ["color"; "in_train"; "in_test"] rows), colors_self)
    /\ exists row, In row rows /\ cell row 0 = VStr "green".
Proof.
  destruct (X23_get_join_count "color" colors_self
              (string_column "color" ["red"; "blue"; "red"])
              (string_column "color" ["blue"; "green"]))
    as (rows & H1 & _ & H3).
  - split; [repeat constructor |].
    vm_compute. repeat constructor; simpl; intuition discriminate.
  - split; [repeat constructor |].
    vm_compute. repeat constructor; simpl; intuition discriminate.
  - left. reflexivity.
  - left. reflexivity.
  - reflexivity.
  - reflexivity.
  - reflexivity.
  - reflexivity.
  - vm_compute. intuition discriminate.
  - vm_compute. intuition discriminate.
  - vm_compute. intuition discriminate.
  - exists rows. split; [exact H1 |].
    apply H3; [discriminate |]. right. right. left. reflexivity.
Defined.

(** ** The tables of [explore_numeric_columns] *)

Lemma key_eqb_str a b : key_eqb (VStr a) (VStr b) = String.eqb a b.
Proof.
  unfold key_eqb. destruct (value_eq_dec (VStr a) (VStr b)) as [E | E].
  - injection E as ->. symmetry. apply String.eqb_refl.
  - symmetry. apply String.eqb_neq. congruence.
Qed.

Section NumericTables.

Variable describe_statistics : list value -> result (list value).
Variable to_numeric : value -> result value.

Lemma five_statistics c :
  described describe_statistics to_numeric c ->
  exists a0 a1 a2 a3 a4,
    describe_statistics (cdata c) = Ok [a0; a1; a2; a3; a4]
    /\ Forall (fun v => v <> VError /\ to_numeric v = Ok (value_of (to_numeric v)))
              [a0; a1; a2; a3; a4].
Proof.
  intros (stats & H & Hlen & Herr & Hnum).
  assert (HF : Forall (fun v => v <> VError
                                /\ to_numeric v = Ok (value_of (to_numeric v))) stats).
  { apply Forall_forall. intros v Hv. split.
    - intros ->. exact (Herr Hv).
    - destruct (Hnum v Hv) as (w & Hw). rewrite Hw. reflexivity. }
  destruct stats as [| a0 [| a1 [| a2 [| a3 [| a4 [| a5 rest]]]]]];
    try discriminate Hlen.
  exists a0, a1, a2, a3, a4. split; [exact H | exact HF].
Qed.

Lemma summary_of_run df col new c stats :
  resolve df col = Ok c -> col <> "summary" ->
  describe_statistics (cdata c) = Ok stats ->
  summary_of describe_statistics df col new
  = Ok (mkFrame ["summary"; new]
          (map (fun p => [VStr (fst p); snd p]) (combine statistics stats))).
Proof.
  intros Hc Hne Hs. unfold summary_of, select. cbn [resolve_all].
  rewrite Hc. cbn [rbind describe]. rewrite Hs. cbn [rbind].
  unfold rename_frame. cbn [fcols frows map].
  destruct (resolve_In _ _ _ Hc) as [_ ->].
  rewrite String.eqb_refl.
  assert (E : String.eqb "summary" col = false).
  { apply String.eqb_neq. congruence. }
  rewrite E. reflexivity.
Qed.

Lemma numeric_table_run col self c_train c_test :
  resolve (train_df self) col = Ok c_train ->
  resolve (test_df self) col = Ok c_test ->
  col <> "summary" ->
  described describe_statistics to_numeric c_train ->
  described describe_statistics to_numeric c_test ->
  (train_summary <-- summary_of describe_statistics (train_df self) col "train" ;;;
   test_summary <-- summary_of describe_statistics (test_df self) col "test" ;;;
   j <-- join_outer train_summary test_summary "summary" ;;;
   pandas_df <-- Pandas.toPandas j ;;;
   indexed <-- Pandas.set_index pandas_df "summary" ;;;
   _make_pandas_df_numeric to_numeric indexed)%result
  = Ok (numeric_table describe_statistics to_numeric self col).
Proof.
  intros Htr Hte Hne Hdtr Hdte.
  destruct (five_statistics _ Hdtr) as (a0 & a1 & a2 & a3 & a4 & Hst & Ha).
  destruct (five_statistics _ Hdte) as (b0 & b1 & b2 & b3 & b4 & Hse & Hb).
  rewrite (summary_of_run _ _ _ _ _ Htr Hne Hst). cbn [rbind].
  rewrite (summary_of_run _ _ _ _ _ Hte Hne Hse). cbn [rbind].
  unfold numeric_table, statistics_of, cells_of. rewrite Htr, Hte, Hst, Hse.
  repeat match goal with
         | H : Forall _ (_ :: _) |- _ =>
             let Hv := fresh "Hv" in let Hn := fresh "Hn" in
             apply Forall_cons_iff in H; destruct H as [[Hv Hn] H]
         end.
  assert (Hjoin :
    join_outer
      (mkFrame ["summary"; "train"]
         (map (fun p => [VStr (fst p); snd p])
              (combine statistics [a0; a1; a2; a3; a4])))
      (mkFrame ["summary"; "test"]
         (map (fun p => [VStr (fst p); snd p])
              (combine statistics [b0; b1; b2; b3; b4])))
      "summary"
    = Ok (mkFrame ["summary"; "train"; "test"]
            [[VStr "count"; a0; b0]; [VStr "mean"; a1; b1]; [VStr "stddev"; a2; b2];
             [VStr "min"; a3; b3]; [VStr "max"; a4; b4]])).
  { unfold join_outer, position, statistics.
    cbn [fcols frows positions combine map]. eval_eqb. cbn [rbind].
    cbn [flat_map filter cell nth existsb negb app List.length remove_nth nulls
         repeat Nat.sub map].
    rewrite !key_eqb_str. eval_eqb.
    cbn [flat_map filter cell nth existsb negb app List.length remove_nth nulls
         repeat Nat.sub map orb].
    reflexivity. }
  rewrite Hjoin. cbn [rbind].
  assert (Hpandas :
    Pandas.toPandas
      (mkFrame ["summary"; "train"; "test"]
         [[VStr "count"; a0; b0]; [VStr "mean"; a1; b1]; [VStr "stddev"; a2; b2];
          [VStr "min"; a3; b3]; [VStr "max"; a4; b4]])
    = Ok (Pandas.mkDataFrame [VInt 0; VInt 1; VInt 2; VInt 3; VInt 4]
            ["summary"; "train"; "test"]
            [[VStr "count"; a0; b0]; [VStr "mean"; a1; b1]; [VStr "stddev"; a2; b2];
             [VStr "min"; a3; b3]; [VStr "max"; a4; b4]])).
  { unfold Pandas.toPandas. cbn [frows fcols existsb].
    repeat match goal with
           | |- context [value_eq_dec ?v VError] =>
               destruct (value_eq_dec v VError) as [? | _];
               [first [contradiction | discriminate] |]
           end.
    reflexivity. }
  rewrite Hpandas. cbn [rbind].
  assert (Hindex :
    Pandas.set_index
      (Pandas.mkDataFrame [VInt 0; VInt 1; VInt 2; VInt 3; VInt 4]
         ["summary"; "train"; "test"]
         [[VStr "count"; a0; b0]; [VStr "mean"; a1; b1]; [VStr "stddev"; a2; b2];
          [VStr "min"; a3; b3]; [VStr "max"; a4; b4]])
      "summary"
    = Ok (Pandas.mkDataFrame (map VStr statistics) ["train"; "test"]
            [[a0; b0]; [a1; b1]; [a2; b2]; [a3; b3]; [a4; b4]])).
  { unfold Pandas.set_index, statistics.
    cbn [Pandas.columns Pandas.rows positions]. eval_eqb.
    cbn [map cell nth remove_nth]. reflexivity. }
  rewrite Hindex. cbn [rbind].
  cbn [map combine fst snd].
  repeat match goal with
         | H : to_numeric ?v = Ok (value_of (to_numeric ?v)) |- _ =>
             let w := fresh "w" in
             remember (value_of (to_numeric v)) as w eqn:Ew in *; clear Ew
         end.
  unfold _make_pandas_df_numeric. cbn [Pandas.columns _make_pandas_df_numeric_loop].
  unfold Pandas.assign_column.
  cbn [Pandas.columns Pandas.rows Pandas.index positions]. eval_eqb.
  cbn [Pandas.map_result Pandas.update_nth rbind].
  repeat match goal with
         | H : to_numeric ?v = Ok _ |- context [to_numeric ?v] => rewrite H
         end.
  cbn [rbind Pandas.columns Pandas.rows Pandas.index positions]. eval_eqb.
  cbn [Pandas.map_result Pandas.update_nth rbind].
  repeat match goal with
         | H : to_numeric ?v = Ok _ |- context [to_numeric ?v] => rewrite H
         end.
  cbn [rbind]. reflexivity.
Qed.

Lemma explore_numeric_columns_loop_run self : forall cols acc,
  (forall n, In n cols ->
     n <> "summary"
     /\ (exists c, resolve (train_df self) n = Ok c
                   /\ described describe_statistics to_numeric c)
     /\ (exists c, resolve (test_df self) n = Ok c
                   /\ described describe_statistics to_numeric c)) ->
  explore_numeric_columns_loop describe_statistics to_numeric cols acc self
  = (Ok (fold_left
           (fun d n => Py.setitem d n (numeric_table describe_statistics to_numeric self n))
           cols acc),
     self).
Proof.
  induction cols as [| col cols IH]; intros acc Hcols; [reflexivity |].
  destruct (Hcols col (or_introl eq_refl)) as (Hne & (c1 & Hr1 & Hd1) & (c2 & Hr2 & Hd2)).
  pose proof (numeric_table_run col self c1 c2 Hr1 Hr2 Hne Hd1 Hd2) as Hrun.
  apply rbind_ok in Hrun. destruct Hrun as (ts & Hts & Hrun).
  apply rbind_ok in Hrun. destruct Hrun as (tes & Htes & Hrun).
  apply rbind_ok in Hrun. destruct Hrun as (j & Hj & Hrun).
  apply rbind_ok in Hrun. destruct Hrun as (p & Hp & Hrun).
  apply rbind_ok in Hrun. destruct Hrun as (ix & Hix & Hrun).
  cbn [explore_numeric_columns_loop fold_left]. unfold bind, get, lift.
  rewrite Hts, Htes, Hj. cbn [rbind]. rewrite Hp, Hix, Hrun.
  apply IH. intros n Hn. apply Hcols. right. exact Hn.
Qed.

End NumericTables.

Lemma same_schema_type df1 df2 c1 c2 :
  schema df1 = schema df2 -> NoDup (columns df1) ->
  In c1 df1 -> In c2 df2 -> cname c2 = cname c1 -> ctype c2 = ctype c1.
Proof.
  intros Hs Hnd H1 H2 Hname.
  apply (in_map field_of) in H2. fold (schema df2) in H2. rewrite <- Hs in H2.
  apply in_map_iff in H2. destruct H2 as (c & Hf & Hc).
  injection Hf as Hn Ht _ _.
  assert (c = c1) as ->.
  { apply (NoDup_map_In_eq cname df1); [exact Hnd | exact Hc | exact H1 | congruence]. }
  symmetry. exact Ht.
Qed.

(** X24: on an instance with identical schemas whose column names are
    identifiers that differ even when case is ignored, no numeric column of
    which is called [summary], whatever the case of its letters, and when
    [describe()] yields its five statistics for every numeric column and
    [to_numeric] parses them,
    [explore_numeric_columns] returns, leaves the instance unchanged, and
    stores for every numeric column a table with the columns [train] and
    [test], whose rows are, for each statistic, the parsed statistic of the
    train column and that of the test column, indexed by the name of the
    statistic. *)
Theorem X24_explore_numeric_columns_tables
    (describe_statistics : list value -> result (list value))
    (to_numeric : value -> result value) (self : DataPreprocessor) :
  same_schema self ->
  plain_names (train_df self) ->
  ~ In "summary" (map lower (columns (numeric_column_list (train_df self)))) ->
  (forall c, In c (train_df self) \/ In c (test_df self) ->
             is_numeric_column_type (ctype c) = true ->
             described describe_statistics to_numeric c) ->
  exists d,
    explore_numeric_columns describe_statistics to_numeric self = (Ok d, self)
    /\ forall c_train c_test,
         In c_train (train_df self) -> In c_test (test_df self) ->
         is_numeric_column_type (ctype c_train) = true ->
         cname c_test = cname c_train ->
         exists table stats_train stats_test,
           Py.getitem d (cname c_train) = Some table
           /\ describe_statistics (cdata c_train) = Ok stats_train
           /\ describe_statistics (cdata c_test) = Ok stats_test
           /\ Pandas.columns table = ["train"; "test"]
           /\ forall name row,
                In (VStr name, row) (indexed_rows table)
                <-> exists a b a' b',
                      In (name, (a, b))
                         (combine statistics (combine stats_train stats_test))
                      /\ to_numeric a = Ok a' /\ to_numeric b = Ok b'
                      /\ row = [a'; b'].
Proof.
  intros Hs Hplain Hlow Hdesc.
  pose proof (plain_names_NoDup _ Hplain) as Hnd.
  assert (Hsum : ~ In "summary" (columns (numeric_column_list (train_df self)))).
  { intro Hin. apply Hlow. change "summary" with (lower "summary").
    apply in_map. exact Hin. }
  assert (Hnd' : NoDup (columns (test_df self))).
  { rewrite <- (schema_columns _ _ Hs). exact Hnd. }
  set (T := numeric_table describe_statistics to_numeric self).
  set (ns := columns (numeric_column_list (train_df self))).
  exists (fold_left (fun d n => Py.setitem d n (T n)) ns []).
  assert (Hcols : forall n, In n ns ->
            n <> "summary"
            /\ (exists c, resolve (train_df self) n = Ok c
                          /\ described describe_statistics to_numeric c)
            /\ (exists c, resolve (test_df self) n = Ok c
                          /\ described describe_statistics to_numeric c)).
  { intros n Hn. split; [intros ->; exact (Hsum Hn) |].
    pose proof Hn as Hn'. unfold ns, numeric_column_list in Hn'.
    rewrite (filter_type_schema is_numeric_column_type _ _ Hs) in Hn'.
    apply In_columns_filter in Hn. destruct Hn as (c1 & Hc1 & Ht1 & <-).
    apply In_columns_filter in Hn'. destruct Hn' as (c2 & Hc2 & Ht2 & Hname).
    split.
    - exists c1. split; [exact (resolve_NoDup _ _ Hnd Hc1) |].
      apply Hdesc; [left; exact Hc1 | exact Ht1].
    - exists c2. split; [rewrite <- Hname; exact (resolve_NoDup _ _ Hnd' Hc2) |].
      apply Hdesc; [right; exact Hc2 | exact Ht2]. }
  split.
  - unfold explore_numeric_columns.
    rewrite (bind_eq_ok _ _ _ _ _ (numeric_columns_run self Hs)).
    exact (explore_numeric_columns_loop_run _ _ self ns [] Hcols).
  - intros c_train c_test Htr Hte Hty Hname.
    assert (Hty' : is_numeric_column_type (ctype c_test) = true).
    { rewrite (same_schema_type _ _ _ _ Hs Hnd Htr Hte Hname). exact Hty. }
    assert (Hin : In (cname c_train) ns).
    { apply In_columns_filter. exists c_train. auto. }
    pose proof (Hdesc c_train (or_introl Htr) Hty) as Hd1.
    pose proof (Hdesc c_test (or_intror Hte) Hty') as Hd2.
    destruct (five_statistics _ _ _ Hd1) as (a0 & a1 & a2 & a3 & a4 & Hst & Ha).
    destruct (five_statistics _ _ _ Hd2) as (b0 & b1 & b2 & b3 & b4 & Hse & Hb).
    exists (T (cname c_train)), [a0; a1; a2; a3; a4], [b0; b1; b2; b3; b4].
    split; [apply getitem_fold_setitem; left; exact Hin |].
    split; [exact Hst |]. split; [exact Hse |]. split; [reflexivity |].
    unfold T, numeric_table, statistics_of, cells_of, indexed_rows.
    rewrite (resolve_NoDup _ _ Hnd Htr).
    rewrite <- Hname, (resolve_NoDup _ _ Hnd' Hte), Hst, Hse.
    cbn [Pandas.index Pandas.rows statistics map combine fst snd].
    repeat match goal with
           | H : Forall _ (_ :: _) |- _ =>
               let Hv := fresh "Hv" in let Hn := fresh "Hn" in
               apply Forall_cons_iff in H; destruct H as [[Hv Hn] H]
           end.
    intros name row. split.
    + intro Hrow. cbn [In] in Hrow.
      repeat (destruct Hrow as [Hrow | Hrow];
              [injection Hrow as <- <-;
               eexists _, _, _, _;
               (split; [cbn [In]; eauto 10 |]);
               (split; [eassumption |]); (split; [eassumption | reflexivity]) |]).
      destruct Hrow.
    + intros (a & b & a' & b' & Hin' & Ha' & Hb' & ->). cbn [In] in Hin'.
      repeat (destruct Hin' as [Hin' | Hin'];
              [injection Hin' as <- <- <-;
               match goal with
               | H1 : to_numeric ?x = Ok (value_of _), H2 : to_numeric ?x = Ok a' |- _ =>
                   rewrite H2 in H1; cbn [value_of] in H1
               end;
               match goal with
               | H1 : to_numeric ?x = Ok (value_of _), H2 : to_numeric ?x = Ok b' |- _ =>
                   rewrite H2 in H1; cbn [value_of] in H1
               end;
               rewrite Ha', Hb'; cbn [value_of In]; auto 10 |]).
      destruct Hin'.
Qed.

Lemma X24_witness :
  exists d table,
    explore_numeric_columns count_only as_is colors_self = (Ok d, colors_self)
    /\ Py.getitem d "size" = Some table
    /\ In (VStr "count", [VInt 3; VInt 2]) (indexed_rows table).
Proof.
  destruct (X24_explore_numeric_columns_tables count_only as_is colors_self)
    as (d & Hrun & Htables).
  - reflexivity.
  - split; [repeat constructor |].
    vm_compute. repeat constructor; simpl; intuition discriminate.
  - vm_compute. intuition discriminate.
  - intros c _ _. exists [VInt (Z.of_nat (List.length (cdata c))); VNull; VNull; VNull; VNull].
    split; [reflexivity |]. split; [reflexivity |].
    split; [simpl; intuition discriminate |].
    intros v _. exists v. reflexivity.
  - destruct (Htables (int_column "size" [1; 2; 3]%Z) (int_column "size" [4; 5]%Z))
      as (table & st & se & Hget & Hst & Hse & _ & Hrows).
    + right. left. reflexivity.
    + right. left. reflexivity.
    + reflexivity.
    + reflexivity.
    + exists d, table. split; [exact Hrun |]. split; [exact Hget |].
      apply Hrows. injection Hst as <-. injection Hse as <-.
      exists (VInt 3), (VInt 2), (VInt 3), (VInt 2).
      split; [left; reflexivity |]. repeat split; reflexivity.
Defined.

(** ** The assembled vectors *)












(** ** Printing an exploration *)

Lemma print_exploration_blocks to_string (d : Py.dict Pandas.DataFrame) :
  NoDup (Py.keys d) ->
  print_exploration to_string d = flat_map (printed_block to_string d) (Py.keys d).
Proof.
  intro Hnd.
  assert (H : forall d0 : Py.dict Pandas.DataFrame,
            NoDup (Py.keys d0) ->
            (forall k, In k (Py.keys d0) -> Py.getitem d k = Py.getitem d0 k) ->
            print_exploration to_string d0
            = flat_map (printed_block to_string d) (Py.keys d0)).
  { induction d0 as [| [k v] d0 IH]; intros Hnd0 Hget; [reflexivity |].
    cbn [Py.keys map fst] in Hnd0. inversion Hnd0 as [| ? ? Hk Hnd1]; subst.
    cbn [print_exploration Py.keys map fst flat_map].
    unfold printed_block at 1. rewrite (Hget k (or_introl eq_refl)).
    cbn [Py.getitem]. rewrite String.eqb_refl.
    change (print ["COLUMN:"; k; times "=" 15])
      with ("COLUMN:" ++ " " ++ k ++ " " ++ "===============")%string.
    cbn [app]. f_equal. f_equal. f_equal.
    apply IH; [exact Hnd1 |].
    intros k' Hk'. rewrite (Hget k' (or_intror Hk')). cbn [Py.getitem].
    destruct (String.eqb k k') eqn:E; [| reflexivity].
    apply String.eqb_eq in E. subst k'. contradiction. }
  apply H; [exact Hnd | reflexivity].
Qed.

Lemma explore_factors_ok_keys self d self' :
  explore_factors self = (Ok d, self') ->
  Py.keys d = columns (factor_columns (train_df self)) /\ NoDup (Py.keys d).
Proof.
  intro H. unfold explore_factors in H. apply bind_ok in H.
  destruct H as (fs & s1 & Hf & H).
  apply factors_ok in Hf. destruct Hf as (-> & Ftr & _).
  destruct (explore_factors_loop_ok _ _ _ _ _ H) as [Hall Hkeys].
  assert (Hnd : NoDup fs).
  { rewrite Ftr. apply NoDup_columns_filter. intros n Hn.
    apply Hall. rewrite Ftr. exact Hn. }
  cbn [Py.keys map app] in Hkeys. specialize (Hkeys Hnd).
  rewrite Hkeys. split; assumption.
Qed.

(** X26: [print_exploration] on the dictionary that [explore_factors]
    returned calls [print] three times per factor column, in schema order:
    with the header [COLUMN: <name>] followed by fifteen [=], with the table
    of the column, whose text may span several lines, and with a rule of
    fifty [=]. *)
Theorem X26_print_exploration (to_string : Pandas.DataFrame -> string)
    (self : DataPreprocessor) (d : Py.dict Pandas.DataFrame)
    (self' : DataPreprocessor) :
  explore_factors self = (Ok d, self') ->
  print_exploration to_string d
  = flat_map (printed_block to_string d) (columns (factor_columns (train_df self)))
  /\ List.length (print_exploration to_string d)
     = (3 * List.length (columns (factor_columns (train_df self))))%nat.
Proof.
  intro H. destruct (explore_factors_ok_keys _ _ _ H) as [Hkeys Hnd].
  assert (Hp : print_exploration to_string d
               = flat_map (printed_block to_string d)
                   (columns (factor_columns (train_df self)))).
  { rewrite <- Hkeys. apply print_exploration_blocks. exact Hnd. }
  split; [exact Hp |]. rewrite Hp. clear Hp Hkeys.
  induction (columns (factor_columns (train_df self))) as [| n ns IH];
    [reflexivity |].
  cbn [flat_map]. rewrite length_app, IH. cbn [printed_block List.length]. lia.
Qed.

Lemma X26_witness :
  exists d,
    explore_factors colors_self = (Ok d, colors_self)
    /\ nth 0 (print_exploration (fun _ => "table") d) ""
       = "COLUMN: color ===============".
Proof.
  destruct (explore_factors colors_self) as [[d | e] self'] eqn:E;
    [| vm_compute in E; discriminate E].
  destruct (X26_print_exploration (fun _ => "table") colors_self d self' E) as [H _].
  assert (self' = colors_self) as -> by exact (explore_factors_state _ _ _ E).
  exists d. split; [reflexivity |]. rewrite H. reflexivity.
Defined.

(** ** The tables of [explore_factors] *)

(** X27: on an instance with identical schemas, column names that are
    identifiers and differ even when case is ignored, and computable cells,
    when no factor is called [count], [in_train] or [in_test], whatever the
    case of its letters, [explore_factors] returns, leaves the instance
    unchanged, and stores for every factor column a table with the two
    columns [in_train] and [in_test], indexed by the values of the column: a
    string is in the index exactly when it occurs in the column in train or
    in test, and each of its rows holds 1 for a dataset in which its count is
    greater than zero and 0 for a dataset in which it does not occur. *)
Theorem X27_explore_factors_tables (self : DataPreprocessor) :
  same_schema self ->
  plain_names (train_df self) ->
  no_errors (train_df self) -> no_errors (test_df self) ->
  (forall n, In n (columns (factor_columns (train_df self))) ->
             ~ In (lower n) join_count_names) ->
  exists d,
    explore_factors self = (Ok d, self)
    /\ forall c_train c_test,
         In c_train (train_df self) -> In c_test (test_df self) ->
         ctype c_train = StringType -> cname c_test = cname c_train ->
         exists table,
           Py.getitem d (cname c_train) = Some table
           /\ Pandas.columns table = ["in_train"; "in_test"]
           /\ (forall s row,
                 In (VStr s, row) (indexed_rows table) ->
                 row = [indicator (cdata c_train) (VStr s);
                        indicator (cdata c_test) (VStr s)])
           /\ (forall s,
                 (exists row, In (VStr s, row) (indexed_rows table))
                 <-> In (VStr s) (cdata c_train) \/ In (VStr s) (cdata c_test)).
Proof.
  intros Hs Hplain Hetr Hete Hlow.
  pose proof (plain_names_NoDup _ Hplain) as Hnd.
  assert (Hres : forall n, In n (columns (factor_columns (train_df self))) ->
                           ~ In n join_count_names).
  { intros n Hn Hin. exact (Hlow n Hn (join_count_names_lower n Hin)). }
  assert (Hnd' : NoDup (columns (test_df self)))
    by (rewrite <- (schema_columns _ _ Hs); exact Hnd).
  set (fs := columns (factor_columns (train_df self))) in *.
  assert (Hcells : forall df c, NoDup (columns df) -> In c df ->
                                cells_of df (cname c) = cdata c).
  { intros df c Hn Hc. unfold cells_of. rewrite (resolve_NoDup df c Hn Hc).
    reflexivity. }
  exists (fold_left (fun d n => Py.setitem d n (factor_table self n)) fs []).
  split.
  - unfold explore_factors. rewrite (bind_eq_ok _ _ _ _ _ (factors_run self Hs)).
    apply explore_factors_loop_run. intros n Hn. split; [apply Hres, Hn |].
    pose proof (factor_In_columns _ _ Hn) as Hcol.
    assert (Hcol' : In n (columns (test_df self)))
      by (rewrite <- (schema_columns _ _ Hs); exact Hcol).
    unfold columns in Hcol, Hcol'. apply in_map_iff in Hcol, Hcol'.
    destruct Hcol as [c1 [<- Hc1]]. destruct Hcol' as [c2 [Hn2 Hc2]].
    split; [exists c1; apply resolve_NoDup; assumption |].
    split; [exists c2; rewrite <- Hn2; apply resolve_NoDup; assumption |].
    rewrite (Hcells _ c1 Hnd Hc1). rewrite <- Hn2, (Hcells _ c2 Hnd' Hc2).
    split; [apply Hetr, Hc1 | apply Hete, Hc2].
  - intros c1 c2 Hc1 Hc2 Hty Hn2.
    assert (Hf : In (cname c1) fs).
    { apply In_columns_filter. exists c1. rewrite Hty. auto. }
    exists (factor_table self (cname c1)).
    split; [apply getitem_fold_setitem; left; exact Hf |].
    assert (E1 : cells_of (train_df self) (cname c1) = cdata c1)
      by (apply Hcells; assumption).
    assert (E2 : cells_of (test_df self) (cname c1) = cdata c2)
      by (rewrite <- Hn2; apply Hcells; assumption).
    unfold factor_table. rewrite E1, E2.
    split; [reflexivity |]. split.
    + intros s row Hin. apply indexed_rows_exploration in Hin.
      destruct Hin as [r [Hr Hp]]. injection Hp as Hk ->.
      destruct (join_count_rows_shape _ _ _ Hr) as (k & a & b & -> & _ & _ & _ & Hcount).
      cbn in Hk. subst k. cbn [cell nth].
      destruct Hcount as [-> ->]; [discriminate |].
      rewrite !binarize_count_or_null. reflexivity.
    + intro s. split.
      * intros [row Hin]. apply indexed_rows_exploration in Hin.
        destruct Hin as [r [Hr Hp]]. injection Hp as Hk _.
        destruct (join_count_rows_shape _ _ _ Hr) as (k & a & b & -> & Hin & _).
        cbn in Hk. subst k. exact Hin.
      * intro Hin.
        destruct (join_count_rows_keys (cdata c1) (cdata c2) (VStr s)) as [r [Hr Hk]];
          [discriminate | exact Hin |].
        exists [binarize_count (cell r 1); binarize_count (cell r 2)].
        apply indexed_rows_exploration. exists r. rewrite Hk. auto.
Qed.

Lemma X27_witness :
  exists d table,
    explore_factors colors_self = (Ok d, colors_self)
    /\ Py.getitem d "color" = Some table
    /\ (forall row, In (VStr "red", row) (indexed_rows table) -> row = [VInt 1; VInt 0])
    /\ (forall row, In (VStr "blue", row) (indexed_rows table) -> row = [VInt 1; VInt 1])
    /\ (forall row, In (VStr "green", row) (indexed_rows table) -> row = [VInt 0; VInt 1])
    /\ (exists row, In (VStr "green", row) (indexed_rows table)).
Proof.
  destruct (X27_explore_factors_tables colors_self) as [d [Hrun Htables]].
  - reflexivity.
  - split; [repeat constructor |].
    vm_compute. repeat constructor; simpl; intuition discriminate.
  - intros c [<- | [<- | []]]; vm_compute; intuition discriminate.
  - intros c [<- | [<- | []]]; vm_compute; intuition discriminate.
  - intros n [<- | []]. vm_compute. intuition discriminate.
  - destruct (Htables (string_column "color" ["red"; "blue"; "red"])
                (string_column "color" ["blue"; "green"])
                (or_introl eq_refl) (or_introl eq_refl) eq_refl eq_refl)
      as (table & Hget & _ & Hrows & Hindex).
    exists d, table. split; [exact Hrun |]. split; [exact Hget |].
    split; [intros row Hin; exact (Hrows "red" row Hin) |].
    split; [intros row Hin; exact (Hrows "blue" row Hin) |].
    split; [intros row Hin; exact (Hrows "green" row Hin) |].
    apply (Hindex "green"). right. right. left. reflexivity.
Defined.
